(** * CycleGAN training orchestration ([training.py])

    A shallow embedding of [test_model], [run] and
    [load_model_and_only_test], and the properties of the orchestration
    loop: validation cadence, checkpointing, resume, loss histories.

    Conventions of the embedding.
    - Python integers are [Z]; [%] is [Z.modulo] (both round towards
      minus infinity) and raises [ZeroDivisionError] on a zero divisor.
    - Floating-point scalars are idealised as rationals [Q]; the one
      non-finite value the code itself can create, the [nan] that
      [np.mean] returns on an empty list, is kept ([npfloat]).
    - The collaborators that are imported from other modules
      ([models], [data_loader], [utils], [params], TensorFlow) are
      parameters: a class [External] of functions and a class [Params]
      of constants.  Collaborators that read the environment (files,
      random numbers, devices) or mutate the networks are functions of an
      abstract [World].
    - Every call that has an effect outside the process (printing,
      progress bars, plots, image files, checkpoints) and every call to a
      [World]-dependent collaborator is recorded as an [event]; a
      computation yields the list of events it emitted, in order. *)

From Stdlib Require Import ZArith QArith DecimalString.
From stdpp Require Import base gmap strings list list_numbers.

Open Scope Z_scope.

(** ** Python values and exceptions *)

(** The exceptions the code can meet; all are instances of Python's
    [Exception], so [except Exception] catches each of them. *)
Inductive exn : Type :=
| ZeroDivisionError
| UnboundLocalError (name : string)
| KeyError (key : string)
| OtherError (msg : string).

(** Arguments that are an [int] at some call sites and a [str] at others
    (the [epoch] of [test_model], the tags of [save_images]). *)
Inductive pyval : Type :=
| PyInt (z : Z)
| PyStr (s : string).

(** [str(z)] on an integer. *)
Definition str (z : Z) : string := NilZero.string_of_int (Z.to_int z).

(** [f"{v}"]. *)
Definition format (v : pyval) : string :=
  match v with
  | PyInt z => str z
  | PyStr s => s
  end.

(** ** Scalars *)

Inductive npfloat : Type :=
| nan
| num (q : Q).

Definition Qsum (xs : list Q) : Q := foldr Qplus 0%Q xs.

Definition arithmetic_mean (xs : list Q) : Q :=
  (Qsum xs / inject_Z (Z.of_nat (length xs)))%Q.

(** [np.mean]: the mean of an empty list is [nan] (with a warning, not an
    exception). *)
Definition np_mean (xs : list Q) : npfloat :=
  match xs with
  | [] => nan
  | _ :: _ => num (arithmetic_mean xs)
  end.

(** The Loss Record of a train or test step. *)
Record LossRecord : Type := {
  G_loss : Q;
  F_loss : Q;
  D_X_loss : Q;
  D_Y_loss : Q
}.

(** ** Configuration ([params]) *)

Class Params : Type := {
  EPOCHS : Z;
  BATCH_SIZE : Z;
  TRAIN_IMAGES : Z;
  VAL_IMAGES : Z;
  TEST_IMAGES : Z;
  LAMBDA_CYCLE : Q;
  LEARNING_RATE_GEN : Q;
  LEARNING_RATE_DISC : Q;
  BETA : Q;
  SAVE_EVERY_TRAIN : Z;
  SAVE_EVERY_TEST : Z;
  VALIDATION_EVERY : Z
}.

(** ** The model aggregate *)

Inductive loss_fn : Type :=
| generator_loss
| discriminator_loss
| cycle_consistency_loss
| identity_loss.

(** [tf.keras.optimizers.Adam(learning_rate, beta_1=...)]. *)
Record Optimizer : Type := Adam {
  learning_rate : Q;
  beta_1 : Q
}.

Record Compiled : Type := {
  g_optimizer : Optimizer;
  d_optimizer : Optimizer;
  gen_loss_fn : loss_fn;
  disc_loss_fn : loss_fn;
  cycle_loss_fn : loss_fn;
  identity_loss_fn : loss_fn
}.

Section Training.

Context {World Net Tensor : Type}.

(** A batch is the pair [(image_batch, noisy_batch)]. *)
Definition Batch : Type := Tensor * Tensor.

Definition Networks : Type := Net * Net * Net * Net.

(** The [CycleGAN] object: four networks, the cycle weight, and what
    [compile] stored ([None] before [compile]). *)
Record CycleGAN : Type := {
  generator_G : Net;
  generator_F : Net;
  discriminator_X : Net;
  discriminator_Y : Net;
  lambda_cycle : Q;
  compiled : option Compiled
}.

Definition compile (m : CycleGAN) (c : Compiled) : CycleGAN :=
  {| generator_G := generator_G m;
     generator_F := generator_F m;
     discriminator_X := discriminator_X m;
     discriminator_Y := discriminator_Y m;
     lambda_cycle := lambda_cycle m;
     compiled := Some c |}.

(** ** Collaborators *)

(** The functions [run] and [test_model] import.  Those that read files,
    draw random numbers or update the networks take and return the
    world.  A forward pass in inference mode ([forward]) and [test_step]
    only read the networks and are functions of their arguments.
    [batched_dataset a b n] stands for
    [Dataset.from_tensor_slices((a, b)).batch(n)], [tensor_take n t] for
    [t[:n]] and [tensor_shape t] for [t.shape].  The collaborators that
    only write ([print], [tqdm], [plot_images], [save_images],
    [save_models]) have no field here: a call to one of them is an
    [event]. *)
Class External : Type := {
  (* tensorflow *)
  list_physical_devices : string → World → list string * World;
  tensor_take : Z → Tensor → Tensor;
  tensor_shape : Tensor → list Z;
  batched_dataset : Tensor → Tensor → Z → list Batch;
  (* models *)
  make_generator_model : list Z → World → Net * World;
  make_discriminator_model : list Z → World → Net * World;
  forward : Net → Tensor → Tensor;
  train_step : CycleGAN → Batch → World → (LossRecord * CycleGAN) * World;
  test_step : CycleGAN → Batch → LossRecord;
  (* data_loader *)
  load_mnist : Z → Z → Z → World → (Tensor * Tensor * Tensor) * World;
  load_robotics_data : World → (Tensor * Tensor * Tensor) * World;
  add_salt_pepper_noise : Tensor → World → Tensor * World;
  remove_pixel : Tensor → World → Tensor * World;
  load_models : Z → World → (exn + Networks) * World
}.

Context {collaborators : External} {params : Params}.

(** ** Events *)

Inductive message : Type :=
| MsgGPUs (devices : list string)
| MsgUsingDevice (device : string)
| MsgResuming (epoch : Z)
| MsgErrorLoading (e : exn)
| MsgFromScratch
| MsgTrainShape (shape : list Z)
| MsgNoisyTrainShape (shape : list Z)
| MsgTraining
| MsgEpoch (epoch : Z)
| MsgValidationLoss
| MsgSavingModels (epoch : Z)
| MsgEpochComplete (epoch : Z)
| MsgTestLoss
| MsgTrainingComplete
| MsgAvgG (x : npfloat)
| MsgAvgF (x : npfloat)
| MsgAvgDX (x : npfloat)
| MsgAvgDY (x : npfloat)
| MsgBlank
| MsgTest
| MsgTestingComplete.

Inductive event : Type :=
| Print (m : message)
| Tqdm (desc : string)
| TfDevice (device : string)
| ListPhysicalDevices (kind : string)
| LoadModels (epoch : Z)
| MakeGeneratorModel (shape : list Z)
| MakeDiscriminatorModel (shape : list Z)
| LoadMnist (n_train n_val n_test : Z)
| LoadRoboticsData
| AddSaltPepperNoise (images : Tensor)
| RemovePixel (images : Tensor)
| PlotImages (real noisy generated : Tensor) (num_images : Z)
| SaveImages (real noisy generated : Tensor) (epoch batch : pyval)
    (output_dir : string)
| SaveModels (G F D_X D_Y : Net) (epoch : Z)
| TrainStep (data : Batch).

(** ** The monad: world passing, an event log, exceptions *)

Record outcome (A : Type) : Type := Outcome {
  emitted : list event;
  result : exn + A;
  final : World
}.
Arguments Outcome {A} _ _ _.
Arguments emitted {A} _.
Arguments result {A} _.
Arguments final {A} _.

Definition M (A : Type) : Type := World → outcome A.

Definition ret {A} (a : A) : M A := λ w, Outcome [] (inr a) w.

Definition bind {A B} (m : M A) (k : A → M B) : M B := λ w,
  match m w with
  | Outcome tr (inl e) w' => Outcome tr (inl e) w'
  | Outcome tr (inr a) w' =>
      match k a w' with
      | Outcome tr' r w'' => Outcome (tr ++ tr') r w''
      end
  end.

#[global] Instance M_ret : MRet M := @ret.
#[global] Instance M_bind : MBind M := λ A B k m, bind m k.

Definition raise {A} (e : exn) : M A := λ w, Outcome [] (inl e) w.

Definition emit (ev : event) : M unit := λ w, Outcome [ev] (inr tt) w.

(** A call to a collaborator that reads or changes the world. *)
Definition call {A} (ev : event) (f : World → A * World) : M A := λ w,
  let '(a, w') := f w in Outcome [ev] (inr a) w'.

(** The same for a collaborator that may raise. *)
Definition call_raising {A} (ev : event) (f : World → (exn + A) * World)
  : M A := λ w,
  let '(r, w') := f w in Outcome [ev] r w'.

(** [try: body except Exception as e: handler e]. *)
Definition try_except {A} (body : M A) (handler : exn → M A) : M A := λ w,
  match body w with
  | Outcome tr (inl e) w' =>
      match handler e w' with
      | Outcome tr' r w'' => Outcome (tr ++ tr') r w''
      end
  | Outcome tr (inr a) w' => Outcome tr (inr a) w'
  end.

Definition when (c : bool) (m : M unit) : M unit :=
  if c then m else ret tt.

(** [a % b] on integers. *)
Definition py_mod (a b : Z) : M Z :=
  if b =? 0 then raise ZeroDivisionError else ret (a mod b).

(** [d[key]] on a dict. *)
Definition getitem {V} (d : gmap string V) (key : string) : M V :=
  match d !! key with
  | Some v => ret v
  | None => raise (KeyError key)
  end.

(** [enumerate(l, start)]. *)
Fixpoint enumerate_from {A} (start : Z) (l : list A) : list (Z * A) :=
  match l with
  | [] => []
  | x :: l' => (start, x) :: enumerate_from (start + 1) l'
  end.

Definition enumerate {A} (l : list A) : list (Z * A) := enumerate_from 0 l.

(** [range(start, stop)]. *)
Definition range (start stop : Z) : list Z := seqZ start (stop - start).

(** [for x in l: s = body x s]. *)
Fixpoint for_each {A S} (l : list A) (s : S) (body : A → S → M S) : M S :=
  match l with
  | [] => ret s
  | x :: l' => s' ← body x s; for_each l' s' body
  end.

(** ** [test_model] *)

(** Lines 28-36: the body of the loop of [test_model]. *)
Definition test_batch (model : CycleGAN) (num_images : Z) (plot : bool)
    (epoch : pyval) (item : Z * Batch) (test_losses : list LossRecord)
  : M (list LossRecord) :=
  let '(batch, (image_batch, noisy_batch)) := item in
  let generated_images := forward (generator_G model) noisy_batch in
  when plot
    (emit (PlotImages image_batch noisy_batch generated_images num_images));;
  let data := (image_batch, noisy_batch) in
  let test_loss := test_step model data in
  let test_losses := test_losses ++ [test_loss] in
  r ← py_mod batch SAVE_EVERY_TEST;
  when (r =? 0)
    (emit (SaveImages image_batch noisy_batch generated_images epoch
             (PyStr (str batch)) "test_images"));;
  mret test_losses.

Definition test_model (model : CycleGAN) (test_dataset : list Batch)
    (num_images : Z) (plot : bool) (epoch : pyval)
  : M (gmap string npfloat) :=
  emit (Tqdm ("Epoch " +:+ format epoch));;
  test_losses ← for_each (enumerate test_dataset) []
                  (test_batch model num_images plot epoch);
  let avg_G_loss := np_mean (G_loss <$> test_losses) in
  let avg_F_loss := np_mean (F_loss <$> test_losses) in
  let avg_DX_loss := np_mean (D_X_loss <$> test_losses) in
  let avg_DY_loss := np_mean (D_Y_loss <$> test_losses) in
  emit (Print (MsgAvgG avg_G_loss));;
  emit (Print (MsgAvgF avg_F_loss));;
  emit (Print (MsgAvgDX avg_DX_loss));;
  emit (Print (MsgAvgDY avg_DY_loss));;
  emit (Print MsgBlank);;
  mret ({[ "avg_G_loss" := avg_G_loss;
           "avg_F_loss" := avg_F_loss;
           "avg_DX_loss" := avg_DX_loss;
           "avg_DY_loss" := avg_DY_loss ]} : gmap string npfloat).

(** ** [run] *)

(** The local variables of [run] that the training loop reads and
    writes.  [train_loss] is unbound until the first training step has
    been executed. *)
Record locals : Type := Locals {
  cycle_gan_model : CycleGAN;
  train_loss : option LossRecord;
  train_g_losses : list Q;
  train_f_losses : list Q;
  train_dx_losses : list Q;
  train_dy_losses : list Q;
  val_g_losses : list npfloat;
  val_f_losses : list npfloat;
  val_dx_losses : list npfloat;
  val_dy_losses : list npfloat
}.

(** Lines 71-76: device selection. *)
Definition select_device : M string :=
  physical_devices ← call (ListPhysicalDevices "GPU")
                       (list_physical_devices "GPU");
  emit (Print (MsgGPUs physical_devices));;
  devices ← call (ListPhysicalDevices "GPU") (list_physical_devices "GPU");
  let device :=
    match devices with
    | _ :: _ => "/gpu:0"
    | [] => "/cpu:0"
    end in
  emit (Print (MsgUsingDevice device));;
  emit (TfDevice device);;
  mret device.

(** Lines 77-93: the networks and the epoch to start from. *)
Definition make_networks (resume_train : bool) (start_epoch : Z)
    (robotics_task : bool) (shape : list Z) : M (Z * Networks) :=
  if resume_train && Bool.eqb robotics_task false then
    try_except
      ('(gen_G, gen_F, disc_X, disc_Y) ←
         call_raising (LoadModels start_epoch) (load_models start_epoch);
       emit (Print (MsgResuming (start_epoch + 1)));;
       mret (start_epoch, (gen_G, gen_F, disc_X, disc_Y)))
      (λ e,
         emit (Print (MsgErrorLoading e));;
         emit (Print MsgFromScratch);;
         let start_epoch := 0 in
         gen_G ← call (MakeGeneratorModel shape) (make_generator_model shape);
         gen_F ← call (MakeGeneratorModel shape) (make_generator_model shape);
         disc_X ← call (MakeDiscriminatorModel shape)
                    (make_discriminator_model shape);
         disc_Y ← call (MakeDiscriminatorModel shape)
                    (make_discriminator_model shape);
         mret (start_epoch, (gen_G, gen_F, disc_X, disc_Y)))
  else
    gen_G ← call (MakeGeneratorModel shape) (make_generator_model shape);
    gen_F ← call (MakeGeneratorModel shape) (make_generator_model shape);
    disc_X ← call (MakeDiscriminatorModel shape)
               (make_discriminator_model shape);
    disc_Y ← call (MakeDiscriminatorModel shape)
               (make_discriminator_model shape);
    mret (start_epoch, (gen_G, gen_F, disc_X, disc_Y)).

(** Lines 95-107: optimizers, the aggregate, [compile]. *)
Definition make_model (nets : Networks) : CycleGAN :=
  let '(gen_G, gen_F, disc_X, disc_Y) := nets in
  let g_optimizer := Adam (2 # 10000) (5 # 10) in
  let d_optimizer := Adam (1 # 10000) (5 # 10) in
  let model :=
    {| generator_G := gen_G;
       generator_F := gen_F;
       discriminator_X := disc_X;
       discriminator_Y := disc_Y;
       lambda_cycle := LAMBDA_CYCLE;
       compiled := None |} in
  compile model
    {| g_optimizer := g_optimizer;
       d_optimizer := d_optimizer;
       gen_loss_fn := generator_loss;
       disc_loss_fn := discriminator_loss;
       cycle_loss_fn := cycle_consistency_loss;
       identity_loss_fn := identity_loss |}.

(** The three datasets and the shapes printed before training. *)
Record datasets : Type := Datasets {
  train_dataset : list Batch;
  val_dataset : list Batch;
  test_dataset : list Batch;
  train_images_shape : list Z;
  noisy_train_images_shape : list Z
}.

(** Lines 109-128: images, their degraded versions, the batched datasets
    and the three preview plots. *)
Definition load_data (robotics_task : bool) : M datasets :=
  '(train_images, val_images, test_images,
    noisy_train_images, noisy_val_images, noisy_test_images) ←
    (if Bool.eqb robotics_task false then
       '(train_images, val_images, test_images) ←
         call (LoadMnist TRAIN_IMAGES VAL_IMAGES TEST_IMAGES)
           (load_mnist TRAIN_IMAGES VAL_IMAGES TEST_IMAGES);
       noisy_train_images ← call (AddSaltPepperNoise train_images)
                              (add_salt_pepper_noise train_images);
       noisy_val_images ← call (AddSaltPepperNoise val_images)
                            (add_salt_pepper_noise val_images);
       noisy_test_images ← call (AddSaltPepperNoise test_images)
                             (add_salt_pepper_noise test_images);
       mret (train_images, val_images, test_images,
             noisy_train_images, noisy_val_images, noisy_test_images)
     else
       '(train_images, val_images, test_images) ←
         call LoadRoboticsData load_robotics_data;
       noisy_train_images ← call (RemovePixel train_images)
                              (remove_pixel train_images);
       noisy_val_images ← call (RemovePixel val_images)
                            (remove_pixel val_images);
       noisy_test_images ← call (RemovePixel test_images)
                             (remove_pixel test_images);
       mret (train_images, val_images, test_images,
             noisy_train_images, noisy_val_images, noisy_test_images));
  let train_dataset :=
    batched_dataset train_images noisy_train_images BATCH_SIZE in
  let val_dataset :=
    batched_dataset val_images noisy_val_images BATCH_SIZE in
  let test_dataset :=
    batched_dataset test_images noisy_test_images BATCH_SIZE in
  emit (PlotImages (tensor_take 5 train_images)
          (tensor_take 5 noisy_train_images) (tensor_take 5 train_images) 5);;
  emit (PlotImages (tensor_take 5 val_images)
          (tensor_take 5 noisy_val_images) (tensor_take 5 val_images) 5);;
  emit (PlotImages (tensor_take 5 test_images)
          (tensor_take 5 noisy_test_images) (tensor_take 5 test_images) 5);;
  mret (Datasets train_dataset val_dataset test_dataset
          (tensor_shape train_images) (tensor_shape noisy_train_images)).

(** Lines 148-164: the body of the batch loop. *)
Definition batch_body (val_dataset : list Batch) (epoch : Z)
    (item : Z * Batch) (L : locals) : M locals :=
  let '(batch, (image_batch, noisy_batch)) := item in
  let data := (image_batch, noisy_batch) in
  '(train_loss, model) ← call (TrainStep data)
                           (train_step (cycle_gan_model L) data);
  let train_g_losses := train_g_losses L ++ [G_loss train_loss] in
  let train_f_losses := train_f_losses L ++ [F_loss train_loss] in
  let train_dx_losses := train_dx_losses L ++ [D_X_loss train_loss] in
  let train_dy_losses := train_dy_losses L ++ [D_Y_loss train_loss] in
  r ← py_mod batch SAVE_EVERY_TRAIN;
  when (r =? 0)
    (let generated_images := forward (generator_G model) noisy_batch in
     emit (SaveImages image_batch noisy_batch generated_images
             (PyInt epoch) (PyInt batch) "train_images"));;
  r ← py_mod batch VALIDATION_EVERY;
  if (r =? 0) && negb (batch =? 0) then
    emit (Print MsgValidationLoss);;
    avg_val_loss ← test_model model val_dataset 5 false
                     (PyStr (str epoch +:+ "_" +:+ str batch));
    g ← getitem avg_val_loss "avg_G_loss";
    f ← getitem avg_val_loss "avg_F_loss";
    dx ← getitem avg_val_loss "avg_DX_loss";
    dy ← getitem avg_val_loss "avg_DY_loss";
    mret (Locals model (Some train_loss)
            train_g_losses train_f_losses train_dx_losses train_dy_losses
            (val_g_losses L ++ [g]) (val_f_losses L ++ [f])
            (val_dx_losses L ++ [dx]) (val_dy_losses L ++ [dy]))
  else
    mret (Locals model (Some train_loss)
            train_g_losses train_f_losses train_dx_losses train_dy_losses
            (val_g_losses L) (val_f_losses L)
            (val_dx_losses L) (val_dy_losses L)).

(** Lines 146-172: the body of the epoch loop. *)
Definition epoch_body (train_dataset val_dataset : list Batch)
    (epoch : Z) (L : locals) : M locals :=
  emit (Print (MsgEpoch (epoch + 1)));;
  emit (Tqdm ("Epoch " +:+ str (epoch + 1)));;
  L ← for_each (enumerate train_dataset) L (batch_body val_dataset epoch);
  train_loss ← match train_loss L with
               | Some l => mret l
               | None => raise (UnboundLocalError "train_loss")
               end;
  let L :=
    Locals (cycle_gan_model L) (Some train_loss)
      (train_g_losses L ++ [G_loss train_loss])
      (train_f_losses L ++ [F_loss train_loss])
      (train_dx_losses L ++ [D_X_loss train_loss])
      (train_dy_losses L ++ [D_Y_loss train_loss])
      (val_g_losses L) (val_f_losses L)
      (val_dx_losses L) (val_dy_losses L) in
  emit (Print (MsgSavingModels (epoch + 1)));;
  emit (SaveModels (generator_G (cycle_gan_model L))
          (generator_F (cycle_gan_model L))
          (discriminator_X (cycle_gan_model L))
          (discriminator_Y (cycle_gan_model L)) epoch);;
  emit (Print (MsgEpochComplete (epoch + 1)));;
  mret L.

(** Lines 130-176: histories, the epoch loop and the final test.  [run]
    returns [None]; the embedding returns the final values of the local
    variables so that properties of the histories can be stated. *)
Definition training (model : CycleGAN) (data : datasets)
    (start_epoch : Z) : M locals :=
  let L := Locals model None [] [] [] [] [] [] [] [] in
  emit (Print (MsgTrainShape (train_images_shape data)));;
  emit (Print (MsgNoisyTrainShape (noisy_train_images_shape data)));;
  emit (Print MsgTraining);;
  L ← for_each (range start_epoch EPOCHS) L
        (epoch_body (train_dataset data) (val_dataset data));
  emit (Print MsgTestLoss);;
  test_model (cycle_gan_model L) (test_dataset data) 5 false
    (PyStr "final_test");;
  emit (Print MsgTrainingComplete);;
  mret L.

(** Lines 71-128: everything [run] does before the training loop. *)
Definition setup (resume_train : bool) (start_epoch : Z)
    (robotics_task : bool) (shape : list Z) : M (Z * CycleGAN * datasets) :=
  select_device;;
  '(start_epoch, nets) ←
    make_networks resume_train start_epoch robotics_task shape;
  let model := make_model nets in
  data ← load_data robotics_task;
  mret (start_epoch, model, data).

Definition run (resume_train : bool) (start_epoch : Z)
    (robotics_task : bool) (shape : list Z) : M locals :=
  '(start_epoch, model, data) ←
    setup resume_train start_epoch robotics_task shape;
  training model data start_epoch.

(** ** [load_model_and_only_test] *)

Definition load_model_and_only_test (epoch : Z) : M unit :=
  '(gen_G, gen_F, disc_X, disc_Y) ←
    call_raising (LoadModels epoch) (load_models epoch);
  let g_optimizer := Adam LEARNING_RATE_GEN BETA in
  let d_optimizer := Adam LEARNING_RATE_DISC BETA in
  let model :=
    compile
      {| generator_G := gen_G;
         generator_F := gen_F;
         discriminator_X := disc_X;
         discriminator_Y := disc_Y;
         lambda_cycle := LAMBDA_CYCLE;
         compiled := None |}
      {| g_optimizer := g_optimizer;
         d_optimizer := d_optimizer;
         gen_loss_fn := generator_loss;
         disc_loss_fn := discriminator_loss;
         cycle_loss_fn := cycle_consistency_loss;
         identity_loss_fn := identity_loss |} in
  '(_, _, test_images) ←
    call (LoadMnist TRAIN_IMAGES VAL_IMAGES TEST_IMAGES)
      (load_mnist TRAIN_IMAGES VAL_IMAGES TEST_IMAGES);
  noisy_test_images ← call (AddSaltPepperNoise test_images)
                        (add_salt_pepper_noise test_images);
  let test_dataset :=
    batched_dataset test_images noisy_test_images BATCH_SIZE in
  emit (Print MsgTest);;
  test_model model test_dataset 5 false (PyStr "final_test");;
  emit (Print MsgTestingComplete);;
  mret tt.

(** ** Reading the event log *)

Definition progress_bars (tr : list event) : list string :=
  omap (λ ev, match ev with Tqdm desc => Some desc | _ => None end) tr.

Definition plotted (tr : list event)
  : list (Tensor * Tensor * Tensor * Z) :=
  omap (λ ev, match ev with
              | PlotImages real noisy generated n =>
                  Some (real, noisy, generated, n)
              | _ => None
              end) tr.

Definition saved_images (tr : list event)
  : list (Tensor * Tensor * Tensor * pyval * pyval * string) :=
  omap (λ ev, match ev with
              | SaveImages real noisy generated epoch batch dir =>
                  Some (real, noisy, generated, epoch, batch, dir)
              | _ => None
              end) tr.

Definition saved_models (tr : list event) : list (Networks * Z) :=
  omap (λ ev, match ev with
              | SaveModels G F D_X D_Y epoch => Some ((G, F, D_X, D_Y), epoch)
              | _ => None
              end) tr.

Definition loaded_models (tr : list event) : list Z :=
  omap (λ ev, match ev with LoadModels epoch => Some epoch | _ => None end)
    tr.

Definition epoch_banners (tr : list event) : list Z :=
  omap (λ ev, match ev with Print (MsgEpoch n) => Some n | _ => None end)
    tr.

(** The two events that delimit an epoch, in the order they occur: the
    banner printed when it begins and the checkpoint written at its
    end. *)
Inductive mark : Type :=
| EpochBanner (n : Z)
| Checkpoint (epoch : Z).

Definition epoch_marks (tr : list event) : list mark :=
  omap (λ ev, match ev with
              | Print (MsgEpoch n) => Some (EpochBanner n)
              | SaveModels _ _ _ _ epoch => Some (Checkpoint epoch)
              | _ => None
              end) tr.

(** ** Closed forms used in the statements *)

(** The dict [test_model] builds from the per-batch test losses. *)
Definition averages (model : CycleGAN) (ds : list Batch)
  : gmap string npfloat :=
  let test_losses := test_step model <$> ds in
  {[ "avg_G_loss" := np_mean (G_loss <$> test_losses);
     "avg_F_loss" := np_mean (F_loss <$> test_losses);
     "avg_DX_loss" := np_mean (D_X_loss <$> test_losses);
     "avg_DY_loss" := np_mean (D_Y_loss <$> test_losses) ]}.

(** The events of one iteration of the loop of [test_model]. *)
Definition test_batch_events (model : CycleGAN) (num_images : Z)
    (plot : bool) (epoch : pyval) (item : Z * Batch) : list event :=
  let '(batch, (image_batch, noisy_batch)) := item in
  let generated_images := forward (generator_G model) noisy_batch in
  (if plot
   then [PlotImages image_batch noisy_batch generated_images num_images]
   else []) ++
  (if batch mod SAVE_EVERY_TEST =? 0
   then [SaveImages image_batch noisy_batch generated_images epoch
           (PyStr (str batch)) "test_images"]
   else []).

Definition test_model_events (model : CycleGAN) (ds : list Batch)
    (num_images : Z) (plot : bool) (epoch : pyval) : list event :=
  Tqdm ("Epoch " +:+ format epoch) ::
  (enumerate ds ≫= test_batch_events model num_images plot epoch) ++
  [Print (MsgAvgG (np_mean (G_loss <$> (test_step model <$> ds))));
   Print (MsgAvgF (np_mean (F_loss <$> (test_step model <$> ds))));
   Print (MsgAvgDX (np_mean (D_X_loss <$> (test_step model <$> ds))));
   Print (MsgAvgDY (np_mean (D_Y_loss <$> (test_step model <$> ds))));
   Print MsgBlank].

(** The guard of the validation pass, as the code writes it. *)
Definition validation_due (batch : Z) : bool :=
  (batch mod VALIDATION_EVERY =? 0) && negb (batch =? 0).

(** The three cadences are used as divisors. *)
Definition cadences_nonzero : Prop :=
  SAVE_EVERY_TRAIN ≠ 0 ∧ SAVE_EVERY_TEST ≠ 0 ∧ VALIDATION_EVERY ≠ 0.

(** The training steps of one epoch, threaded through the model and the
    world: the losses in batch order, the model and the world at the
    end. *)
Fixpoint train_steps (model : CycleGAN) (ds : list Batch) (w : World)
  : list LossRecord * CycleGAN * World :=
  match ds with
  | [] => ([], model, w)
  | data :: ds' =>
      let '(loss, model', w') := train_step model data w in
      let '(losses, model'', w'') := train_steps model' ds' w' in
      (loss :: losses, model'', w'')
  end.

(** The events of one iteration of the batch loop, given the model that
    the training step leaves. *)
Definition batch_events (val_dataset : list Batch) (epoch : Z)
    (item : Z * Batch) (model : CycleGAN) : list event :=
  let '(batch, (image_batch, noisy_batch)) := item in
  TrainStep (image_batch, noisy_batch) ::
  (if batch mod SAVE_EVERY_TRAIN =? 0
   then [SaveImages image_batch noisy_batch
           (forward (generator_G model) noisy_batch)
           (PyInt epoch) (PyInt batch) "train_images"]
   else []) ++
  (if validation_due batch
   then Print MsgValidationLoss ::
        test_model_events model val_dataset 5 false
          (PyStr (str epoch +:+ "_" +:+ str batch))
   else []).

(** The local variables after one iteration of the batch loop. *)
Definition batch_locals (val_dataset : list Batch) (batch : Z)
    (loss : LossRecord) (model : CycleGAN) (L : locals) : locals :=
  let avg (field : LossRecord → Q) (history : list npfloat) :=
    if validation_due batch
    then history ++ [np_mean (field <$> (test_step model <$> val_dataset))]
    else history in
  Locals model (Some loss)
    (train_g_losses L ++ [G_loss loss])
    (train_f_losses L ++ [F_loss loss])
    (train_dx_losses L ++ [D_X_loss loss])
    (train_dy_losses L ++ [D_Y_loss loss])
    (avg G_loss (val_g_losses L)) (avg F_loss (val_f_losses L))
    (avg D_X_loss (val_dx_losses L)) (avg D_Y_loss (val_dy_losses L)).

(** The image files a pass of [test_model] without plots writes. *)
Definition test_snapshot (model : CycleGAN) (epoch : pyval)
    (item : Z * Batch)
  : option (Tensor * Tensor * Tensor * pyval * pyval * string) :=
  let '(batch, (image_batch, noisy_batch)) := item in
  if batch mod SAVE_EVERY_TEST =? 0
  then Some (image_batch, noisy_batch,
             forward (generator_G model) noisy_batch,
             epoch, PyStr (str batch), "test_images")
  else None.

(** The description of the progress bar of a validation pass. *)
Definition validation_bar (epoch batch : Z) : string :=
  "Epoch " +:+ (str epoch +:+ "_" +:+ str batch).

(** The batch indices of [start, start + n) on which the guard holds. *)
Definition validation_batches (start : Z) (n : nat) : list Z :=
  filter (λ b, validation_due b) (seqZ start (Z.of_nat n)).

(** What the batch loop leaves, in terms of [train_steps]. *)
Record batch_loop_post (val_dataset : list Batch) (epoch start : Z)
    (ds : list Batch) (L : locals) (w : World)
    (tr : list event) (L' : locals) : Prop := {
  post_model :
    cycle_gan_model L' = (train_steps (cycle_gan_model L) ds w).1.2;
  post_train_loss :
    train_loss L'
      = from_option Some (train_loss L)
          (last (train_steps (cycle_gan_model L) ds w).1.1);
  post_train_g :
    train_g_losses L'
      = train_g_losses L
        ++ (G_loss <$> (train_steps (cycle_gan_model L) ds w).1.1);
  post_train_f :
    train_f_losses L'
      = train_f_losses L
        ++ (F_loss <$> (train_steps (cycle_gan_model L) ds w).1.1);
  post_train_dx :
    train_dx_losses L'
      = train_dx_losses L
        ++ (D_X_loss <$> (train_steps (cycle_gan_model L) ds w).1.1);
  post_train_dy :
    train_dy_losses L'
      = train_dy_losses L
        ++ (D_Y_loss <$> (train_steps (cycle_gan_model L) ds w).1.1);
  post_val :
    ∃ models : list CycleGAN,
      length models = length (validation_batches start (length ds)) ∧
      val_g_losses L'
        = val_g_losses L
          ++ ((λ m, np_mean (G_loss <$> (test_step m <$> val_dataset)))
                <$> models) ∧
      val_f_losses L'
        = val_f_losses L
          ++ ((λ m, np_mean (F_loss <$> (test_step m <$> val_dataset)))
                <$> models) ∧
      val_dx_losses L'
        = val_dx_losses L
          ++ ((λ m, np_mean (D_X_loss <$> (test_step m <$> val_dataset)))
                <$> models) ∧
      val_dy_losses L'
        = val_dy_losses L
          ++ ((λ m, np_mean (D_Y_loss <$> (test_step m <$> val_dataset)))
                <$> models);
  post_bars :
    progress_bars tr
      = validation_bar epoch <$> validation_batches start (length ds);
  post_saved_models : saved_models tr = [];
  post_loaded_models : loaded_models tr = [];
  post_banners : epoch_banners tr = [];
  post_marks : epoch_marks tr = []
}.

(** The local variables at the end of an epoch whose batch loop left [L]
    and whose last training step returned [loss]. *)
Definition epoch_end (L : locals) (loss : LossRecord) : locals :=
  Locals (cycle_gan_model L) (Some loss)
    (train_g_losses L ++ [G_loss loss])
    (train_f_losses L ++ [F_loss loss])
    (train_dx_losses L ++ [D_X_loss loss])
    (train_dy_losses L ++ [D_Y_loss loss])
    (val_g_losses L) (val_f_losses L) (val_dx_losses L) (val_dy_losses L).

(** The three events that close an epoch. *)
Definition checkpoint_events (model : CycleGAN) (epoch : Z) : list event :=
  [Print (MsgSavingModels (epoch + 1));
   SaveModels (generator_G model) (generator_F model)
     (discriminator_X model) (discriminator_Y model) epoch;
   Print (MsgEpochComplete (epoch + 1))].

(** Four fresh networks, in the order [run] creates them. *)
Definition fresh_networks (shape : list Z) (w : World) : Networks * World :=
  let '(gen_G, w) := make_generator_model shape w in
  let '(gen_F, w) := make_generator_model shape w in
  let '(disc_X, w) := make_discriminator_model shape w in
  let '(disc_Y, w) := make_discriminator_model shape w in
  ((gen_G, gen_F, disc_X, disc_Y), w).

Definition fresh_events (shape : list Z) : list event :=
  [MakeGeneratorModel shape; MakeGeneratorModel shape;
   MakeDiscriminatorModel shape; MakeDiscriminatorModel shape].

Definition device_events (devices : list string) (device : string)
  : list event :=
  [ListPhysicalDevices "GPU"; Print (MsgGPUs devices);
   ListPhysicalDevices "GPU"; Print (MsgUsingDevice device);
   TfDevice device].

(** ** More readers of the event log *)

(** The batches handed to [train_step], in order. *)
Definition trained_batches (tr : list event) : list Batch :=
  omap (λ ev, match ev with TrainStep data => Some data | _ => None end) tr.

(** The [save_images] calls into [train_images]: the three image
    tensors, the [epoch] tag and the [batch] tag. *)
Definition train_snapshots (tr : list event)
  : list (Tensor * Tensor * Tensor * pyval * pyval) :=
  omap (λ ev, match ev with
              | SaveImages real noisy generated epoch batch dir =>
                  if String.eqb dir "train_images"
                  then Some (real, noisy, generated, epoch, batch)
                  else None
              | _ => None
              end) tr.

(** The calls that load or degrade images. *)
Definition data_calls (tr : list event) : list event :=
  omap (λ ev, match ev with
              | LoadMnist _ _ _ | LoadRoboticsData
              | AddSaltPepperNoise _ | RemovePixel _ => Some ev
              | _ => None
              end) tr.

(** The events [test_model] emits when it does not plot. *)
Definition is_test_event (ev : event) : bool :=
  match ev with
  | Print _ | Tqdm _ | SaveImages _ _ _ _ _ _ => true
  | _ => false
  end.

(** The events of the training loop. *)
Definition is_loop_event (ev : event) : bool :=
  match ev with
  | Print _ | Tqdm _ | SaveImages _ _ _ _ _ _
  | SaveModels _ _ _ _ _ | TrainStep _ => true
  | _ => false
  end.

(** [m] emits only events that satisfy [P], whether it returns or
    raises. *)
Definition emits {A} (P : event → Prop) (m : M A) : Prop :=
  ∀ w, Forall P (emitted (m w)).

(** The model after each training step of an epoch, in batch order. *)
Fixpoint models_along (model : CycleGAN) (ds : list Batch) (w : World)
  : list CycleGAN :=
  match ds with
  | [] => []
  | data :: ds' =>
      let '(_, model', w') := train_step model data w in
      model' :: models_along model' ds' w'
  end.

(** The snapshot the batch loop saves for a batch, given the model that
    the training step on it left. *)
Definition train_snapshot (epoch : Z) (item : Z * (Batch * CycleGAN))
  : option (Tensor * Tensor * Tensor * pyval * pyval) :=
  let '(batch, ((image_batch, noisy_batch), model)) := item in
  if batch mod SAVE_EVERY_TRAIN =? 0
  then Some (image_batch, noisy_batch,
             forward (generator_G model) noisy_batch,
             PyInt epoch, PyInt batch)
  else None.

(** The average a validation pass appends for a batch, given the model
    that the training step on it left. *)
Definition validation_entry (field : LossRecord → Q)
    (val_dataset : list Batch) (item : Z * CycleGAN) : option npfloat :=
  let '(batch, model) := item in
  if validation_due batch
  then Some (np_mean (field <$> (test_step model <$> val_dataset)))
  else None.

(** What the loop over [epochs] adds up to. *)
Record epoch_loop_totals (train_dataset : list Batch) (epochs : list Z)
    (L : locals) (tr : list event) (L' : locals) : Prop := {
  total_trained : trained_batches tr = epochs ≫= (λ _, train_dataset);
  total_bars :
    progress_bars tr
      = epochs ≫=
          (λ e, ("Epoch " +:+ str (e + 1)) ::
                (validation_bar e
                   <$> validation_batches 0 (length train_dataset)));
  total_train_g :
    length (train_g_losses L')
      = (length (train_g_losses L)
         + length epochs * (length train_dataset + 1))%nat;
  total_train_f :
    length (train_f_losses L')
      = (length (train_f_losses L)
         + length epochs * (length train_dataset + 1))%nat;
  total_train_dx :
    length (train_dx_losses L')
      = (length (train_dx_losses L)
         + length epochs * (length train_dataset + 1))%nat;
  total_train_dy :
    length (train_dy_losses L')
      = (length (train_dy_losses L)
         + length epochs * (length train_dataset + 1))%nat;
  total_val_g :
    length (val_g_losses L')
      = (length (val_g_losses L)
         + length epochs
           * length (validation_batches 0 (length train_dataset)))%nat;
  total_val_f :
    length (val_f_losses L')
      = (length (val_f_losses L)
         + length epochs
           * length (validation_batches 0 (length train_dataset)))%nat;
  total_val_dx :
    length (val_dx_losses L')
      = (length (val_dx_losses L)
         + length epochs
           * length (validation_batches 0 (length train_dataset)))%nat;
  total_val_dy :
    length (val_dy_losses L')
      = (length (val_dy_losses L)
         + length epochs
           * length (validation_batches 0 (length train_dataset)))%nat
}.

(** The events of device selection and of the construction of the
    networks. *)
Definition is_setup_event (ev : event) : bool :=
  match ev with
  | Print _ | TfDevice _ | ListPhysicalDevices _ | LoadModels _
  | MakeGeneratorModel _ | MakeDiscriminatorModel _ => true
  | _ => false
  end.

(** Lines 109-118 as a function of the world in which [run] reaches
    them: the three splits the loader returns, in the order train,
    validation, test, their degraded versions, each computed in the
    world the previous call left, and the world after the last call. *)
Definition loaded_splits (robotics_task : bool) (w : World)
  : (Tensor * Tensor * Tensor) * (Tensor * Tensor * Tensor) * World :=
  if Bool.eqb robotics_task false then
    let '((train_images, val_images, test_images), w) :=
      load_mnist TRAIN_IMAGES VAL_IMAGES TEST_IMAGES w in
    let '(noisy_train_images, w) := add_salt_pepper_noise train_images w in
    let '(noisy_val_images, w) := add_salt_pepper_noise val_images w in
    let '(noisy_test_images, w) := add_salt_pepper_noise test_images w in
    ((train_images, val_images, test_images),
     (noisy_train_images, noisy_val_images, noisy_test_images), w)
  else
    let '((train_images, val_images, test_images), w) :=
      load_robotics_data w in
    let '(noisy_train_images, w) := remove_pixel train_images w in
    let '(noisy_val_images, w) := remove_pixel val_images w in
    let '(noisy_test_images, w) := remove_pixel test_images w in
    ((train_images, val_images, test_images),
     (noisy_train_images, noisy_val_images, noisy_test_images), w).

(** The three preview plots of lines 126-128, given the splits and their
    degraded versions. *)
Definition preview_events
    (clean noisy : Tensor * Tensor * Tensor) : list event :=
  let '(train_images, val_images, test_images) := clean in
  let '(noisy_train_images, noisy_val_images, noisy_test_images) := noisy in
  [PlotImages (tensor_take 5 train_images)
     (tensor_take 5 noisy_train_images) (tensor_take 5 train_images) 5;
   PlotImages (tensor_take 5 val_images)
     (tensor_take 5 noisy_val_images) (tensor_take 5 val_images) 5;
   PlotImages (tensor_take 5 test_images)
     (tensor_take 5 noisy_test_images) (tensor_take 5 test_images) 5].

End Training.

Arguments Outcome {World Net Tensor A} _ _ _.
Arguments emitted {World Net Tensor A} _.
Arguments result {World Net Tensor A} _.
Arguments final {World Net Tensor A} _.

(** * A concrete instance

    A small world on which the collaborators can be run: a tensor is the
    number of images it holds, a network is an identifier, the world
    holds the checkpoints on disk, the number of training images and a
    counter for fresh identifiers. *)

Record toy_world : Type := ToyWorld {
  checkpoints : list Z;
  images : nat;
  counter : nat
}.

Definition tick (w : toy_world) : toy_world :=
  ToyWorld (checkpoints w) (images w) (S (counter w)).

Definition toy_external : @External toy_world nat nat := {|
  list_physical_devices := λ _ w, ([], w);
  tensor_take := λ n t, Nat.min (Z.to_nat n) t;
  tensor_shape := λ t, [Z.of_nat t; 28; 28; 1];
  batched_dataset := λ a b n,
    replicate (Nat.div (a + Z.to_nat n - 1) (Z.to_nat n))
      (Z.to_nat n, Z.to_nat n);
  make_generator_model := λ _ w, (counter w, tick w);
  make_discriminator_model := λ _ w, (counter w, tick w);
  forward := λ _ t, t;
  train_step := λ m _ w,
    ({| G_loss := inject_Z (Z.of_nat (counter w)); F_loss := 2;
        D_X_loss := 1 # 2; D_Y_loss := 3 # 2 |}, m, tick w);
  test_step := λ _ d,
    {| G_loss := inject_Z (Z.of_nat d.1); F_loss := 2;
       D_X_loss := 1 # 2; D_Y_loss := 3 # 2 |};
  load_mnist := λ _ n_val n_test w,
    ((images w, Z.to_nat n_val, Z.to_nat n_test), w);
  load_robotics_data := λ w, ((images w, 2%nat, 2%nat), w);
  add_salt_pepper_noise := λ t w, (t, w);
  remove_pixel := λ t w, (t, w);
  load_models := λ epoch w,
    if bool_decide (epoch ∈ checkpoints w)
    then (inr (100%nat, 101%nat, 102%nat, 103%nat), w)
    else (inl (OtherError "checkpoint not found"), w)
|}.

Definition toy_params : Params := {|
  EPOCHS := 3;
  BATCH_SIZE := 1;
  TRAIN_IMAGES := 5;
  VAL_IMAGES := 2;
  TEST_IMAGES := 2;
  LAMBDA_CYCLE := 10;
  LEARNING_RATE_GEN := 2 # 10000;
  LEARNING_RATE_DISC := 1 # 10000;
  BETA := 5 # 10;
  SAVE_EVERY_TRAIN := 2;
  SAVE_EVERY_TEST := 1;
  VALIDATION_EVERY := 2
|}.

(** The same configuration with other optimizer settings. *)
Definition tuned_params : Params := {|
  EPOCHS := 3;
  BATCH_SIZE := 1;
  TRAIN_IMAGES := 5;
  VAL_IMAGES := 2;
  TEST_IMAGES := 2;
  LAMBDA_CYCLE := 10;
  LEARNING_RATE_GEN := 1 # 1000;
  LEARNING_RATE_DISC := 5 # 10000;
  BETA := 9 # 10;
  SAVE_EVERY_TRAIN := 2;
  SAVE_EVERY_TEST := 1;
  VALIDATION_EVERY := 2
|}.

Definition toy_model : CycleGAN :=
  make_model (params := toy_params) (0%nat, 1%nat, 2%nat, 3%nat).

Definition toy_locals : locals :=
  Locals toy_model None [] [] [] [] [] [] [] [].

Definition five_batches : list (@Batch nat) := replicate 5 (1%nat, 1%nat).

Definition two_batches : list (@Batch nat) :=
  [(1%nat, 1%nat); (3%nat, 3%nat)].

(** Nothing on disk; five training images. *)
Definition empty_disk : toy_world := ToyWorld [] 5 0.

(** A checkpoint for epoch 1; five training images. *)
Definition disk_with_epoch_1 : toy_world := ToyWorld [1] 5 0.

(** No training image at all. *)
Definition no_images : toy_world := ToyWorld [] 0 0.

(** The configuration of the instance with [SAVE_EVERY_TEST = 0]. *)
Definition zero_test_params : Params := {|
  EPOCHS := 3;
  BATCH_SIZE := 1;
  TRAIN_IMAGES := 5;
  VAL_IMAGES := 2;
  TEST_IMAGES := 2;
  LAMBDA_CYCLE := 10;
  LEARNING_RATE_GEN := 2 # 10000;
  LEARNING_RATE_DISC := 1 # 10000;
  BETA := 5 # 10;
  SAVE_EVERY_TRAIN := 2;
  SAVE_EVERY_TEST := 0;
  VALIDATION_EVERY := 2
|}.

(** The configuration of the instance with [VALIDATION_EVERY = 0]. *)
Definition zero_validation_params : Params := {|
  EPOCHS := 3;
  BATCH_SIZE := 1;
  TRAIN_IMAGES := 5;
  VAL_IMAGES := 2;
  TEST_IMAGES := 2;
  LAMBDA_CYCLE := 10;
  LEARNING_RATE_GEN := 2 # 10000;
  LEARNING_RATE_DISC := 1 # 10000;
  BETA := 5 # 10;
  SAVE_EVERY_TRAIN := 2;
  SAVE_EVERY_TEST := 1;
  VALIDATION_EVERY := 0
|}.

(** The datasets of the instance, given directly. *)
Definition toy_data : datasets :=
  Datasets five_batches two_batches two_batches [5; 28; 28; 1] [5; 28; 28; 1].

(** The configuration of the instance with other cadences. *)
Definition other_cadence_params : Params := {|
  EPOCHS := 3;
  BATCH_SIZE := 1;
  TRAIN_IMAGES := 5;
  VAL_IMAGES := 2;
  TEST_IMAGES := 2;
  LAMBDA_CYCLE := 10;
  LEARNING_RATE_GEN := 2 # 10000;
  LEARNING_RATE_DISC := 1 # 10000;
  BETA := 5 # 10;
  SAVE_EVERY_TRAIN := 1;
  SAVE_EVERY_TEST := 3;
  VALIDATION_EVERY := 1
|}.

(** The configuration of the instance with three splits of different
    sizes. *)
Definition distinct_splits_params : Params := {|
  EPOCHS := 3;
  BATCH_SIZE := 1;
  TRAIN_IMAGES := 5;
  VAL_IMAGES := 2;
  TEST_IMAGES := 3;
  LAMBDA_CYCLE := 10;
  LEARNING_RATE_GEN := 2 # 10000;
  LEARNING_RATE_DISC := 1 # 10000;
  BETA := 5 # 10;
  SAVE_EVERY_TRAIN := 2;
  SAVE_EVERY_TEST := 1;
  VALIDATION_EVERY := 2
|}.

(** * Lemmas *)

Section Properties.

Context {World Net Tensor : Type}.
Context {collaborators : @External World Net Tensor} {params : Params}.

#[local] Arguments test_model_events : simpl never.

(** ** The monad laws that the proofs use *)

Lemma bind_returns {A B} (m : @M World Net Tensor A) (k : A → M B)
    w tr a w' :
  m w = Outcome tr (inr a) w' →
  (m ≫= k) w =
    match k a w' with
    | Outcome tr' r w'' => Outcome (tr ++ tr') r w''
    end.
Proof.
  intros Hm. unfold mbind, M_bind, bind. rewrite Hm. reflexivity.
Qed.

Lemma bind_raises {A B} (m : @M World Net Tensor A) (k : A → M B)
    w tr e w' :
  m w = Outcome tr (inl e) w' →
  (m ≫= k) w = Outcome tr (inl e) w'.
Proof.
  intros Hm. unfold mbind, M_bind, bind. rewrite Hm. reflexivity.
Qed.

Lemma outcome_eta {A} (o : @outcome World Net Tensor A) :
  o = Outcome (emitted o) (result o) (final o).
Proof. destruct o; reflexivity. Qed.

Lemma py_mod_nonzero a b (w : World) :
  b ≠ 0 →
  py_mod (Net := Net) (Tensor := Tensor) a b w
    = Outcome [] (inr (a mod b)) w.
Proof.
  intros Hb. unfold py_mod. destruct (Z.eqb_spec b 0); [done|reflexivity].
Qed.

Lemma py_mod_zero a (w : World) :
  py_mod (Net := Net) (Tensor := Tensor) a 0 w
    = Outcome [] (inl ZeroDivisionError) w.
Proof. reflexivity. Qed.

(** ** [test_model]: what it returns and what it emits *)

Lemma test_batch_returns model num_images plot epoch item acc w :
  SAVE_EVERY_TEST ≠ 0 →
  test_batch model num_images plot epoch item acc w =
    Outcome (test_batch_events model num_images plot epoch item)
      (inr (acc ++ [test_step model item.2])) w.
Proof.
  intros HS. destruct item as [batch [image_batch noisy_batch]].
  unfold test_batch, test_batch_events, mbind, M_bind, bind.
  destruct plot; cbn [when emit ret]; rewrite py_mod_nonzero by done;
    destruct (batch mod SAVE_EVERY_TEST =? 0); reflexivity.
Qed.

Lemma test_loop_returns model num_images plot epoch ds :
  SAVE_EVERY_TEST ≠ 0 →
  ∀ start acc w,
    for_each (enumerate_from start ds) acc
      (test_batch model num_images plot epoch) w
    = Outcome
        (enumerate_from start ds ≫=
           test_batch_events model num_images plot epoch)
        (inr (acc ++ (test_step model <$> ds))) w.
Proof.
  intros HS. induction ds as [|d ds IH]; intros start acc w.
  - simpl. unfold ret. by rewrite app_nil_r.
  - cbn [enumerate_from for_each].
    erewrite bind_returns by (by apply test_batch_returns).
    rewrite IH. cbn. by rewrite <- app_assoc.
Qed.

Lemma test_model_returns model ds num_images plot epoch w :
  SAVE_EVERY_TEST ≠ 0 →
  test_model model ds num_images plot epoch w =
    Outcome (test_model_events model ds num_images plot epoch)
      (inr (averages model ds)) w.
Proof.
  intros HS. unfold test_model.
  unfold mbind at 1. unfold M_bind at 1. unfold bind at 1. cbn [emit].
  erewrite bind_returns by (by apply test_loop_returns).
  reflexivity.
Qed.

Lemma test_model_empty model num_images plot epoch w :
  test_model model [] num_images plot epoch w =
    Outcome (test_model_events model [] num_images plot epoch)
      (inr (averages model [])) w.
Proof. reflexivity. Qed.

(** ** One iteration of the batch loop *)

Lemma averages_lookup model ds :
  averages model ds !! "avg_G_loss"
    = Some (np_mean (G_loss <$> (test_step model <$> ds))) ∧
  averages model ds !! "avg_F_loss"
    = Some (np_mean (F_loss <$> (test_step model <$> ds))) ∧
  averages model ds !! "avg_DX_loss"
    = Some (np_mean (D_X_loss <$> (test_step model <$> ds))) ∧
  averages model ds !! "avg_DY_loss"
    = Some (np_mean (D_Y_loss <$> (test_step model <$> ds))).
Proof. unfold averages. repeat split; by simplify_map_eq. Qed.

Lemma getitem_averages model ds (w : World) :
  getitem (Net := Net) (Tensor := Tensor) (averages model ds)
      "avg_G_loss" w
    = Outcome [] (inr (np_mean (G_loss <$> (test_step model <$> ds)))) w ∧
  getitem (Net := Net) (Tensor := Tensor) (averages model ds)
      "avg_F_loss" w
    = Outcome [] (inr (np_mean (F_loss <$> (test_step model <$> ds)))) w ∧
  getitem (Net := Net) (Tensor := Tensor) (averages model ds)
      "avg_DX_loss" w
    = Outcome [] (inr (np_mean (D_X_loss <$> (test_step model <$> ds)))) w ∧
  getitem (Net := Net) (Tensor := Tensor) (averages model ds)
      "avg_DY_loss" w
    = Outcome [] (inr (np_mean (D_Y_loss <$> (test_step model <$> ds)))) w.
Proof.
  destruct (averages_lookup model ds) as (HG & HF & HX & HY).
  unfold getitem. rewrite HG, HF, HX, HY. done.
Qed.

Lemma batch_body_returns val_dataset epoch item L w loss model w' :
  cadences_nonzero →
  train_step (cycle_gan_model L) item.2 w = (loss, model, w') →
  batch_body val_dataset epoch item L w =
    Outcome (batch_events val_dataset epoch item model)
      (inr (batch_locals val_dataset item.1 loss model L)) w'.
Proof.
  intros (HT & HS & HV) Hstep.
  destruct item as [batch [image_batch noisy_batch]]. simpl in Hstep.
  destruct (getitem_averages model val_dataset w') as (HG & HF & HX & HY).
  unfold batch_body, batch_events, batch_locals, validation_due.
  cbn [fst]. unfold mbind, M_bind, bind, call. rewrite Hstep.
  rewrite py_mod_nonzero by done.
  destruct (batch mod SAVE_EVERY_TRAIN =? 0); cbn [when emit ret];
    rewrite py_mod_nonzero by done;
    destruct ((batch mod VALIDATION_EVERY =? 0) && negb (batch =? 0));
    cbn [emit ret mret M_ret];
    rewrite ?test_model_returns by done;
    rewrite ?HG, ?HF, ?HX, ?HY;
    cbn [app]; rewrite ?app_nil_r; reflexivity.
Qed.

(** ** Projections of the events of [test_model] *)

Lemma omap_bind_nil {A B C} (f : B → option C) (g : A → list B) l :
  (∀ x, omap f (g x) = []) → omap f (l ≫= g) = [].
Proof.
  intros Hg. induction l as [|x l IH]; [done|].
  cbn. by rewrite omap_app, Hg, IH.
Qed.

Lemma test_batch_events_no_bar model n plot epoch item :
  progress_bars (test_batch_events model n plot epoch item) = [].
Proof.
  destruct item as [b [i x]]. unfold test_batch_events.
  by destruct plot, (b mod SAVE_EVERY_TEST =? 0).
Qed.

Lemma test_batch_events_no_checkpoint model n plot epoch item :
  saved_models (test_batch_events model n plot epoch item) = [] ∧
  loaded_models (test_batch_events model n plot epoch item) = [] ∧
  epoch_banners (test_batch_events model n plot epoch item) = [] ∧
  epoch_marks (test_batch_events model n plot epoch item) = [].
Proof.
  destruct item as [b [i x]]. unfold test_batch_events.
  by destruct plot, (b mod SAVE_EVERY_TEST =? 0).
Qed.

Lemma test_model_events_bars model ds n plot epoch :
  progress_bars (test_model_events model ds n plot epoch)
    = ["Epoch " +:+ format epoch].
Proof.
  unfold test_model_events, progress_bars. cbn [omap list_omap].
  rewrite omap_app, omap_bind_nil; [done|].
  apply test_batch_events_no_bar.
Qed.

Lemma test_model_events_no_checkpoint model ds n plot epoch :
  saved_models (test_model_events model ds n plot epoch) = [] ∧
  loaded_models (test_model_events model ds n plot epoch) = [] ∧
  epoch_banners (test_model_events model ds n plot epoch) = [] ∧
  epoch_marks (test_model_events model ds n plot epoch) = [].
Proof.
  unfold test_model_events, saved_models, loaded_models, epoch_banners,
    epoch_marks.
  cbn [omap list_omap]. rewrite !omap_app.
  rewrite !omap_bind_nil; [done|intros x..];
    apply (test_batch_events_no_checkpoint model n plot epoch x).
Qed.

Lemma test_model_events_no_plot model ds n epoch :
  plotted (test_model_events model ds n false epoch) = [].
Proof.
  unfold test_model_events, plotted. cbn [omap list_omap].
  rewrite omap_app, omap_bind_nil; [done|].
  intros [b [i x]]. unfold test_batch_events.
  by destruct (b mod SAVE_EVERY_TEST =? 0).
Qed.

Lemma test_model_events_snapshots model ds n plot epoch :
  saved_images (test_model_events model ds n plot epoch)
    = omap (test_snapshot model epoch) (enumerate ds).
Proof.
  unfold test_model_events, saved_images, enumerate.
  cbn [omap list_omap]. rewrite omap_app. cbn [omap list_omap].
  rewrite app_nil_r. generalize 0.
  induction ds as [|[i x] ds IH]; intros start; [done|].
  cbn [enumerate_from]. cbn [mbind list_bind omap list_omap].
  rewrite omap_app, IH. unfold test_batch_events, test_snapshot.
  by destruct plot, (start mod SAVE_EVERY_TEST =? 0).
Qed.

(** ** The batch loop *)

Lemma validation_batches_S start n :
  validation_batches start (S n)
    = (if validation_due start then [start] else []) ++
      validation_batches (start + 1) n.
Proof.
  unfold validation_batches.
  rewrite seqZ_cons by lia. rewrite filter_cons.
  replace (Z.succ start) with (start + 1) by lia.
  replace (Z.pred (Z.of_nat (S n))) with (Z.of_nat n) by lia.
  destruct (validation_due start); by case_decide.
Qed.

Lemma batch_events_projections val_dataset epoch item model :
  progress_bars (batch_events val_dataset epoch item model)
    = (if validation_due item.1 then [validation_bar epoch item.1] else []) ∧
  saved_models (batch_events val_dataset epoch item model) = [] ∧
  loaded_models (batch_events val_dataset epoch item model) = [] ∧
  epoch_banners (batch_events val_dataset epoch item model) = [] ∧
  epoch_marks (batch_events val_dataset epoch item model) = [].
Proof.
  destruct item as [b [i x]]. unfold batch_events. cbn [fst].
  pose proof (test_model_events_bars model val_dataset 5 false
                (PyStr (str epoch +:+ "_" +:+ str b))) as Hbars.
  destruct (test_model_events_no_checkpoint model val_dataset 5 false
              (PyStr (str epoch +:+ "_" +:+ str b))) as (Hs & Hl & Hb & Hk).
  unfold progress_bars, saved_models, loaded_models, epoch_banners,
    epoch_marks in *.
  cbn [omap list_omap]. rewrite !omap_app.
  destruct (b mod SAVE_EVERY_TRAIN =? 0), (validation_due b);
    cbn [omap list_omap app]; rewrite ?Hbars, ?Hs, ?Hl, ?Hb, ?Hk; done.
Qed.

Lemma train_steps_cons model d ds w loss model1 w1 losses model2 w2 :
  train_step model d w = (loss, model1, w1) →
  train_steps model1 ds w1 = (losses, model2, w2) →
  train_steps model (d :: ds) w = (loss :: losses, model2, w2).
Proof. intros H1 H2. cbn. by rewrite H1, H2. Qed.

Lemma train_steps_length model ds w :
  length (train_steps model ds w).1.1 = length ds.
Proof.
  revert model w. induction ds as [|d ds IH]; intros model w; [done|].
  cbn. destruct (train_step model d w) as [[loss m] w1].
  specialize (IH m w1). destruct (train_steps m ds w1) as [[losses m'] w2].
  cbn in *. by rewrite IH.
Qed.

Lemma batch_loop_returns val_dataset epoch ds :
  cadences_nonzero →
  ∀ start L w, ∃ tr L',
    for_each (enumerate_from start ds) L (batch_body val_dataset epoch) w
      = Outcome tr (inr L') (train_steps (cycle_gan_model L) ds w).2 ∧
    batch_loop_post val_dataset epoch start ds L w tr L'.
Proof.
  intros Hc. induction ds as [|d ds IH]; intros start L w.
  - exists [], L. split; [done|].
    split; cbn; rewrite ?app_nil_r; try done.
    exists []. cbn. by rewrite !app_nil_r.
  - cbn [enumerate_from for_each].
    destruct (train_step (cycle_gan_model L) d w) as [[loss m] w1] eqn:Hstep.
    pose proof (batch_body_returns val_dataset epoch (start, d) L w
                  loss m w1 Hc Hstep) as Hbody. cbn [fst] in Hbody.
    destruct (IH (start + 1) (batch_locals val_dataset start loss m L) w1)
      as (tr & L' & Hloop & Hpost).
    destruct Hpost as [Hm Htl Hg Hf Hdx Hdy Hval Hbars Hsm Hlm Hbn Hmk].
    cbn [cycle_gan_model batch_locals train_loss train_g_losses
         train_f_losses train_dx_losses train_dy_losses val_g_losses
         val_f_losses val_dx_losses val_dy_losses] in *.
    destruct (train_steps m ds w1) as [[losses m'] w2] eqn:Hsteps.
    cbn [fst snd] in *.
    rewrite (bind_returns _ _ _ _ _ _ Hbody), Hloop.
    rewrite (train_steps_cons _ _ _ _ _ _ _ _ _ _ Hstep Hsteps).
    eexists _, L'. split; [done|].
    destruct (batch_events_projections val_dataset epoch (start, d) m)
      as (Ebars & Esm & Elm & Ebn & Emk). cbn [fst] in Ebars.
    split; rewrite ?(train_steps_cons _ _ _ _ _ _ _ _ _ _ Hstep Hsteps);
      cbn [fst snd length]; rewrite ?fmap_cons, ?validation_batches_S.
    + done.
    + rewrite Htl, last_cons. by destruct (last losses).
    + rewrite Hg. by rewrite <- app_assoc.
    + rewrite Hf. by rewrite <- app_assoc.
    + rewrite Hdx. by rewrite <- app_assoc.
    + rewrite Hdy. by rewrite <- app_assoc.
    + destruct Hval as (models & Hlen & Vg & Vf & Vdx & Vdy).
      rewrite Vg, Vf, Vdx, Vdy.
      destruct (validation_due start).
      * exists (m :: models). cbn. rewrite Hlen, <- !app_assoc. done.
      * exists models. done.
    + unfold progress_bars in *. rewrite omap_app, Ebars, Hbars.
      rewrite fmap_app. by destruct (validation_due start).
    + unfold saved_models in *. by rewrite omap_app, Esm, Hsm.
    + unfold loaded_models in *. by rewrite omap_app, Elm, Hlm.
    + unfold epoch_banners in *. by rewrite omap_app, Ebn, Hbn.
    + unfold epoch_marks in *. by rewrite omap_app, Emk, Hmk.
Qed.

(** ** Counting the validation passes of an epoch *)

Lemma div_pred_step (k v : Z) :
  0 < v → 0 < k →
  k / v = (k - 1) / v + (if k mod v =? 0 then 1 else 0).
Proof.
  intros Hv Hk.
  pose proof (Z.div_mod k v ltac:(lia)) as Hdm.
  pose proof (Z.mod_pos_bound k v Hv) as Hb.
  destruct (Z.eqb_spec (k mod v) 0) as [Hz|Hz].
  - rewrite Hz in *.
    assert ((k - 1) / v = k / v - 1) as ->; [|lia].
    symmetry. apply Z.div_unique with (r := v - 1); lia.
  - rewrite Z.add_0_r.
    apply Z.div_unique with (r := k mod v - 1); lia.
Qed.

Lemma validation_due_spec (b : Z) :
  0 ≤ b → validation_due b ↔ 0 < b ∧ b mod VALIDATION_EVERY = 0.
Proof.
  intros Hb. unfold validation_due.
  destruct (Z.eqb_spec (b mod VALIDATION_EVERY) 0), (Z.eqb_spec b 0);
    cbn; intuition lia.
Qed.

Lemma validation_batches_spec (K : nat) :
  validation_batches 0 K
    = filter (λ b, 0 < b ∧ b mod VALIDATION_EVERY = 0) (seqZ 0 (Z.of_nat K)).
Proof.
  unfold validation_batches. induction K as [|K IH]; [done|].
  rewrite seqZ_S, !filter_app, IH. f_equal.
  rewrite !filter_cons, !filter_nil.
  pose proof (validation_due_spec (0 + Z.of_nat K) ltac:(lia)) as Hdue.
  repeat case_decide; tauto.
Qed.

Lemma validation_count (K : nat) :
  0 < VALIDATION_EVERY → (1 ≤ K)%nat →
  Z.of_nat (length (validation_batches 0 K))
    = (Z.of_nat K - 1) / VALIDATION_EVERY.
Proof.
  intros HV HK. rewrite validation_batches_spec.
  induction K as [|K IH]; [lia|].
  rewrite seqZ_S, filter_app, length_app, filter_cons, filter_nil.
  destruct K as [|K].
  - cbn. case_decide; [lia|]. cbn. by rewrite Z.div_0_l by lia.
  - rewrite Nat2Z.inj_add, IH by lia.
    replace (Z.of_nat (S (S K)) - 1) with (Z.of_nat (S K)) by lia.
    rewrite (div_pred_step (Z.of_nat (S K)) VALIDATION_EVERY) by lia.
    replace (0 + Z.of_nat (S K)) with (Z.of_nat (S K)) by lia.
    f_equal.
    destruct (Z.eqb_spec (Z.of_nat (S K) mod VALIDATION_EVERY) 0);
      case_decide; cbn; try done; lia.
Qed.

Lemma validation_batches_not_zero (K : nat) : 0 ∉ validation_batches 0 K.
Proof.
  rewrite validation_batches_spec. rewrite list_elem_of_filter. lia.
Qed.

(** ** One epoch *)

Lemma epoch_body_unfold train_dataset val_dataset epoch L w tr L1 w1 loss :
  for_each (enumerate train_dataset) L (batch_body val_dataset epoch) w
    = Outcome tr (inr L1) w1 →
  train_loss L1 = Some loss →
  epoch_body train_dataset val_dataset epoch L w =
    Outcome
      (Print (MsgEpoch (epoch + 1)) :: Tqdm ("Epoch " +:+ str (epoch + 1)) ::
       tr ++ checkpoint_events (cycle_gan_model L1) epoch)
      (inr (epoch_end L1 loss)) w1.
Proof.
  intros Hloop Hloss. unfold epoch_body, mbind, M_bind, bind.
  cbn [emit]. rewrite Hloop, Hloss. reflexivity.
Qed.

Lemma last_is_Some {A} (l : list A) : l ≠ [] → is_Some (last l).
Proof.
  induction l as [|x l IH]; [done|]. intros _. rewrite last_cons.
  destruct (last l); eauto.
Qed.

Lemma epoch_body_returns train_dataset val_dataset epoch L w :
  cadences_nonzero → train_dataset ≠ [] →
  ∃ tr L1 loss,
    batch_loop_post val_dataset epoch 0 train_dataset L w tr L1 ∧
    last (train_steps (cycle_gan_model L) train_dataset w).1.1 = Some loss ∧
    epoch_body train_dataset val_dataset epoch L w =
      Outcome
        (Print (MsgEpoch (epoch + 1)) ::
         Tqdm ("Epoch " +:+ str (epoch + 1)) ::
         tr ++ checkpoint_events (cycle_gan_model L1) epoch)
        (inr (epoch_end L1 loss))
        (train_steps (cycle_gan_model L) train_dataset w).2.
Proof.
  intros Hc Hne.
  destruct (batch_loop_returns val_dataset epoch train_dataset Hc 0 L w)
    as (tr & L1 & Hloop & Hpost).
  destruct (last_is_Some (train_steps (cycle_gan_model L) train_dataset w).1.1)
    as [loss Hlast].
  { intros Hnil. apply (f_equal length) in Hnil.
    rewrite train_steps_length in Hnil. by destruct train_dataset. }
  exists tr, L1, loss. split_and!; [done..|].
  apply epoch_body_unfold; [done|].
  rewrite (post_train_loss _ _ _ _ _ _ _ _ Hpost), Hlast. done.
Qed.

(** ** The epoch loop and the final test *)

Lemma epoch_events_projections (tr : list (@event Net Tensor)) model
    epoch :
  saved_models tr = [] → loaded_models tr = [] → epoch_banners tr = [] →
  epoch_marks tr = [] →
  let events :=
    Print (MsgEpoch (epoch + 1)) :: Tqdm ("Epoch " +:+ str (epoch + 1)) ::
    tr ++ checkpoint_events model epoch in
  saved_models events
    = [((generator_G model, generator_F model,
         discriminator_X model, discriminator_Y model), epoch)] ∧
  loaded_models events = [] ∧
  epoch_banners events = [epoch + 1] ∧
  epoch_marks events = [EpochBanner (epoch + 1); Checkpoint epoch].
Proof.
  intros Hs Hl Hb Hk.
  unfold saved_models, loaded_models, epoch_banners, epoch_marks in *.
  cbn [omap list_omap]. rewrite !omap_app, Hs, Hl, Hb, Hk. done.
Qed.

Lemma epoch_loop_returns train_dataset val_dataset :
  cadences_nonzero → train_dataset ≠ [] →
  ∀ epochs L w, ∃ tr L' w',
    for_each epochs L (epoch_body train_dataset val_dataset) w
      = Outcome tr (inr L') w' ∧
    (saved_models tr).*2 = epochs ∧
    epoch_banners tr = (λ e, e + 1) <$> epochs ∧
    loaded_models tr = [] ∧
    epoch_marks tr = epochs ≫= (λ e, [EpochBanner (e + 1); Checkpoint e]).
Proof.
  intros Hc Hne. induction epochs as [|epoch epochs IH]; intros L w.
  - by exists [], L, w.
  - destruct (epoch_body_returns train_dataset val_dataset epoch L w Hc Hne)
      as (tr1 & L1 & loss & Hpost & _ & Hbody).
    destruct (IH (epoch_end L1 loss)
                (train_steps (cycle_gan_model L) train_dataset w).2)
      as (tr2 & L2 & w2 & Hloop & Hs & Hb & Hl & Hk).
    destruct (epoch_events_projections tr1 (cycle_gan_model L1) epoch)
      as (Es & El & Eb & Ek); [by destruct Hpost..|].
    cbn [for_each]. rewrite (bind_returns _ _ _ _ _ _ Hbody), Hloop.
    eexists _, L2, w2. split; [done|].
    unfold saved_models, loaded_models, epoch_banners, epoch_marks in *.
    rewrite !omap_app, Es, El, Eb, Ek, Hl, Hb, Hk, fmap_app, Hs. done.
Qed.

Lemma training_unfold model data start_epoch w tr L w' :
  for_each (range start_epoch EPOCHS)
    (Locals model None [] [] [] [] [] [] [] [])
    (epoch_body (train_dataset data) (val_dataset data)) w
    = Outcome tr (inr L) w' →
  training model data start_epoch w =
    match
      test_model (cycle_gan_model L) (test_dataset data) 5 false
        (PyStr "final_test") w'
    with
    | Outcome tr' (inl e) w'' =>
        Outcome
          (Print (MsgTrainShape (train_images_shape data)) ::
           Print (MsgNoisyTrainShape (noisy_train_images_shape data)) ::
           Print MsgTraining :: tr ++ Print MsgTestLoss :: tr')
          (inl e) w''
    | Outcome tr' (inr _) w'' =>
        Outcome
          (Print (MsgTrainShape (train_images_shape data)) ::
           Print (MsgNoisyTrainShape (noisy_train_images_shape data)) ::
           Print MsgTraining :: tr ++ Print MsgTestLoss :: tr' ++
           [Print MsgTrainingComplete])
          (inr L) w''
    end.
Proof.
  intros Hloop. unfold training, mbind, M_bind, bind. cbn [emit].
  rewrite Hloop.
  destruct (test_model _ _ _ _ _ _) as [tr' [e|d] w'']; reflexivity.
Qed.

Lemma training_returns model data start_epoch w :
  cadences_nonzero → train_dataset data ≠ [] →
  ∃ L,
    result (training model data start_epoch w) = inr L ∧
    (saved_models (emitted (training model data start_epoch w))).*2
      = range start_epoch EPOCHS ∧
    epoch_banners (emitted (training model data start_epoch w))
      = (λ e, e + 1) <$> range start_epoch EPOCHS ∧
    loaded_models (emitted (training model data start_epoch w)) = [] ∧
    epoch_marks (emitted (training model data start_epoch w))
      = range start_epoch EPOCHS ≫=
          (λ e, [EpochBanner (e + 1); Checkpoint e]).
Proof.
  intros Hc Hne.
  destruct (epoch_loop_returns (train_dataset data) (val_dataset data) Hc Hne
              (range start_epoch EPOCHS)
              (Locals model None [] [] [] [] [] [] [] []) w)
    as (tr & L & w' & Hloop & Hs & Hb & Hl & Hk).
  rewrite (training_unfold _ _ _ _ _ _ _ Hloop).
  rewrite test_model_returns by apply Hc.
  destruct (test_model_events_no_checkpoint (cycle_gan_model L)
              (test_dataset data) 5 false (PyStr "final_test"))
    as (Ts & Tl & Tb & Tk).
  exists L. cbn [emitted result].
  unfold saved_models, loaded_models, epoch_banners, epoch_marks in *.
  cbn [omap list_omap]. rewrite !omap_app. cbn [omap list_omap].
  rewrite !omap_app, Ts, Tl, Tb, Tk, Hl, Hb, Hk. cbn [omap list_omap].
  rewrite !app_nil_r. done.
Qed.

(** ** Before the loop: devices, networks, data *)

Lemma select_device_returns w :
  ∃ devices device,
    select_device w
      = Outcome (device_events devices device) (inr device)
          (final (select_device w)).
Proof.
  unfold select_device, mbind, M_bind, bind, call. cbn [emit].
  destruct (list_physical_devices "GPU" w) as [devices w1].
  destruct (list_physical_devices "GPU" w1) as [devices' w2].
  eexists devices, _. reflexivity.
Qed.

Lemma make_networks_fresh resume_train start_epoch robotics_task shape w :
  resume_train && Bool.eqb robotics_task false = false →
  make_networks resume_train start_epoch robotics_task shape w =
    Outcome (fresh_events shape)
      (inr (start_epoch, (fresh_networks shape w).1))
      (fresh_networks shape w).2.
Proof.
  intros Hguard. unfold make_networks, fresh_networks. rewrite Hguard.
  unfold mbind, M_bind, bind, call.
  destruct (make_generator_model shape w) as [gen_G w1].
  destruct (make_generator_model shape w1) as [gen_F w2].
  destruct (make_discriminator_model shape w2) as [disc_X w3].
  destruct (make_discriminator_model shape w3) as [disc_Y w4].
  reflexivity.
Qed.

Lemma make_networks_loaded start_epoch shape w nets w1 :
  load_models start_epoch w = (inr nets, w1) →
  make_networks true start_epoch false shape w =
    Outcome [LoadModels start_epoch; Print (MsgResuming (start_epoch + 1))]
      (inr (start_epoch, nets)) w1.
Proof.
  intros Hload. unfold make_networks. cbn [andb Bool.eqb].
  unfold try_except, mbind, M_bind, bind, call_raising. rewrite Hload.
  destruct nets as [[[gen_G gen_F] disc_X] disc_Y]. reflexivity.
Qed.

Lemma make_networks_fallback start_epoch shape w err w1 :
  load_models start_epoch w = (inl err, w1) →
  make_networks true start_epoch false shape w =
    Outcome
      (LoadModels start_epoch :: Print (MsgErrorLoading err) ::
       Print MsgFromScratch :: fresh_events shape)
      (inr (0, (fresh_networks shape w1).1))
      (fresh_networks shape w1).2.
Proof.
  intros Hload. unfold make_networks, fresh_networks. cbn [andb Bool.eqb].
  unfold try_except, mbind, M_bind, bind, call_raising, call.
  rewrite Hload. cbn [emit].
  destruct (make_generator_model shape w1) as [gen_G w2].
  destruct (make_generator_model shape w2) as [gen_F w3].
  destruct (make_discriminator_model shape w3) as [disc_X w4].
  destruct (make_discriminator_model shape w4) as [disc_Y w5].
  reflexivity.
Qed.

Lemma load_data_returns robotics_task w :
  ∃ tr data,
    load_data robotics_task w
      = Outcome tr (inr data) (final (load_data robotics_task w)) ∧
    saved_models tr = [] ∧ loaded_models tr = [] ∧ epoch_banners tr = [] ∧
    epoch_marks tr = [].
Proof.
  unfold load_data, mbind, M_bind, bind, call.
  destruct robotics_task; cbn [Bool.eqb].
  - destruct (load_robotics_data w) as [[[tr_i va_i] te_i] w1].
    destruct (remove_pixel tr_i w1) as [tr_n w2].
    destruct (remove_pixel va_i w2) as [va_n w3].
    destruct (remove_pixel te_i w3) as [te_n w4].
    cbn. eexists _, _. split; [reflexivity|done].
  - destruct (load_mnist TRAIN_IMAGES VAL_IMAGES TEST_IMAGES w)
      as [[[tr_i va_i] te_i] w1].
    destruct (add_salt_pepper_noise tr_i w1) as [tr_n w2].
    destruct (add_salt_pepper_noise va_i w2) as [va_n w3].
    destruct (add_salt_pepper_noise te_i w3) as [te_n w4].
    cbn. eexists _, _. split; [reflexivity|done].
Qed.

(** The events of [load_data] and the datasets it returns, in terms of
    the splits the loader returns and their degraded versions. *)
Lemma load_data_splits robotics_task (w : World) a b c na nb nc w' :
  loaded_splits robotics_task w = ((a, b, c), (na, nb, nc), w') →
  load_data robotics_task w =
    Outcome
      ((if robotics_task
        then [LoadRoboticsData; RemovePixel a; RemovePixel b;
              RemovePixel c]
        else [LoadMnist TRAIN_IMAGES VAL_IMAGES TEST_IMAGES;
              AddSaltPepperNoise a; AddSaltPepperNoise b;
              AddSaltPepperNoise c]) ++
       preview_events (a, b, c) (na, nb, nc))
      (inr (Datasets (batched_dataset a na BATCH_SIZE)
              (batched_dataset b nb BATCH_SIZE)
              (batched_dataset c nc BATCH_SIZE)
              (tensor_shape a) (tensor_shape na))) w'.
Proof.
  unfold loaded_splits, load_data, mbind, M_bind, bind, call.
  destruct robotics_task; cbn [Bool.eqb].
  - destruct (load_robotics_data w) as [[[a0 b0] c0] w1].
    destruct (remove_pixel a0 w1) as [na0 w2].
    destruct (remove_pixel b0 w2) as [nb0 w3].
    destruct (remove_pixel c0 w3) as [nc0 w4].
    intros [= -> -> -> -> -> -> ->]. reflexivity.
  - destruct (load_mnist TRAIN_IMAGES VAL_IMAGES TEST_IMAGES w)
      as [[[a0 b0] c0] w1].
    destruct (add_salt_pepper_noise a0 w1) as [na0 w2].
    destruct (add_salt_pepper_noise b0 w2) as [nb0 w3].
    destruct (add_salt_pepper_noise c0 w3) as [nc0 w4].
    intros [= -> -> -> -> -> -> ->]. reflexivity.
Qed.

Lemma setup_unfold resume_train start_epoch robotics_task shape w
    tr1 device w1 tr2 start nets w2 tr3 data w3 :
  select_device w = Outcome tr1 (inr device) w1 →
  make_networks resume_train start_epoch robotics_task shape w1
    = Outcome tr2 (inr (start, nets)) w2 →
  load_data robotics_task w2 = Outcome tr3 (inr data) w3 →
  setup resume_train start_epoch robotics_task shape w =
    Outcome (tr1 ++ tr2 ++ tr3) (inr (start, make_model nets, data)) w3.
Proof.
  intros H1 H2 H3. unfold setup, mbind, M_bind, bind.
  rewrite H1, H2, H3. cbn. by rewrite app_nil_r.
Qed.

Lemma run_unfold resume_train start_epoch robotics_task shape w
    tr start model data w' :
  setup resume_train start_epoch robotics_task shape w
    = Outcome tr (inr (start, model, data)) w' →
  run resume_train start_epoch robotics_task shape w =
    Outcome (tr ++ emitted (training model data start w'))
      (result (training model data start w'))
      (final (training model data start w')).
Proof.
  intros Hsetup. unfold run, mbind, M_bind, bind. rewrite Hsetup.
  by destruct (training model data start w').
Qed.

(** ** Which exceptions can escape, whatever the configuration *)

(** These lemmas make no assumption on the cadences: a computation either
    raises [ZeroDivisionError] or returns, and in both cases it has not
    called [load_models]. *)

Lemma test_model_cases model ds num_images plot epoch w :
  (∃ tr, test_model model ds num_images plot epoch w
           = Outcome tr (inl ZeroDivisionError) w ∧
         loaded_models tr = []) ∨
  test_model model ds num_images plot epoch w
    = Outcome (test_model_events model ds num_images plot epoch)
        (inr (averages model ds)) w.
Proof.
  destruct (decide (SAVE_EVERY_TEST = 0)) as [Hz|Hnz];
    [|right; by apply test_model_returns].
  destruct ds as [|[image_batch noisy_batch] ds]; [by right|left].
  unfold test_model, enumerate, mbind, M_bind, bind. cbn [emit].
  cbn [enumerate_from for_each]. unfold mbind, M_bind, bind, test_batch.
  unfold mbind, M_bind, bind, py_mod. rewrite Hz.
  destruct plot; cbn; eauto.
Qed.

Lemma batch_body_cases val_dataset epoch item L w tr r w' :
  batch_body val_dataset epoch item L w = Outcome tr r w' →
  loaded_models tr = [] ∧
  match r with
  | inl e => e = ZeroDivisionError
  | inr L' => is_Some (train_loss L')
  end.
Proof.
  destruct item as [batch [image_batch noisy_batch]].
  unfold batch_body, mbind, M_bind, bind, call.
  destruct (train_step _ _ w) as [[loss model] w1].
  unfold py_mod at 1.
  destruct (SAVE_EVERY_TRAIN =? 0); [cbn; by intros [= <- <- <-]|].
  cbn [ret]. destruct (batch mod SAVE_EVERY_TRAIN =? 0); cbn [when emit ret];
    unfold py_mod;
    (destruct (VALIDATION_EVERY =? 0); [cbn; by intros [= <- <- <-]|]);
    cbn [ret];
    (destruct ((batch mod VALIDATION_EVERY =? 0) && negb (batch =? 0));
     [|cbn; intros [= <- <- <-]; split; [done|by eexists]]);
    cbn [emit];
    (destruct (test_model_cases model val_dataset 5 false
                (PyStr (str epoch +:+ "_" +:+ str batch)) w1)
       as [(tr' & -> & Htr')| ->];
     [intros [= <- <- <-]; split; [|done];
      unfold loaded_models in *; cbn [app omap list_omap]; by rewrite Htr'|]);
    destruct (getitem_averages model val_dataset w1) as (-> & -> & -> & ->);
    destruct (test_model_events_no_checkpoint model val_dataset 5 false
                (PyStr (str epoch +:+ "_" +:+ str batch)))
      as (_ & Hl & _ & _);
    cbn [ret mret M_ret]; intros [= <- <- <-]; (split; [|by eexists]);
    unfold loaded_models in *; cbn [app omap list_omap];
    rewrite ?app_nil_r, ?omap_app;
    first [done
          |rewrite omap_bind_nil;
           [done|intros x; apply (test_batch_events_no_checkpoint model 5)]].
Qed.

Lemma batch_loop_cases val_dataset epoch ds :
  ∀ start L w tr r w',
    for_each (enumerate_from start ds) L (batch_body val_dataset epoch) w
      = Outcome tr r w' →
    loaded_models tr = [] ∧
    match r with
    | inl e => e = ZeroDivisionError
    | inr L' => ds ≠ [] ∨ is_Some (train_loss L) → is_Some (train_loss L')
    end.
Proof.
  induction ds as [|d ds IH]; intros start L w tr r w'.
  - cbn. intros [= <- <- <-]. split; [done|]. by intros [|].
  - cbn [enumerate_from for_each]. unfold mbind, M_bind, bind.
    destruct (batch_body val_dataset epoch (start, d) L w)
      as [tr1 [e|L1] w1] eqn:Hbody;
      destruct (batch_body_cases _ _ _ _ _ _ _ _ Hbody) as [Hl1 Hcase].
    + by intros [= <- <- <-].
    + destruct (for_each _ L1 _ w1) as [tr2 r2 w2] eqn:Hloop.
      intros [= <- <- <-]. destruct (IH _ _ _ _ _ _ Hloop) as [Hl2 IH'].
      split.
      * unfold loaded_models in *. by rewrite omap_app, Hl1, Hl2.
      * destruct r2; [done|]. intros _. apply IH'. by right.
Qed.

Lemma epoch_body_cases train_dataset val_dataset epoch L w tr r w' :
  train_dataset ≠ [] ∨ is_Some (train_loss L) →
  epoch_body train_dataset val_dataset epoch L w = Outcome tr r w' →
  loaded_models tr = [] ∧
  match r with
  | inl e => e = ZeroDivisionError
  | inr L' => is_Some (train_loss L')
  end.
Proof.
  intros Hne. unfold epoch_body, mbind, M_bind, bind. cbn [emit].
  destruct (for_each _ L _ w) as [tr1 [e|L1] w1] eqn:Hloop;
    destruct (batch_loop_cases _ _ _ _ _ _ _ _ _ Hloop) as [Hl Hcase];
    cbn in Hcase.
  - by intros [= <- <- <-].
  - destruct (Hcase Hne) as [loss ->]. cbn. intros [= <- <- <-].
    split; [|by eexists].
    unfold loaded_models in *. cbn [omap list_omap].
    by rewrite omap_app, Hl.
Qed.

Lemma epoch_body_no_load train_dataset val_dataset epoch L w :
  loaded_models (emitted (epoch_body train_dataset val_dataset epoch L w))
    = [].
Proof.
  unfold epoch_body, mbind, M_bind, bind. cbn [emit].
  destruct (for_each _ L _ w) as [tr1 [e|L1] w1] eqn:Hloop;
    destruct (batch_loop_cases _ _ _ _ _ _ _ _ _ Hloop) as [Hl _].
  - done.
  - unfold loaded_models in *.
    destruct (train_loss L1); cbn; by rewrite ?omap_app, Hl.
Qed.

Lemma epoch_loop_cases train_dataset val_dataset epochs :
  train_dataset ≠ [] →
  ∀ L w tr r w',
    for_each epochs L (epoch_body train_dataset val_dataset) w
      = Outcome tr r w' →
    match r with
    | inl e => e = ZeroDivisionError
    | inr _ => True
    end.
Proof.
  intros Hne. induction epochs as [|epoch epochs IH]; intros L w tr r w'.
  - cbn. by intros [= <- <- <-].
  - cbn [for_each]. unfold mbind, M_bind, bind.
    destruct (epoch_body _ _ epoch L w) as [tr1 [e|L1] w1] eqn:Hbody;
      destruct (epoch_body_cases _ _ _ _ _ _ _ _ (or_introl Hne) Hbody)
        as [_ Hcase].
    + by intros [= <- <- <-].
    + destruct (for_each _ L1 _ w1) as [tr2 r2 w2] eqn:Hloop.
      intros [= <- <- <-]. apply (IH _ _ _ _ _ Hloop).
Qed.

Lemma epoch_loop_no_load train_dataset val_dataset epochs :
  ∀ L w,
    loaded_models
      (emitted (for_each epochs L (epoch_body train_dataset val_dataset) w))
      = [].
Proof.
  induction epochs as [|epoch epochs IH]; intros L w; [done|].
  cbn [for_each]. unfold mbind, M_bind, bind.
  pose proof (epoch_body_no_load train_dataset val_dataset epoch L w) as Hl1.
  destruct (epoch_body _ _ epoch L w) as [tr1 [e|L1] w1]; [done|].
  specialize (IH L1 w1).
  destruct (for_each _ L1 _ w1) as [tr2 r2 w2].
  cbn in *. unfold loaded_models in *. by rewrite omap_app, Hl1, IH.
Qed.

Lemma training_cases model data start_epoch w e :
  train_dataset data ≠ [] →
  result (training model data start_epoch w) = inl e →
  e = ZeroDivisionError.
Proof.
  intros Hne. unfold training, mbind, M_bind, bind. cbn [emit].
  destruct (for_each _ _ _ w) as [tr1 [e1|L1] w1] eqn:Hloop;
    pose proof (epoch_loop_cases _ _ _ Hne _ _ _ _ _ Hloop) as Hcase.
  - cbn. congruence.
  - destruct (test_model_cases (cycle_gan_model L1) (test_dataset data) 5
                false (PyStr "final_test") w1) as [(tr' & -> & _)| ->]; cbn;
      congruence.
Qed.

Lemma training_no_load model data start_epoch w :
  loaded_models (emitted (training model data start_epoch w)) = [].
Proof.
  unfold training, mbind, M_bind, bind. cbn [emit].
  pose proof (epoch_loop_no_load (train_dataset data) (val_dataset data)
                (range start_epoch EPOCHS)
                (Locals model None [] [] [] [] [] [] [] []) w) as Hl.
  destruct (for_each _ _ _ w) as [tr1 [e1|L1] w1]; cbn in Hl.
  - cbn. unfold loaded_models in *. cbn [omap list_omap]. done.
  - destruct (test_model_events_no_checkpoint (cycle_gan_model L1)
                (test_dataset data) 5 false (PyStr "final_test"))
      as (_ & Tl & _ & _).
    destruct (test_model_cases (cycle_gan_model L1) (test_dataset data) 5
                false (PyStr "final_test") w1) as [(tr' & -> & Htr')| ->];
      cbn; unfold loaded_models in *; cbn [omap list_omap];
      rewrite !omap_app, Hl; cbn [omap list_omap app];
      rewrite ?omap_app, ?Htr', ?Tl; done.
Qed.

Lemma training_empty model data start_epoch w :
  train_dataset data = [] → start_epoch < EPOCHS →
  result (training model data start_epoch w)
    = inl (UnboundLocalError "train_loss").
Proof.
  intros Hnil Hlt. unfold training, mbind, M_bind, bind. cbn [emit].
  unfold range. rewrite seqZ_cons by lia. cbn [for_each].
  unfold mbind, M_bind, bind, epoch_body. rewrite Hnil.
  unfold mbind, M_bind, bind. reflexivity.
Qed.

Lemma setup_returns resume_train start_epoch robotics_task shape w :
  ∃ tr start nets data w',
    setup resume_train start_epoch robotics_task shape w
      = Outcome tr (inr (start, make_model nets, data)) w'.
Proof.
  destruct (select_device_returns w) as (devices & device & Hdev).
  assert (∃ tr2 start nets w2,
            make_networks resume_train start_epoch robotics_task shape
              (final (select_device w))
              = Outcome tr2 (inr (start, nets)) w2)
    as (tr2 & start & nets & w2 & Hnets).
  { destruct (resume_train && Bool.eqb robotics_task false) eqn:Hguard.
    - apply andb_prop in Hguard as [-> Hrob].
      destruct robotics_task; [done|].
      destruct (load_models start_epoch (final (select_device w)))
        as [[err|nets] w1] eqn:Hload.
      + do 4 eexists. by apply make_networks_fallback.
      + do 4 eexists. by apply make_networks_loaded.
    - do 4 eexists. by apply make_networks_fresh. }
  destruct (load_data_returns robotics_task w2) as (tr3 & data & Hdata & _).
  do 5 eexists. by eapply setup_unfold.
Qed.

(** * Properties *)

(** ** [test_model] *)

(** C7. On a non-empty dataset (and with a non-zero [SAVE_EVERY_TEST],
    which the loop uses as a divisor) [test_model] returns a dict whose
    keys are exactly [avg_G_loss], [avg_F_loss], [avg_DX_loss] and
    [avg_DY_loss]; each value is the arithmetic mean, over all batches
    of the dataset, of the corresponding loss returned by [test_step]. *)
Theorem test_model_averages model ds num_images plot epoch w :
  ds ≠ [] → SAVE_EVERY_TEST ≠ 0 →
  ∃ d : gmap string npfloat,
    result (test_model model ds num_images plot epoch w) = inr d ∧
    dom d
      =@{gset string}
        {[ "avg_G_loss"; "avg_F_loss"; "avg_DX_loss"; "avg_DY_loss" ]} ∧
    d !! "avg_G_loss"
      = Some (num (arithmetic_mean (G_loss <$> (test_step model <$> ds)))) ∧
    d !! "avg_F_loss"
      = Some (num (arithmetic_mean (F_loss <$> (test_step model <$> ds)))) ∧
    d !! "avg_DX_loss"
      = Some (num (arithmetic_mean (D_X_loss <$> (test_step model <$> ds)))) ∧
    d !! "avg_DY_loss"
      = Some (num (arithmetic_mean (D_Y_loss <$> (test_step model <$> ds)))).
Proof.
  intros Hne HS. rewrite test_model_returns by done.
  exists (averages model ds). split; [done|]. split.
  - unfold averages. rewrite !dom_insert_L, dom_singleton_L. set_solver.
  - destruct (averages_lookup model ds) as (-> & -> & -> & ->).
    by destruct ds.
Qed.

(** C9. With [plot=False] (and a non-zero [SAVE_EVERY_TEST])
    [test_model] returns normally, never calls [plot_images], and calls
    [save_images] exactly for the batch indices [b] of the dataset with
    [b % SAVE_EVERY_TEST == 0], in order, with the tag [str(b)] and the
    directory [test_images]; on a non-empty dataset the first of these
    calls is for batch 0, so image files are written. *)
Theorem test_model_without_plot_saves_images model ds num_images epoch w :
  SAVE_EVERY_TEST ≠ 0 →
  let o := test_model model ds num_images false epoch w in
  (∃ d, result o = inr d) ∧
  plotted (emitted o) = [] ∧
  saved_images (emitted o)
    = omap (λ '(b, (image_batch, noisy_batch)),
              if b mod SAVE_EVERY_TEST =? 0
              then Some (image_batch, noisy_batch,
                         forward (generator_G model) noisy_batch,
                         epoch, PyStr (str b), "test_images")
              else None)
        (enumerate ds) ∧
  (∀ image_batch noisy_batch ds',
     ds = (image_batch, noisy_batch) :: ds' →
     head (saved_images (emitted o))
       = Some (image_batch, noisy_batch,
               forward (generator_G model) noisy_batch,
               epoch, PyStr "0", "test_images")).
Proof.
  intros HS o. subst o. rewrite test_model_returns by done.
  cbn [emitted result]. split_and!.
  - by eexists.
  - apply test_model_events_no_plot.
  - exact (test_model_events_snapshots model ds num_images false epoch).
  - intros image_batch noisy_batch ds' ->.
    rewrite test_model_events_snapshots. unfold enumerate.
    cbn [enumerate_from omap list_omap test_snapshot].
    rewrite Z.mod_0_l by done. reflexivity.
Qed.

(** ** One training epoch *)

(** C1. In an epoch over [K >= 1] batches, with a positive
    [VALIDATION_EVERY] (and non-zero snapshot cadences), the validation
    passes are exactly those of the batch indices [b] with [0 < b < K]
    and [b % VALIDATION_EVERY == 0], in order: the progress bars opened
    in the epoch are the one of the training loop followed by one bar
    [Epoch <epoch>_<b>] of [test_model] per such [b].  Batch 0 is not
    among them, their number is [(K - 1) / VALIDATION_EVERY] (floor
    division), and each pass appends one average to each of the four
    validation histories. *)
Theorem validation_cadence train_dataset val_dataset epoch L w :
  0 < VALIDATION_EVERY → SAVE_EVERY_TRAIN ≠ 0 → SAVE_EVERY_TEST ≠ 0 →
  train_dataset ≠ [] →
  let K := Z.of_nat (length train_dataset) in
  let triggers :=
    filter (λ b, 0 < b ∧ b mod VALIDATION_EVERY = 0) (seqZ 0 K) in
  let o := epoch_body train_dataset val_dataset epoch L w in
  ∃ (L' : locals) (models : list CycleGAN),
    result o = inr L' ∧
    progress_bars (emitted o)
      = ("Epoch " +:+ str (epoch + 1))
        :: (validation_bar epoch <$> triggers) ∧
    (0 ∉ triggers) ∧
    Z.of_nat (length triggers) = (K - 1) / VALIDATION_EVERY ∧
    length models = length triggers ∧
    val_g_losses L'
      = val_g_losses L
        ++ ((λ m, np_mean (G_loss <$> (test_step m <$> val_dataset)))
              <$> models) ∧
    val_f_losses L'
      = val_f_losses L
        ++ ((λ m, np_mean (F_loss <$> (test_step m <$> val_dataset)))
              <$> models) ∧
    val_dx_losses L'
      = val_dx_losses L
        ++ ((λ m, np_mean (D_X_loss <$> (test_step m <$> val_dataset)))
              <$> models) ∧
    val_dy_losses L'
      = val_dy_losses L
        ++ ((λ m, np_mean (D_Y_loss <$> (test_step m <$> val_dataset)))
              <$> models).
Proof.
  intros HV HT HS Hne K triggers o.
  assert (cadences_nonzero) as Hc by (unfold cadences_nonzero; lia).
  destruct (epoch_body_returns train_dataset val_dataset epoch L w Hc Hne)
    as (tr & L1 & loss & Hpost & _ & Hbody).
  destruct (post_val _ _ _ _ _ _ _ _ Hpost)
    as (models & Hlen & Vg & Vf & Vdx & Vdy).
  pose proof (post_bars _ _ _ _ _ _ _ _ Hpost) as Hbars.
  rewrite validation_batches_spec in Hlen, Hbars.
  exists (epoch_end L1 loss), models. subst o. rewrite Hbody.
  cbn [emitted result epoch_end val_g_losses val_f_losses val_dx_losses
       val_dy_losses].
  split_and!; try done.
  - unfold progress_bars in *. cbn [omap list_omap].
    rewrite omap_app, Hbars. cbn. by rewrite app_nil_r.
  - subst triggers K. rewrite <- validation_batches_spec.
    apply validation_batches_not_zero.
  - subst triggers K. rewrite <- validation_batches_spec.
    apply validation_count; [done|]. destruct train_dataset; [done|cbn; lia].
Qed.

(** C5. An epoch over [K >= 1] batches (with non-zero cadences) extends
    each of the four training histories by the [K] losses of its
    training steps, in batch order, followed by the loss of the last
    step once more: [K + 1] entries, the last two equal. *)
Theorem last_batch_losses_appended_twice train_dataset val_dataset epoch L w :
  cadences_nonzero → train_dataset ≠ [] →
  let losses := (train_steps (cycle_gan_model L) train_dataset w).1.1 in
  let K := length train_dataset in
  ∃ (L' : locals) (final_loss : LossRecord),
    result (epoch_body train_dataset val_dataset epoch L w) = inr L' ∧
    length losses = K ∧
    last losses = Some final_loss ∧
    train_g_losses L'
      = train_g_losses L ++ (G_loss <$> losses) ++ [G_loss final_loss] ∧
    train_f_losses L'
      = train_f_losses L ++ (F_loss <$> losses) ++ [F_loss final_loss] ∧
    train_dx_losses L'
      = train_dx_losses L ++ (D_X_loss <$> losses) ++ [D_X_loss final_loss] ∧
    train_dy_losses L'
      = train_dy_losses L ++ (D_Y_loss <$> losses) ++ [D_Y_loss final_loss] ∧
    length (train_g_losses L') = (length (train_g_losses L) + (K + 1))%nat ∧
    length (train_f_losses L') = (length (train_f_losses L) + (K + 1))%nat ∧
    length (train_dx_losses L') = (length (train_dx_losses L) + (K + 1))%nat ∧
    length (train_dy_losses L') = (length (train_dy_losses L) + (K + 1))%nat.
Proof.
  intros Hc Hne losses K.
  destruct (epoch_body_returns train_dataset val_dataset epoch L w Hc Hne)
    as (tr & L1 & loss & Hpost & Hlast & Hbody).
  destruct Hpost as [_ _ Hg Hf Hdx Hdy _ _ _ _ _ _].
  assert (length losses = K) as Hlen by apply train_steps_length.
  exists (epoch_end L1 loss), loss. rewrite Hbody.
  cbn [result epoch_end train_g_losses train_f_losses train_dx_losses
       train_dy_losses].
  rewrite Hg, Hf, Hdx, Hdy. fold losses.
  rewrite <- !app_assoc, !length_app, !length_fmap, Hlen. cbn [length].
  split_and!; done.
Qed.

(** C6. With non-zero cadences and a non-empty train dataset, every
    epoch returns and its events end with the announcement, one
    [save_models] call on the four networks of the model as the epoch
    left it, tagged with the epoch index, and the completion message;
    nothing before them in the epoch is a [save_models] call.  Over the
    whole training the banners of the epochs and the checkpoints
    alternate, one checkpoint for each epoch of
    [range(start_epoch, EPOCHS)] after its banner and before the next
    one, and there is no other checkpoint. *)
Theorem checkpoint_once_per_epoch data :
  cadences_nonzero → train_dataset data ≠ [] →
  (∀ epoch L w,
     let o := epoch_body (train_dataset data) (val_dataset data) epoch L w in
     ∃ (L' : locals) (tr : list event),
       result o = inr L' ∧
       emitted o
         = tr ++
           [Print (MsgSavingModels (epoch + 1));
            SaveModels (generator_G (cycle_gan_model L'))
              (generator_F (cycle_gan_model L'))
              (discriminator_X (cycle_gan_model L'))
              (discriminator_Y (cycle_gan_model L')) epoch;
            Print (MsgEpochComplete (epoch + 1))] ∧
       saved_models tr = []) ∧
  (∀ model start_epoch w,
     let o := training model data start_epoch w in
     ∃ L' : locals,
       result o = inr L' ∧
       epoch_marks (emitted o)
         = range start_epoch EPOCHS ≫=
             (λ e, [EpochBanner (e + 1); Checkpoint e]) ∧
       (saved_models (emitted o)).*2 = range start_epoch EPOCHS).
Proof.
  intros Hc Hne. split.
  - intros epoch L w o.
    destruct (epoch_body_returns (train_dataset data) (val_dataset data)
                epoch L w Hc Hne) as (tr & L1 & loss & Hpost & _ & Hbody).
    subst o. rewrite Hbody. cbn [emitted result].
    exists (epoch_end L1 loss),
      (Print (MsgEpoch (epoch + 1)) ::
       Tqdm ("Epoch " +:+ str (epoch + 1)) :: tr).
    split_and!; [done|done|].
    unfold saved_models in *. cbn [omap list_omap].
    apply (post_saved_models _ _ _ _ _ _ _ _ Hpost).
  - intros model start_epoch w o.
    destruct (training_returns model data start_epoch w Hc Hne)
      as (L' & Hres & Hs & _ & _ & Hk).
    by exists L'.
Qed.

(** ** [run] *)

(** C8. [run] always reaches the training loop.  If the train dataset it
    built has no batch and at least one epoch is to be run, [run] raises
    [UnboundLocalError] for [train_loss] (at the append after the batch
    loop of the first epoch); if the train dataset has at least one
    batch, [run] never raises [UnboundLocalError], whatever the
    configuration. *)
Theorem empty_train_dataset_unbound_local resume_train start_epoch
    robotics_task shape w :
  ∃ tr start model data w',
    setup resume_train start_epoch robotics_task shape w
      = Outcome tr (inr (start, model, data)) w' ∧
    (train_dataset data = [] → start < EPOCHS →
     result (run resume_train start_epoch robotics_task shape w)
       = inl (UnboundLocalError "train_loss")) ∧
    (train_dataset data ≠ [] →
     ∀ name,
       result (run resume_train start_epoch robotics_task shape w)
         ≠ inl (UnboundLocalError name)).
Proof.
  destruct (setup_returns resume_train start_epoch robotics_task shape w)
    as (tr & start & nets & data & w' & Hsetup).
  exists tr, start, (make_model nets), data, w'.
  rewrite (run_unfold _ _ _ _ _ _ _ _ _ _ Hsetup). cbn [result].
  split_and!; [done|..].
  - apply training_empty.
  - intros Hne name Hres. by apply training_cases in Hres.
Qed.


(** C3, as amended.  With [resume_train=True] and [robotics_task=False]
    the first thing [run] does after selecting the device is to call
    [load_models(start_epoch)], before any network is built.  With
    [resume_train=True] and [robotics_task=True] it never calls
    [load_models]: it builds four fresh networks right after selecting
    the device. *)
Theorem resume_loads_checkpoint_unless_robotics start_epoch shape w :
  (∃ devices device tr,
     emitted (run true start_epoch false shape w)
       = device_events devices device ++ LoadModels start_epoch :: tr) ∧
  (∃ devices device tr,
     emitted (run true start_epoch true shape w)
       = device_events devices device ++ fresh_events shape ++ tr) ∧
  loaded_models (emitted (run true start_epoch true shape w)) = [].
Proof.
  destruct (select_device_returns w) as (devices & device & Hdev).
  split_and!.
  - destruct (load_models start_epoch (final (select_device w)))
      as [[err|nets] w1] eqn:Hload.
    + pose proof (make_networks_fallback start_epoch shape _ _ _ Hload)
        as Hnets.
      destruct (load_data_returns false (fresh_networks shape w1).2)
        as (tr_data & data & Hdata & _).
      rewrite (run_unfold _ _ _ _ _ _ _ _ _ _
                 (setup_unfold _ _ _ _ _ _ _ _ _ _ _ _ _ _ _
                    Hdev Hnets Hdata)).
      cbn [emitted]. exists devices, device. eexists.
      rewrite <- !app_assoc. reflexivity.
    + pose proof (make_networks_loaded start_epoch shape _ _ _ Hload)
        as Hnets.
      destruct (load_data_returns false w1) as (tr_data & data & Hdata & _).
      rewrite (run_unfold _ _ _ _ _ _ _ _ _ _
                 (setup_unfold _ _ _ _ _ _ _ _ _ _ _ _ _ _ _
                    Hdev Hnets Hdata)).
      cbn [emitted]. exists devices, device. eexists.
      rewrite <- !app_assoc. reflexivity.
  - pose proof (make_networks_fresh true start_epoch true shape
                  (final (select_device w)) eq_refl) as Hnets.
    destruct (load_data_returns true
                (fresh_networks shape (final (select_device w))).2)
      as (tr_data & data & Hdata & _).
    rewrite (run_unfold _ _ _ _ _ _ _ _ _ _
               (setup_unfold _ _ _ _ _ _ _ _ _ _ _ _ _ _ _
                  Hdev Hnets Hdata)).
    cbn [emitted]. exists devices, device. eexists.
    rewrite <- !app_assoc. reflexivity.
  - pose proof (make_networks_fresh true start_epoch true shape
                  (final (select_device w)) eq_refl) as Hnets.
    destruct (load_data_returns true
                (fresh_networks shape (final (select_device w))).2)
      as (tr_data & data & Hdata & _ & Dl & _).
    rewrite (run_unfold _ _ _ _ _ _ _ _ _ _
               (setup_unfold _ _ _ _ _ _ _ _ _ _ _ _ _ _ _
                  Hdev Hnets Hdata)).
    cbn [emitted].
    pose proof (training_no_load
                  (make_model
                     (fresh_networks shape (final (select_device w))).1)
                  data start_epoch
                  (final (load_data true
                     (fresh_networks shape (final (select_device w))).2)))
      as Tl.
    unfold loaded_models in *. rewrite !omap_app, Dl, Tl. done.
Qed.

(** Whatever the configuration, the model that [run] trains is compiled
    with [Adam(2e-4, beta_1=0.5)] for the
    generators and [Adam(1e-4, beta_1=0.5)] for the discriminators. *)
Lemma run_optimizers resume_train start_epoch robotics_task shape w :
  ∃ tr start model data w' c,
    setup resume_train start_epoch robotics_task shape w
      = Outcome tr (inr (start, model, data)) w' ∧
    compiled model = Some c ∧
    g_optimizer c = Adam (2 # 10000) (5 # 10) ∧
    d_optimizer c = Adam (1 # 10000) (5 # 10).
Proof.
  destruct (setup_returns resume_train start_epoch robotics_task shape w)
    as (tr & start & nets & data & w' & Hsetup).
  exists tr, start, (make_model nets), data, w'.
  destruct nets as [[[gen_G gen_F] disc_X] disc_Y].
  eexists. split_and!; [done|reflexivity|done|done].
Qed.

(** * Further properties *)

(** ** Which events a computation can emit *)

Lemma emits_mono {A} (P Q : event → Prop) (m : @M World Net Tensor A) :
  (∀ ev, P ev → Q ev) → emits P m → emits Q m.
Proof. intros HPQ Hm w. eapply Forall_impl; [apply Hm|done]. Qed.

Lemma emits_ret {A} P (a : A) : emits P (mret a : @M World Net Tensor A).
Proof. intros w. constructor. Qed.

Lemma emits_raise {A} P e : emits P (raise e : @M World Net Tensor A).
Proof. intros w. constructor. Qed.

Lemma emits_emit (P : @event Net Tensor → Prop) ev :
  P ev → emits P (emit ev : @M World Net Tensor unit).
Proof. intros Hev w. cbn. by constructor. Qed.

Lemma emits_call {A} (P : @event Net Tensor → Prop) ev
    (f : World → A * World) :
  P ev → emits P (call ev f).
Proof. intros Hev w. unfold call. destruct (f w). cbn. by constructor. Qed.

Lemma emits_bind {A B} P (m : @M World Net Tensor A) (k : A → M B) :
  emits P m → (∀ a, emits P (k a)) → emits P (m ≫= k).
Proof.
  intros Hm Hk w. unfold mbind, M_bind, bind.
  specialize (Hm w). destruct (m w) as [tr [e|a] w1]; [done|].
  specialize (Hk a w1). destruct (k a w1) as [tr' r w2]. cbn in *.
  by apply Forall_app.
Qed.

Lemma emits_when P c (m : @M World Net Tensor unit) :
  emits P m → emits P (when c m).
Proof. intros Hm. destruct c; [done|]. intros w. constructor. Qed.

Lemma emits_py_mod P a b : emits P (py_mod a b : @M World Net Tensor Z).
Proof.
  unfold py_mod. destruct (b =? 0); [apply emits_raise|].
  intros w. constructor.
Qed.

Lemma emits_getitem {V} P (d : gmap string V) key :
  emits P (getitem d key : @M World Net Tensor V).
Proof.
  unfold getitem. destruct (d !! key); [|apply emits_raise].
  intros w. constructor.
Qed.

Lemma emits_for_each {A S} P (body : A → S → @M World Net Tensor S) l :
  (∀ x s, emits P (body x s)) → ∀ s, emits P (for_each l s body).
Proof.
  intros Hbody. induction l as [|x l IH]; intros s.
  - intros w. constructor.
  - cbn [for_each]. apply emits_bind; [apply Hbody|apply IH].
Qed.

Lemma test_model_emits model ds num_images epoch :
  emits (λ ev, is_test_event ev)
    (test_model model ds num_images false epoch).
Proof.
  unfold test_model.
  repeat (apply emits_bind; [|intros ?]);
    try (apply emits_emit; done); try apply emits_ret.
  apply emits_for_each. intros [batch [image_batch noisy_batch]] acc.
  unfold test_batch.
  repeat (apply emits_bind; [|intros ?]);
    try apply emits_py_mod; try apply emits_ret;
    apply emits_when; by apply emits_emit.
Qed.

Lemma test_event_is_loop_event (ev : @event Net Tensor) :
  is_test_event ev → is_loop_event ev.
Proof. by destruct ev. Qed.

Lemma batch_body_emits val_dataset epoch item L :
  emits (λ ev, is_loop_event ev) (batch_body val_dataset epoch item L).
Proof.
  destruct item as [batch [image_batch noisy_batch]]. unfold batch_body.
  apply emits_bind; [by apply emits_call|intros [train_loss model]].
  apply emits_bind; [apply emits_py_mod|intros r].
  apply emits_bind; [apply emits_when; by apply emits_emit|intros _].
  apply emits_bind; [apply emits_py_mod|intros r'].
  destruct ((r' =? 0) && negb (batch =? 0)); [|apply emits_ret].
  apply emits_bind; [by apply emits_emit|intros _].
  apply emits_bind.
  { eapply emits_mono; [apply test_event_is_loop_event|].
    apply test_model_emits. }
  intros avg.
  repeat (apply emits_bind; [apply emits_getitem|intros ?]).
  apply emits_ret.
Qed.

Lemma epoch_body_emits train_dataset val_dataset epoch L :
  emits (λ ev, is_loop_event ev)
    (epoch_body train_dataset val_dataset epoch L).
Proof.
  unfold epoch_body.
  apply emits_bind; [by apply emits_emit|intros _].
  apply emits_bind; [by apply emits_emit|intros _].
  apply emits_bind.
  { apply emits_for_each. intros item L'. apply batch_body_emits. }
  intros L1. apply emits_bind.
  { destruct (train_loss L1); [apply emits_ret|apply emits_raise]. }
  intros loss.
  repeat (apply emits_bind; [by apply emits_emit|intros _]).
  apply emits_ret.
Qed.

Lemma training_emits model data start_epoch :
  emits (λ ev, is_loop_event ev) (training model data start_epoch).
Proof.
  unfold training.
  repeat (apply emits_bind; [by apply emits_emit|intros _]).
  apply emits_bind.
  { apply emits_for_each. intros epoch L. apply epoch_body_emits. }
  intros L. apply emits_bind; [by apply emits_emit|intros _].
  apply emits_bind.
  { eapply emits_mono; [apply test_event_is_loop_event|].
    apply test_model_emits. }
  intros _. apply emits_bind; [by apply emits_emit|intros _].
  apply emits_ret.
Qed.

Lemma omap_Forall_None {A B} (f : A → option B) (l : list A) :
  Forall (λ x, f x = None) l → omap f l = [].
Proof.
  induction 1 as [|x l Hx _ IH]; [done|]. cbn. by rewrite Hx, IH.
Qed.

Lemma loop_events_projections (tr : list (@event Net Tensor)) :
  Forall (λ ev, is_loop_event ev) tr →
  plotted tr = [] ∧ loaded_models tr = [] ∧ data_calls tr = [].
Proof.
  intros Htr. split_and!; apply omap_Forall_None;
    (eapply Forall_impl; [exact Htr|]); by intros [].
Qed.

(** ** More on [test_model] *)

(** X1. On an empty dataset [test_model] returns normally whatever the
    configuration (even with [SAVE_EVERY_TEST = 0]): the four averages
    are [nan], nothing is plotted and no image is saved. *)
Theorem test_model_empty_dataset model num_images plot epoch (w : World) :
  let o := test_model model [] num_images plot epoch w in
  ∃ d : gmap string npfloat,
    result o = inr d ∧
    d !! "avg_G_loss" = Some nan ∧
    d !! "avg_F_loss" = Some nan ∧
    d !! "avg_DX_loss" = Some nan ∧
    d !! "avg_DY_loss" = Some nan ∧
    plotted (emitted o) = [] ∧
    saved_images (emitted o) = [] ∧
    final o = w.
Proof.
  intros o. subst o. rewrite test_model_empty.
  exists (averages model []). cbn [result emitted final].
  destruct (averages_lookup model []) as (-> & -> & -> & ->).
  split_and!; done.
Qed.

(** X2. With [SAVE_EVERY_TEST = 0], [test_model] on a dataset with at
    least one batch raises [ZeroDivisionError] in the first iteration:
    the progress bar is opened, the first batch is plotted if [plot] is
    set, and then nothing else happens: no image is saved and no
    average is printed. *)
Theorem test_model_zero_cadence model d ds num_images plot epoch
    (w : World) :
  SAVE_EVERY_TEST = 0 →
  let o := test_model model (d :: ds) num_images plot epoch w in
  result o = inl ZeroDivisionError ∧
  emitted o
    = Tqdm ("Epoch " +:+ format epoch) ::
      (if plot
       then [PlotImages d.1 d.2 (forward (generator_G model) d.2)
               num_images]
       else []) ∧
  saved_images (emitted o) = [] ∧
  final o = w.
Proof.
  intros Hz o. subst o. destruct d as [image_batch noisy_batch].
  unfold test_model, enumerate, mbind, M_bind, bind. cbn [emit].
  cbn [enumerate_from for_each]. unfold mbind, M_bind, bind, test_batch.
  unfold mbind, M_bind, bind, py_mod. rewrite Hz.
  destruct plot; cbn; done.
Qed.

Lemma test_model_events_plots model ds n epoch :
  plotted (test_model_events model ds n true epoch)
    = (λ d, (d.1, d.2, forward (generator_G model) d.2, n)) <$> ds.
Proof.
  unfold test_model_events, plotted, enumerate.
  cbn [omap list_omap]. rewrite omap_app. cbn [omap list_omap].
  rewrite app_nil_r. generalize 0.
  induction ds as [|[i x] ds IH]; intros start; [done|].
  cbn [enumerate_from]. cbn [mbind list_bind omap list_omap].
  rewrite omap_app, IH. unfold test_batch_events.
  by destruct (start mod SAVE_EVERY_TEST =? 0).
Qed.

(** X3. With [plot=True] (and a non-zero [SAVE_EVERY_TEST])
    [test_model] calls [plot_images] exactly once per batch, in batch
    order, on the batch's images, its degraded images and the output of
    generator G on the degraded images, with the caller's
    [num_images]. *)
Theorem test_model_plots_every_batch model ds num_images epoch (w : World) :
  SAVE_EVERY_TEST ≠ 0 →
  plotted (emitted (test_model model ds num_images true epoch w))
    = (λ d, (d.1, d.2, forward (generator_G model) d.2, num_images))
        <$> ds.
Proof.
  intros HS. rewrite test_model_returns by done.
  apply test_model_events_plots.
Qed.

(** X4. The averages [test_model] returns (with a non-zero
    [SAVE_EVERY_TEST]) depend on the model and the dataset only, not on
    what is displayed or saved: any [num_images], [plot] and [epoch]
    give the same dict. *)
Theorem test_model_result_independent_of_display model ds
    n1 plot1 epoch1 n2 plot2 epoch2 (w : World) :
  SAVE_EVERY_TEST ≠ 0 →
  result (test_model model ds n1 plot1 epoch1 w)
    = result (test_model model ds n2 plot2 epoch2 w).
Proof. intros HS. by rewrite !test_model_returns. Qed.

(** ** When [run] returns and what it can raise *)

Lemma training_no_epoch model data start_epoch (w : World) :
  EPOCHS ≤ start_epoch → SAVE_EVERY_TEST ≠ 0 →
  training model data start_epoch w =
    Outcome
      (Print (MsgTrainShape (train_images_shape data)) ::
       Print (MsgNoisyTrainShape (noisy_train_images_shape data)) ::
       Print MsgTraining :: [] ++ Print MsgTestLoss ::
       test_model_events model (test_dataset data) 5 false
         (PyStr "final_test") ++ [Print MsgTrainingComplete])
      (inr (Locals model None [] [] [] [] [] [] [] [])) w.
Proof.
  intros Hge HS.
  rewrite (training_unfold model data start_epoch w []
             (Locals model None [] [] [] [] [] [] [] []) w).
  - by rewrite test_model_returns.
  - unfold range. by rewrite seqZ_nil by lia.
Qed.

(** X5. Why [run] itself raises.  The embedding gives every collaborator
    but [load_models] a result and no exception, and formats every
    integer; an exception raised inside another collaborator, or by
    formatting an integer beyond the interpreter's digit limit, is
    outside it and would propagate.  Within it, a run that raises has
    finished its set-up (an exception of [load_models] is caught there)
    and raises for one of two reasons only: [ZeroDivisionError], and
    then one of the three cadences is zero and the train dataset has a
    batch or no epoch is left; or the [UnboundLocalError] for
    [train_loss], and then the train dataset is empty and an epoch is
    left.  The lookups in the dict of [test_model] never raise
    [KeyError]. *)
Theorem run_exceptions resume_train start_epoch robotics_task shape
    (w : World) e :
  result (run resume_train start_epoch robotics_task shape w) = inl e →
  ∃ tr start model data w',
    setup resume_train start_epoch robotics_task shape w
      = Outcome tr (inr (start, model, data)) w' ∧
    ((e = ZeroDivisionError ∧ ¬ cadences_nonzero ∧
      (train_dataset data ≠ [] ∨ EPOCHS ≤ start)) ∨
     (e = UnboundLocalError "train_loss" ∧
      train_dataset data = [] ∧ start < EPOCHS)).
Proof.
  destruct (setup_returns resume_train start_epoch robotics_task shape w)
    as (tr & start & nets & data & w' & Hsetup).
  rewrite (run_unfold _ _ _ _ _ _ _ _ _ _ Hsetup). cbn [result].
  intros Hres. exists tr, start, (make_model nets), data, w'.
  split; [done|].
  destruct (decide (train_dataset data = [])) as [Hnil|Hne].
  - destruct (decide (start < EPOCHS)) as [Hlt|Hge].
    + right. rewrite training_empty in Hres by done.
      split_and!; [congruence|done..].
    + left. split_and!.
      * revert Hres.
        rewrite (training_unfold (make_model nets) data start w' []
                   (Locals (make_model nets) None [] [] [] [] [] [] [] [])
                   w').
        -- cbn [cycle_gan_model].
           destruct (test_model_cases (make_model nets) (test_dataset data)
                       5 false (PyStr "final_test") w')
             as [(tr' & -> & _)| ->]; cbn; congruence.
        -- unfold range. by rewrite seqZ_nil by lia.
      * intros Hc. rewrite training_no_epoch in Hres; [done|lia|apply Hc].
      * right. lia.
  - left. split_and!.
    + by eapply training_cases.
    + intros Hc.
      destruct (training_returns (make_model nets) data start w' Hc Hne)
        as (L & HL & _). congruence.
    + by left.
Qed.

(** X6. With non-zero cadences [run] returns normally exactly when the
    train dataset it built has at least one batch or no epoch is left to
    run ([EPOCHS <= start_epoch], after the reset to 0 of a failed
    resume). *)
Theorem run_returns_iff resume_train start_epoch robotics_task shape
    (w : World) :
  ∃ tr start model data w',
    setup resume_train start_epoch robotics_task shape w
      = Outcome tr (inr (start, model, data)) w' ∧
    (cadences_nonzero →
     (∃ L, result (run resume_train start_epoch robotics_task shape w)
             = inr L)
     ↔ train_dataset data ≠ [] ∨ EPOCHS ≤ start).
Proof.
  destruct (setup_returns resume_train start_epoch robotics_task shape w)
    as (tr & start & nets & data & w' & Hsetup).
  exists tr, start, (make_model nets), data, w'. split; [done|].
  intros Hc. rewrite (run_unfold _ _ _ _ _ _ _ _ _ _ Hsetup).
  cbn [result]. split.
  - intros [L Hres].
    destruct (decide (train_dataset data = [])) as [Hnil|Hne]; [|by left].
    destruct (decide (start < EPOCHS)) as [Hlt|Hge]; [|right; lia].
    rewrite training_empty in Hres by done. congruence.
  - intros [Hne|Hge].
    + destruct (training_returns (make_model nets) data start w' Hc Hne)
        as (L & Hres & _). by exists L.
    + rewrite training_no_epoch by (done || apply Hc). by eexists.
Qed.

(** X7. When no epoch is left ([EPOCHS <= start_epoch]) the training
    part of [run] does no training step and writes no checkpoint: it
    only runs the final test, on the model it was given, and returns
    with [train_loss] unbound and the eight histories empty, even if
    the train dataset is empty. *)
Theorem no_epoch_left_only_tests model data start_epoch (w : World) :
  EPOCHS ≤ start_epoch → SAVE_EVERY_TEST ≠ 0 →
  let o := training model data start_epoch w in
  result o = inr (Locals model None [] [] [] [] [] [] [] []) ∧
  trained_batches (emitted o) = [] ∧
  saved_models (emitted o) = [] ∧
  progress_bars (emitted o) = ["Epoch final_test"] ∧
  saved_images (emitted o)
    = omap (test_snapshot model (PyStr "final_test"))
        (enumerate (test_dataset data)) ∧
  final o = w.
Proof.
  intros Hge HS o. subst o. rewrite training_no_epoch by done.
  cbn [result emitted final].
  pose proof (test_model_events_bars model (test_dataset data) 5 false
                (PyStr "final_test")) as Hbars.
  pose proof (test_model_events_snapshots model (test_dataset data) 5 false
                (PyStr "final_test")) as Hsnap.
  destruct (test_model_events_no_checkpoint model (test_dataset data) 5
              false (PyStr "final_test")) as (Hs & _).
  pose proof (test_model_emits model (test_dataset data) 5
                (PyStr "final_test") w) as Hev.
  rewrite test_model_returns in Hev by done. cbn [emitted] in Hev.
  split_and!; try done.
  - unfold trained_batches. cbn [omap list_omap app].
    rewrite omap_app. cbn [omap list_omap]. rewrite app_nil_r.
    apply omap_Forall_None. eapply Forall_impl; [exact Hev|]. by intros [].
  - unfold saved_models in *. cbn [omap list_omap app].
    by rewrite omap_app, Hs.
  - unfold progress_bars in *. cbn [omap list_omap app].
    by rewrite omap_app, Hbars.
  - unfold saved_images in *. cbn [omap list_omap app].
    rewrite omap_app, Hsnap. cbn [omap list_omap]. by rewrite app_nil_r.
Qed.

(** ** More on the batch loop *)

Lemma zero_cadence_outcome val_dataset epoch d ds L (w : World) :
  SAVE_EVERY_TRAIN = 0 ∨ VALIDATION_EVERY = 0 →
  ∃ tr,
    epoch_body (d :: ds) val_dataset epoch L w
      = Outcome
          (Print (MsgEpoch (epoch + 1)) ::
           Tqdm ("Epoch " +:+ str (epoch + 1)) :: TrainStep d :: tr)
          (inl ZeroDivisionError)
          (train_step (cycle_gan_model L) d w).2 ∧
    trained_batches tr = [] ∧ saved_models tr = [].
Proof.
  intros Hz. destruct d as [image_batch noisy_batch].
  unfold epoch_body, enumerate, mbind, M_bind, bind. cbn [emit].
  cbn [enumerate_from for_each]. unfold mbind, M_bind, bind, batch_body.
  unfold mbind, M_bind, bind, call.
  destruct (train_step _ _ w) as [[loss model] w1]. cbn [snd].
  unfold py_mod.
  destruct (Z.eqb_spec SAVE_EVERY_TRAIN 0) as [HT|HT];
    [by exists []|].
  destruct Hz as [Hz|Hz]; [done|]. rewrite Hz. cbn [ret Z.eqb].
  destruct (0 mod SAVE_EVERY_TRAIN =? 0); cbn [when emit ret app];
    by eexists.
Qed.

(** X8. If [SAVE_EVERY_TRAIN] or [VALIDATION_EVERY] is zero, an epoch
    over at least one batch raises [ZeroDivisionError] in its first
    iteration, after exactly one training step and before any
    checkpoint.  For [VALIDATION_EVERY] this happens although batch 0
    never validates: the guard takes the remainder before it tests
    [batch != 0]. *)
Theorem zero_cadence_stops_first_batch val_dataset epoch d ds L (w : World) :
  SAVE_EVERY_TRAIN = 0 ∨ VALIDATION_EVERY = 0 →
  let o := epoch_body (d :: ds) val_dataset epoch L w in
  result o = inl ZeroDivisionError ∧
  trained_batches (emitted o) = [d] ∧
  saved_models (emitted o) = [] ∧
  final o = (train_step (cycle_gan_model L) d w).2.
Proof.
  intros Hz o. subst o.
  destruct (zero_cadence_outcome val_dataset epoch d ds L w Hz)
    as (tr & -> & Htb & Hsm).
  cbn [result emitted final]. unfold trained_batches, saved_models in *.
  cbn [omap list_omap]. by rewrite Htb, Hsm.
Qed.

Lemma test_model_events_no_train_snapshot model ds n plot epoch :
  train_snapshots (test_model_events model ds n plot epoch) = [] ∧
  trained_batches (test_model_events model ds n plot epoch) = [].
Proof.
  unfold test_model_events, train_snapshots, trained_batches.
  cbn [omap list_omap]. rewrite !omap_app.
  rewrite !omap_bind_nil; [done|intros [b [i x]]..];
    unfold test_batch_events;
    by destruct plot, (b mod SAVE_EVERY_TEST =? 0).
Qed.

Lemma batch_events_details val_dataset epoch b d model :
  trained_batches (batch_events val_dataset epoch (b, d) model) = [d] ∧
  train_snapshots (batch_events val_dataset epoch (b, d) model)
    = from_option (λ s, [s]) [] (train_snapshot epoch (b, (d, model))).
Proof.
  destruct d as [i x]. unfold batch_events, train_snapshot.
  destruct (test_model_events_no_train_snapshot model val_dataset 5 false
              (PyStr (str epoch +:+ "_" +:+ str b))) as (Hs & Ht).
  unfold trained_batches, train_snapshots in *.
  cbn [omap list_omap]. rewrite !omap_app.
  destruct (b mod SAVE_EVERY_TRAIN =? 0), (validation_due b);
    cbn [omap list_omap app String.eqb Ascii.eqb Bool.eqb from_option];
    rewrite ?Hs, ?Ht; done.
Qed.

Lemma validation_entry_pair field val_dataset batch (model : CycleGAN) :
  validation_entry field val_dataset (batch, model)
    = if validation_due batch
      then Some (np_mean (field <$> (test_step model <$> val_dataset)))
      else None.
Proof. reflexivity. Qed.

Lemma batch_loop_details val_dataset epoch ds :
  cadences_nonzero →
  ∀ start L (w : World), ∃ tr L' w',
    for_each (enumerate_from start ds) L (batch_body val_dataset epoch) w
      = Outcome tr (inr L') w' ∧
    trained_batches tr = ds ∧
    train_snapshots tr
      = omap (train_snapshot epoch)
          (enumerate_from start
             (zip ds (models_along (cycle_gan_model L) ds w))) ∧
    val_g_losses L'
      = val_g_losses L
        ++ omap (validation_entry G_loss val_dataset)
             (enumerate_from start
                (models_along (cycle_gan_model L) ds w)) ∧
    val_f_losses L'
      = val_f_losses L
        ++ omap (validation_entry F_loss val_dataset)
             (enumerate_from start
                (models_along (cycle_gan_model L) ds w)) ∧
    val_dx_losses L'
      = val_dx_losses L
        ++ omap (validation_entry D_X_loss val_dataset)
             (enumerate_from start
                (models_along (cycle_gan_model L) ds w)) ∧
    val_dy_losses L'
      = val_dy_losses L
        ++ omap (validation_entry D_Y_loss val_dataset)
             (enumerate_from start
                (models_along (cycle_gan_model L) ds w)).
Proof.
  intros Hc. induction ds as [|d ds IH]; intros start L w.
  - exists [], L, w. cbn. rewrite !app_nil_r. split_and!; auto.
  - cbn [enumerate_from for_each models_along].
    destruct (train_step (cycle_gan_model L) d w) as [[loss m] w1] eqn:Hstep.
    pose proof (batch_body_returns val_dataset epoch (start, d) L w
                  loss m w1 Hc Hstep) as Hbody. cbn [fst] in Hbody.
    destruct (IH (start + 1) (batch_locals val_dataset start loss m L) w1)
      as (tr & L' & w' & Hloop & Htb & Hts & Vg & Vf & Vdx & Vdy).
    cbn [cycle_gan_model batch_locals val_g_losses val_f_losses
         val_dx_losses val_dy_losses] in *.
    rewrite (bind_returns _ _ _ _ _ _ Hbody), Hloop.
    destruct (batch_events_details val_dataset epoch start d m)
      as (Etb & Ets).
    eexists _, L', w'. split; [done|].
    cbn [zip zip_with enumerate_from omap list_omap].
    unfold trained_batches, train_snapshots in *.
    rewrite !omap_app, Etb, Ets, Htb, Hts, Vg, Vf, Vdx, Vdy.
    split_and!; auto.
    + by destruct (train_snapshot epoch (start, (d, m))).
    + rewrite validation_entry_pair.
      destruct (validation_due start); [by rewrite <- app_assoc|done].
    + rewrite validation_entry_pair.
      destruct (validation_due start); [by rewrite <- app_assoc|done].
    + rewrite validation_entry_pair.
      destruct (validation_due start); [by rewrite <- app_assoc|done].
    + rewrite validation_entry_pair.
      destruct (validation_due start); [by rewrite <- app_assoc|done].
Qed.

(** ** More on one epoch *)

Lemma epoch_body_full train_dataset val_dataset epoch L (w : World) :
  cadences_nonzero → train_dataset ≠ [] →
  ∃ tr L1 loss,
    epoch_body train_dataset val_dataset epoch L w =
      Outcome
        (Print (MsgEpoch (epoch + 1)) ::
         Tqdm ("Epoch " +:+ str (epoch + 1)) ::
         tr ++ checkpoint_events (cycle_gan_model L1) epoch)
        (inr (epoch_end L1 loss))
        (train_steps (cycle_gan_model L) train_dataset w).2 ∧
    batch_loop_post val_dataset epoch 0 train_dataset L w tr L1 ∧
    trained_batches tr = train_dataset ∧
    train_snapshots tr
      = omap (train_snapshot epoch)
          (enumerate
             (zip train_dataset
                (models_along (cycle_gan_model L) train_dataset w))) ∧
    val_g_losses L1
      = val_g_losses L
        ++ omap (validation_entry G_loss val_dataset)
             (enumerate (models_along (cycle_gan_model L) train_dataset w)) ∧
    val_f_losses L1
      = val_f_losses L
        ++ omap (validation_entry F_loss val_dataset)
             (enumerate (models_along (cycle_gan_model L) train_dataset w)) ∧
    val_dx_losses L1
      = val_dx_losses L
        ++ omap (validation_entry D_X_loss val_dataset)
             (enumerate (models_along (cycle_gan_model L) train_dataset w)) ∧
    val_dy_losses L1
      = val_dy_losses L
        ++ omap (validation_entry D_Y_loss val_dataset)
             (enumerate (models_along (cycle_gan_model L) train_dataset w)).
Proof.
  intros Hc Hne.
  destruct (batch_loop_returns val_dataset epoch train_dataset Hc 0 L w)
    as (tr & L1 & Hloop & Hpost).
  destruct (batch_loop_details val_dataset epoch train_dataset Hc 0 L w)
    as (tr' & L1' & w' & Hloop' & Htb & Hts & Vg & Vf & Vdx & Vdy).
  rewrite Hloop in Hloop'. injection Hloop' as <- <- _.
  destruct (last_is_Some (train_steps (cycle_gan_model L) train_dataset w).1.1)
    as [loss Hlast].
  { intros Hnil. apply (f_equal length) in Hnil.
    rewrite train_steps_length in Hnil. by destruct train_dataset. }
  exists tr, L1, loss. split_and!; try done.
  apply epoch_body_unfold; [done|].
  rewrite (post_train_loss _ _ _ _ _ _ _ _ Hpost), Hlast. done.
Qed.

(** X9. In an epoch over at least one batch (non-zero cadences) the
    images saved into [train_images] are exactly those of the batch
    indices [b] with [b % SAVE_EVERY_TRAIN == 0], batch 0 included, in
    order; each call gets the batch's images, its degraded images and
    the output of generator G as the training step on that very batch
    left it, tagged with the integer epoch and batch index. *)
Theorem train_snapshot_cadence train_dataset val_dataset epoch L (w : World) :
  cadences_nonzero → train_dataset ≠ [] →
  train_snapshots
    (emitted (epoch_body train_dataset val_dataset epoch L w))
    = omap (λ '(b, ((image_batch, noisy_batch), model)),
              if b mod SAVE_EVERY_TRAIN =? 0
              then Some (image_batch, noisy_batch,
                         forward (generator_G model) noisy_batch,
                         PyInt epoch, PyInt b)
              else None)
        (enumerate
           (zip train_dataset
              (models_along (cycle_gan_model L) train_dataset w))).
Proof.
  intros Hc Hne.
  destruct (epoch_body_full train_dataset val_dataset epoch L w Hc Hne)
    as (tr & L1 & loss & -> & _ & _ & Hts & _).
  cbn [emitted]. unfold train_snapshots in *. cbn [omap list_omap].
  rewrite omap_app, Hts. cbn. by rewrite app_nil_r.
Qed.

(** X10. Every validation pass of an epoch measures the model as the
    training step on the triggering batch left it: the entry appended to
    a validation history at batch [b] is the average, over the
    validation set, of the test loss of the model after [b + 1]
    training steps of the epoch. *)
Theorem validation_measures_updated_model train_dataset val_dataset epoch L
    (w : World) :
  cadences_nonzero → train_dataset ≠ [] →
  let after := enumerate
                 (models_along (cycle_gan_model L) train_dataset w) in
  let entry (field : LossRecord → Q) '(b, model) :=
    if (b mod VALIDATION_EVERY =? 0) && negb (b =? 0)
    then Some (np_mean (field <$> (test_step model <$> val_dataset)))
    else None in
  ∃ L' : locals,
    result (epoch_body train_dataset val_dataset epoch L w) = inr L' ∧
    val_g_losses L' = val_g_losses L ++ omap (entry G_loss) after ∧
    val_f_losses L' = val_f_losses L ++ omap (entry F_loss) after ∧
    val_dx_losses L' = val_dx_losses L ++ omap (entry D_X_loss) after ∧
    val_dy_losses L' = val_dy_losses L ++ omap (entry D_Y_loss) after.
Proof.
  intros Hc Hne after entry.
  destruct (epoch_body_full train_dataset val_dataset epoch L w Hc Hne)
    as (tr & L1 & loss & -> & _ & _ & _ & Vg & Vf & Vdx & Vdy).
  exists (epoch_end L1 loss). cbn [result epoch_end val_g_losses
    val_f_losses val_dx_losses val_dy_losses].
  split_and!; done.
Qed.

(** X11. The checkpoint written at the end of an epoch holds the four
    networks exactly as the last training step of the epoch left them:
    it is the only checkpoint of the epoch, and the validation passes
    and snapshots in between have not touched the networks. *)
Theorem checkpoint_holds_trained_networks train_dataset val_dataset epoch L
    (w : World) :
  cadences_nonzero → train_dataset ≠ [] →
  let model := (train_steps (cycle_gan_model L) train_dataset w).1.2 in
  saved_models (emitted (epoch_body train_dataset val_dataset epoch L w))
    = [((generator_G model, generator_F model,
         discriminator_X model, discriminator_Y model), epoch)].
Proof.
  intros Hc Hne model. subst model.
  destruct (epoch_body_full train_dataset val_dataset epoch L w Hc Hne)
    as (tr & L1 & loss & -> & Hpost & _).
  destruct Hpost as [Hm _ _ _ _ _ _ _ Hs Hl Hb Hk].
  destruct (epoch_events_projections tr (cycle_gan_model L1) epoch
              Hs Hl Hb Hk) as (Es & _).
  cbn [emitted]. rewrite Es. by rewrite Hm.
Qed.

(** X12. With an empty validation dataset the validation passes still
    take place: each of them appends [nan] to each of the four
    validation histories, one per batch index [0 < b < K] with
    [b % VALIDATION_EVERY == 0], and the epoch returns normally. *)
Theorem empty_validation_set_appends_nan train_dataset epoch L (w : World) :
  cadences_nonzero → train_dataset ≠ [] →
  let K := Z.of_nat (length train_dataset) in
  let n :=
    length (filter (λ b, 0 < b ∧ b mod VALIDATION_EVERY = 0) (seqZ 0 K)) in
  ∃ L' : locals,
    result (epoch_body train_dataset [] epoch L w) = inr L' ∧
    val_g_losses L' = val_g_losses L ++ replicate n nan ∧
    val_f_losses L' = val_f_losses L ++ replicate n nan ∧
    val_dx_losses L' = val_dx_losses L ++ replicate n nan ∧
    val_dy_losses L' = val_dy_losses L ++ replicate n nan.
Proof.
  intros Hc Hne K n.
  destruct (epoch_body_full train_dataset [] epoch L w Hc Hne)
    as (tr & L1 & loss & -> & Hpost & _).
  destruct (post_val _ _ _ _ _ _ _ _ Hpost)
    as (models & Hlen & Vg & Vf & Vdx & Vdy).
  rewrite validation_batches_spec in Hlen. fold K in Hlen. fold n in Hlen.
  assert (∀ field : LossRecord → Q,
            (λ m : CycleGAN, np_mean (field <$> (test_step m <$> [])))
              <$> models = replicate n nan) as Hnan.
  { intros field. rewrite <- Hlen. clear.
    induction models as [|m models IH]; [done|]. cbn. f_equal. exact IH. }
  exists (epoch_end L1 loss). cbn [result epoch_end val_g_losses
    val_f_losses val_dx_losses val_dy_losses].
  rewrite Vg, Vf, Vdx, Vdy.
  rewrite (Hnan G_loss), (Hnan F_loss), (Hnan D_X_loss), (Hnan D_Y_loss).
  split_and!; done.
Qed.

(** ** More on the whole training *)

Lemma epoch_loop_adds_up train_dataset val_dataset :
  cadences_nonzero → train_dataset ≠ [] →
  ∀ epochs L (w : World), ∃ tr L' w',
    for_each epochs L (epoch_body train_dataset val_dataset) w
      = Outcome tr (inr L') w' ∧
    epoch_loop_totals train_dataset epochs L tr L'.
Proof.
  intros Hc Hne. induction epochs as [|epoch epochs IH]; intros L w.
  - exists [], L, w. split; [done|]. split; cbn; lia || done.
  - destruct (epoch_body_full train_dataset val_dataset epoch L w Hc Hne)
      as (tr1 & L1 & loss & Hbody & Hpost & Htb & _).
    destruct (IH (epoch_end L1 loss)
                (train_steps (cycle_gan_model L) train_dataset w).2)
      as (tr2 & L2 & w2 & Hloop & Htot).
    cbn [for_each]. rewrite (bind_returns _ _ _ _ _ _ Hbody), Hloop.
    eexists _, L2, w2. split; [done|].
    destruct Htot as [Ttb Tbars Tg Tf Tdx Tdy Vg Vf Vdx Vdy].
    destruct Hpost as [_ _ Pg Pf Pdx Pdy Pval Pbars _ _ _ _].
    destruct Pval as (models & Hlen & Qg & Qf & Qdx & Qdy).
    cbn [epoch_end train_g_losses train_f_losses train_dx_losses
         train_dy_losses val_g_losses val_f_losses val_dx_losses
         val_dy_losses] in *.
    pose proof (train_steps_length (cycle_gan_model L) train_dataset w)
      as Hk.
    split; cbn [mbind list_bind length].
    + unfold trained_batches in *. rewrite omap_app. cbn [omap list_omap].
      rewrite omap_app, Htb, Ttb. cbn. by rewrite app_nil_r.
    + unfold progress_bars in *. rewrite omap_app. cbn [omap list_omap].
      rewrite omap_app, Pbars, Tbars. cbn. by rewrite app_nil_r.
    + rewrite Tg, Pg, !length_app, length_fmap, Hk. cbn. lia.
    + rewrite Tf, Pf, !length_app, length_fmap, Hk. cbn. lia.
    + rewrite Tdx, Pdx, !length_app, length_fmap, Hk. cbn. lia.
    + rewrite Tdy, Pdy, !length_app, length_fmap, Hk. cbn. lia.
    + rewrite Vg, Qg, !length_app, length_fmap, Hlen. lia.
    + rewrite Vf, Qf, !length_app, length_fmap, Hlen. lia.
    + rewrite Vdx, Qdx, !length_app, length_fmap, Hlen. lia.
    + rewrite Vdy, Qdy, !length_app, length_fmap, Hlen. lia.
Qed.

Lemma training_adds_up model data start_epoch (w : World) :
  cadences_nonzero → train_dataset data ≠ [] →
  ∃ tr L w',
    for_each (range start_epoch EPOCHS)
      (Locals model None [] [] [] [] [] [] [] [])
      (epoch_body (train_dataset data) (val_dataset data)) w
      = Outcome tr (inr L) w' ∧
    epoch_loop_totals (train_dataset data) (range start_epoch EPOCHS)
      (Locals model None [] [] [] [] [] [] [] []) tr L ∧
    training model data start_epoch w =
      Outcome
        (Print (MsgTrainShape (train_images_shape data)) ::
         Print (MsgNoisyTrainShape (noisy_train_images_shape data)) ::
         Print MsgTraining :: tr ++ Print MsgTestLoss ::
         test_model_events (cycle_gan_model L) (test_dataset data) 5 false
           (PyStr "final_test") ++ [Print MsgTrainingComplete])
        (inr L) w'.
Proof.
  intros Hc Hne.
  destruct (epoch_loop_adds_up (train_dataset data) (val_dataset data)
              Hc Hne (range start_epoch EPOCHS)
              (Locals model None [] [] [] [] [] [] [] []) w)
    as (tr & L & w' & Hloop & Htot).
  exists tr, L, w'. split_and!; [done..|].
  rewrite (training_unfold _ _ _ _ _ _ _ Hloop).
  by rewrite test_model_returns by apply Hc.
Qed.

(** ** Resuming from a checkpoint *)

Lemma bind_constant_length {A B} (l : list A) (ds : list B) :
  length (l ≫= (λ _, ds)) = (length l * length ds)%nat.
Proof.
  induction l as [|x l IH]; [done|].
  change ((x :: l) ≫= (λ _, ds)) with (ds ++ (l ≫= (λ _, ds))).
  rewrite length_app, IH. cbn [length]. lia.
Qed.

(** The first checkpoint of a training that has an epoch to run: the
    networks as the training steps of that epoch leave the model the
    training started from, under the index of the first epoch. *)
Lemma training_first_checkpoint model data start_epoch (w : World) :
  cadences_nonzero → train_dataset data ≠ [] → start_epoch < EPOCHS →
  let trained := (train_steps model (train_dataset data) w).1.2 in
  head (saved_models (emitted (training model data start_epoch w)))
    = Some ((generator_G trained, generator_F trained,
             discriminator_X trained, discriminator_Y trained),
            start_epoch).
Proof.
  intros Hc Hne Hlt trained. subst trained.
  destruct (epoch_body_returns (train_dataset data) (val_dataset data)
              start_epoch (Locals model None [] [] [] [] [] [] [] []) w
              Hc Hne) as (tr1 & L1 & loss & Hpost & _ & Hbody).
  destruct (epoch_loop_returns (train_dataset data) (val_dataset data)
              Hc Hne (seqZ (Z.succ start_epoch)
                        (Z.pred (EPOCHS - start_epoch)))
              (epoch_end L1 loss)
              (train_steps model (train_dataset data) w).2)
    as (tr2 & L2 & w2 & Hloop & _).
  cbn [cycle_gan_model] in Hbody.
  rewrite (training_unfold model data start_epoch w
             ((Print (MsgEpoch (start_epoch + 1)) ::
               Tqdm ("Epoch " +:+ str (start_epoch + 1)) ::
               tr1 ++ checkpoint_events (cycle_gan_model L1) start_epoch)
              ++ tr2) L2 w2).
  - rewrite test_model_returns by apply Hc. cbn [emitted].
    destruct Hpost as [Hm _ _ _ _ _ _ _ Hs _ _ _].
    cbn [cycle_gan_model] in Hm.
    unfold saved_models in *. cbn [omap list_omap app].
    rewrite !omap_app, Hs. cbn. by rewrite Hm.
  - unfold range. rewrite seqZ_cons by lia. cbn [for_each].
    by rewrite (bind_returns _ _ _ _ _ _ Hbody), Hloop.
Qed.

(** C10. If [load_models(e)] succeeds in a resume of the MNIST task and
    [e < EPOCHS] (with non-zero cadences and a non-empty train dataset),
    [run] announces the resume, trains the loaded networks and returns;
    the epochs it runs are those of [range(e, EPOCHS)], the first being
    [e] itself, and there are [EPOCHS - e] of them.  Each of these epochs
    trains on every batch of the train dataset, so that [train_step] is
    called [(EPOCHS - e) * K] times, and nothing else trains; the first
    checkpoint written is that of epoch [e] again, holding the loaded
    networks as the training steps of the epoch left them. *)
Theorem resume_retrains_loaded_epoch start_epoch shape w nets w1
    tr_data data w2 :
  load_models start_epoch (final (select_device w)) = (inr nets, w1) →
  load_data false w1 = Outcome tr_data (inr data) w2 →
  start_epoch < EPOCHS → cadences_nonzero → train_dataset data ≠ [] →
  let o := run true start_epoch false shape w in
  let retrained :=
    (train_steps (make_model nets) (train_dataset data) w2).1.2 in
  ∃ devices device (L : locals),
    result o = inr L ∧
    emitted o
      = (device_events devices device ++
         [LoadModels start_epoch; Print (MsgResuming (start_epoch + 1))] ++
         tr_data)
        ++ emitted (training (make_model nets) data start_epoch w2) ∧
    epoch_marks (emitted o)
      = range start_epoch EPOCHS ≫=
          (λ e, [EpochBanner (e + 1); Checkpoint e]) ∧
    (saved_models (emitted o)).*2 = range start_epoch EPOCHS ∧
    range start_epoch EPOCHS
      = start_epoch :: range (start_epoch + 1) EPOCHS ∧
    Z.of_nat (length (range start_epoch EPOCHS)) = EPOCHS - start_epoch ∧
    trained_batches (emitted o)
      = range start_epoch EPOCHS ≫= (λ _, train_dataset data) ∧
    Z.of_nat (length (trained_batches (emitted o)))
      = (EPOCHS - start_epoch) * Z.of_nat (length (train_dataset data)) ∧
    head (saved_models (emitted o))
      = Some ((generator_G retrained, generator_F retrained,
               discriminator_X retrained, discriminator_Y retrained),
              start_epoch) ∧
    (generator_G (make_model nets), generator_F (make_model nets),
     discriminator_X (make_model nets), discriminator_Y (make_model nets))
      = nets.
Proof.
  intros Hload Hdata Hlt Hc Hne o retrained.
  destruct (select_device_returns w) as (devices & device & Hdev).
  pose proof (make_networks_loaded start_epoch shape _ _ _ Hload) as Hnets.
  pose proof (setup_unfold _ _ _ _ _ _ _ _ _ _ _ _ _ _ _ Hdev Hnets Hdata)
    as Hsetup.
  destruct (load_data_returns false w1)
    as (tr' & data' & Hdata' & Ds & _ & _ & Dk).
  rewrite Hdata in Hdata'. injection Hdata' as Htr Hd. subst tr' data'.
  assert (trained_batches tr_data = []) as Dt.
  { destruct (loaded_splits false w1) as [[[[a b] c] [[na nb] nc]] w']
      eqn:Hsplits.
    rewrite (load_data_splits _ _ _ _ _ _ _ _ _ Hsplits) in Hdata.
    injection Hdata as <- _ _. done. }
  destruct (training_returns (make_model nets) data start_epoch w2 Hc Hne)
    as (L & Hres & Hs & _ & _ & Hk).
  pose proof (training_first_checkpoint (make_model nets) data start_epoch
                w2 Hc Hne Hlt) as Hfirst.
  assert (trained_batches
            (emitted (training (make_model nets) data start_epoch w2))
          = range start_epoch EPOCHS ≫= (λ _, train_dataset data)) as Ht.
  { destruct (training_adds_up (make_model nets) data start_epoch w2 Hc Hne)
      as (tr & L' & w' & _ & Htot & ->).
    destruct (test_model_events_no_train_snapshot (cycle_gan_model L')
                (test_dataset data) 5 false (PyStr "final_test"))
      as (_ & Hno).
    pose proof (total_trained _ _ _ _ _ Htot) as Ttb.
    cbn [emitted]. unfold trained_batches in *. cbn [omap list_omap].
    rewrite omap_app. cbn [omap list_omap]. rewrite omap_app, Hno, Ttb.
    cbn. by rewrite app_nil_r. }
  assert (trained_batches (emitted o)
          = range start_epoch EPOCHS ≫= (λ _, train_dataset data)) as Hto.
  { subst o. rewrite (run_unfold _ _ _ _ _ _ _ _ _ _ Hsetup).
    cbn [emitted]. unfold trained_batches in *.
    rewrite !omap_app, Dt, Ht. done. }
  exists devices, device, L.
  split_and!.
  - subst o. by rewrite (run_unfold _ _ _ _ _ _ _ _ _ _ Hsetup).
  - subst o. by rewrite (run_unfold _ _ _ _ _ _ _ _ _ _ Hsetup).
  - subst o. rewrite (run_unfold _ _ _ _ _ _ _ _ _ _ Hsetup).
    cbn [emitted]. unfold epoch_marks in *. rewrite !omap_app, Dk, Hk. done.
  - subst o. rewrite (run_unfold _ _ _ _ _ _ _ _ _ _ Hsetup).
    cbn [emitted]. unfold saved_models in *.
    rewrite !omap_app, Ds, fmap_app, Hs. done.
  - unfold range. rewrite seqZ_cons by lia. f_equal. f_equal; lia.
  - unfold range. rewrite length_seqZ. lia.
  - exact Hto.
  - rewrite Hto, bind_constant_length. unfold range.
    rewrite length_seqZ. lia.
  - subst o retrained. rewrite (run_unfold _ _ _ _ _ _ _ _ _ _ Hsetup).
    cbn [emitted]. unfold saved_models in *.
    rewrite !omap_app, Ds. exact Hfirst.
  - by destruct nets as [[[gen_G gen_F] disc_X] disc_Y].
Qed.

(** X13. Over a whole training (non-zero cadences, [VALIDATION_EVERY]
    positive, [K >= 1] batches, [n] epochs in
    [range(start_epoch, EPOCHS)]) each of the four training histories
    ends with [n * (K + 1)] entries and each of the four validation
    histories with [n * ((K - 1) / VALIDATION_EVERY)]: the final test
    adds nothing to them. *)
Theorem history_lengths model data start_epoch (w : World) :
  0 < VALIDATION_EVERY → SAVE_EVERY_TRAIN ≠ 0 → SAVE_EVERY_TEST ≠ 0 →
  train_dataset data ≠ [] →
  let K := Z.of_nat (length (train_dataset data)) in
  let n := Z.of_nat (length (range start_epoch EPOCHS)) in
  ∃ L : locals,
    result (training model data start_epoch w) = inr L ∧
    Z.of_nat (length (train_g_losses L)) = n * (K + 1) ∧
    Z.of_nat (length (train_f_losses L)) = n * (K + 1) ∧
    Z.of_nat (length (train_dx_losses L)) = n * (K + 1) ∧
    Z.of_nat (length (train_dy_losses L)) = n * (K + 1) ∧
    Z.of_nat (length (val_g_losses L)) = n * ((K - 1) / VALIDATION_EVERY) ∧
    Z.of_nat (length (val_f_losses L)) = n * ((K - 1) / VALIDATION_EVERY) ∧
    Z.of_nat (length (val_dx_losses L)) = n * ((K - 1) / VALIDATION_EVERY) ∧
    Z.of_nat (length (val_dy_losses L)) = n * ((K - 1) / VALIDATION_EVERY).
Proof.
  intros HV HT HS Hne K n.
  assert (cadences_nonzero) as Hc by (unfold cadences_nonzero; lia).
  destruct (training_adds_up model data start_epoch w Hc Hne)
    as (tr & L & w' & _ & Htot & ->).
  destruct Htot as [_ _ Tg Tf Tdx Tdy Vg Vf Vdx Vdy].
  assert (Z.of_nat (length (validation_batches 0
                              (length (train_dataset data))))
          = (K - 1) / VALIDATION_EVERY) as Hcount.
  { apply validation_count; [done|].
    destruct (train_dataset data); [done|cbn; lia]. }
  exists L. cbn [result]. cbn [length train_g_losses train_f_losses
    train_dx_losses train_dy_losses val_g_losses val_f_losses
    val_dx_losses val_dy_losses] in *.
  rewrite Tg, Tf, Tdx, Tdy, Vg, Vf, Vdx, Vdy. subst K n.
  rewrite <- Hcount. split_and!; [done|lia..].
Qed.

(** X14. Every epoch of a training runs over the whole train dataset,
    batch by batch in the same order: the batches handed to
    [train_step] are the train dataset repeated once per epoch of
    [range(start_epoch, EPOCHS)]; validation and the final test never
    train. *)
Theorem every_epoch_trains_every_batch model data start_epoch (w : World) :
  cadences_nonzero → train_dataset data ≠ [] →
  trained_batches (emitted (training model data start_epoch w))
    = range start_epoch EPOCHS ≫= (λ _, train_dataset data).
Proof.
  intros Hc Hne.
  destruct (training_adds_up model data start_epoch w Hc Hne)
    as (tr & L & w' & _ & Htot & ->).
  destruct (test_model_events_no_train_snapshot (cycle_gan_model L)
              (test_dataset data) 5 false (PyStr "final_test"))
    as (_ & Ht).
  pose proof (total_trained _ _ _ _ _ Htot) as Ttb.
  cbn [emitted]. unfold trained_batches in *. cbn [omap list_omap].
  rewrite omap_app. cbn [omap list_omap]. rewrite omap_app, Ht, Ttb.
  cbn. by rewrite app_nil_r.
Qed.

(** X15. The passes of [test_model] in a whole training, read off their
    progress bars: within each epoch of [range(start_epoch, EPOCHS)],
    after the bar of the training loop, one validation pass for each
    batch index [0 < b < K] with [b % VALIDATION_EVERY == 0]; and after
    the last epoch exactly one more pass, the final test. *)
Theorem training_progress_bars model data start_epoch (w : World) :
  cadences_nonzero → train_dataset data ≠ [] →
  let K := Z.of_nat (length (train_dataset data)) in
  progress_bars (emitted (training model data start_epoch w))
    = (range start_epoch EPOCHS ≫=
         (λ e, ("Epoch " +:+ str (e + 1)) ::
               (validation_bar e
                  <$> filter (λ b, 0 < b ∧ b mod VALIDATION_EVERY = 0)
                        (seqZ 0 K))))
      ++ ["Epoch final_test"].
Proof.
  intros Hc Hne K.
  destruct (training_adds_up model data start_epoch w Hc Hne)
    as (tr & L & w' & _ & Htot & ->).
  pose proof (test_model_events_bars (cycle_gan_model L)
                (test_dataset data) 5 false (PyStr "final_test")) as Hb.
  pose proof (total_bars _ _ _ _ _ Htot) as Tbars.
  cbn [emitted]. unfold progress_bars in *. cbn [omap list_omap].
  rewrite omap_app. cbn [omap list_omap]. rewrite omap_app, Hb, Tbars.
  subst K. rewrite <- validation_batches_spec. cbn. done.
Qed.

(** ** More on [run] as a whole *)

Lemma emits_call_raising {A} (P : @event Net Tensor → Prop) ev
    (f : World → (exn + A) * World) :
  P ev → emits P (call_raising ev f).
Proof.
  intros Hev w. unfold call_raising. destruct (f w). cbn. by constructor.
Qed.

Lemma emits_try_except {A} P (body : @M World Net Tensor A) handler :
  emits P body → (∀ e, emits P (handler e)) →
  emits P (try_except body handler).
Proof.
  intros Hb Hh w. unfold try_except.
  specialize (Hb w). destruct (body w) as [tr [e|a] w1]; [|done].
  specialize (Hh e w1). destruct (handler e w1) as [tr' r w2]. cbn in *.
  by apply Forall_app.
Qed.

Lemma select_device_emits :
  emits (λ ev, is_setup_event ev) (select_device : @M World Net Tensor _).
Proof.
  unfold select_device.
  apply emits_bind; [by apply emits_call|intros devices].
  apply emits_bind; [by apply emits_emit|intros _].
  apply emits_bind; [by apply emits_call|intros devices'].
  apply emits_bind; [by apply emits_emit|intros _].
  apply emits_bind; [by apply emits_emit|intros _].
  apply emits_ret.
Qed.

Lemma make_networks_emits resume_train start_epoch robotics_task shape :
  emits (λ ev, is_setup_event ev)
    (make_networks resume_train start_epoch robotics_task shape
       : @M World Net Tensor _).
Proof.
  unfold make_networks.
  destruct (resume_train && Bool.eqb robotics_task false).
  - apply emits_try_except.
    + apply emits_bind; [by apply emits_call_raising|].
      intros [[[gen_G gen_F] disc_X] disc_Y].
      apply emits_bind; [by apply emits_emit|intros _]. apply emits_ret.
    + intros e.
      repeat (apply emits_bind; [by apply emits_emit|intros _]).
      repeat (apply emits_bind; [by apply emits_call|intros ?]).
      apply emits_ret.
  - repeat (apply emits_bind; [by apply emits_call|intros ?]).
    apply emits_ret.
Qed.

Lemma setup_events_projections (tr : list (@event Net Tensor)) :
  Forall (λ ev, is_setup_event ev) tr →
  plotted tr = [] ∧ data_calls tr = [] ∧ trained_batches tr = [] ∧
  saved_models tr = [].
Proof.
  intros Htr. split_and!; apply omap_Forall_None;
    (eapply Forall_impl; [exact Htr|]); by intros [].
Qed.

Lemma make_networks_returns resume_train start_epoch robotics_task shape
    (w : World) :
  ∃ tr start nets w2,
    make_networks resume_train start_epoch robotics_task shape w
      = Outcome tr (inr (start, nets)) w2 ∧
    (resume_train = false → start = start_epoch).
Proof.
  destruct (resume_train && Bool.eqb robotics_task false) eqn:Hguard.
  - apply andb_prop in Hguard as [-> Hrob].
    destruct robotics_task; [done|].
    destruct (load_models start_epoch w) as [[err|nets] w1] eqn:Hload.
    + do 4 eexists. split; [by apply make_networks_fallback|done].
    + do 4 eexists. split; [by apply make_networks_loaded|done].
  - do 4 eexists. split; [by apply make_networks_fresh|done].
Qed.

(** The events of a run: those of the device selection and of the
    networks, those of [load_data] in the world the construction of the
    networks left, those of the training on the datasets [load_data]
    returned. *)
Lemma run_events_split resume_train start_epoch robotics_task shape
    (w : World) :
  let w1 :=
    final (make_networks resume_train start_epoch robotics_task shape
             (final (select_device w))) in
  ∃ tr_pre start nets tr_data data w2,
    load_data robotics_task w1 = Outcome tr_data (inr data) w2 ∧
    emitted (run resume_train start_epoch robotics_task shape w)
      = tr_pre ++ tr_data
        ++ emitted (training (make_model nets) data start w2) ∧
    Forall (λ ev, is_setup_event ev) tr_pre.
Proof.
  intros w1. subst w1.
  destruct (select_device_returns w) as (devices & device & Hdev).
  destruct (make_networks_returns resume_train start_epoch robotics_task
              shape (final (select_device w)))
    as (tr2 & start & nets & w2 & Hnets & _).
  destruct (load_data_returns robotics_task w2)
    as (tr3 & data & Hdata & _).
  pose proof (select_device_emits w) as Edev.
  pose proof (make_networks_emits resume_train start_epoch robotics_task
                shape (final (select_device w))) as Enets.
  rewrite Hdev in Edev at 1. rewrite Hnets in Enets.
  cbn [emitted] in Edev, Enets.
  rewrite (run_unfold _ _ _ _ _ _ _ _ _ _
             (setup_unfold _ _ _ _ _ _ _ _ _ _ _ _ _ _ _ Hdev Hnets Hdata)).
  rewrite Hnets. cbn [emitted final].
  exists (device_events devices device ++ tr2), start, nets, tr3, data,
    (final (load_data robotics_task w2)).
  split_and!; [done| |by apply Forall_app].
  by rewrite <- !app_assoc.
Qed.

(** X16. Whatever its arguments and whether it returns or raises, [run]
    calls [plot_images] exactly three times, all before the training
    loop: the previews of the train, the validation and the test images
    the loader returned, in that order, each showing the first five
    clean images, the first five images of the degraded version of that
    very split and, in the place of the generated images, the clean
    images again.  The training that follows runs on the datasets built
    from the same splits, and nothing is plotted before the previews or
    during training, validation or the final test. *)
Theorem run_plots_three_previews resume_train start_epoch robotics_task
    shape (w : World) :
  let w1 :=
    final (make_networks resume_train start_epoch robotics_task shape
             (final (select_device w))) in
  let '((train_images, val_images, test_images),
        (noisy_train_images, noisy_val_images, noisy_test_images), w2) :=
    loaded_splits robotics_task w1 in
  let o := run resume_train start_epoch robotics_task shape w in
  ∃ before start model data,
    emitted o
      = before ++
        [PlotImages (tensor_take 5 train_images)
           (tensor_take 5 noisy_train_images) (tensor_take 5 train_images) 5;
         PlotImages (tensor_take 5 val_images)
           (tensor_take 5 noisy_val_images) (tensor_take 5 val_images) 5;
         PlotImages (tensor_take 5 test_images)
           (tensor_take 5 noisy_test_images) (tensor_take 5 test_images) 5]
        ++ emitted (training model data start w2) ∧
    plotted before = [] ∧
    trained_batches before = [] ∧
    plotted (emitted (training model data start w2)) = [] ∧
    train_dataset data
      = batched_dataset train_images noisy_train_images BATCH_SIZE ∧
    val_dataset data
      = batched_dataset val_images noisy_val_images BATCH_SIZE ∧
    test_dataset data
      = batched_dataset test_images noisy_test_images BATCH_SIZE ∧
    plotted (emitted o)
      = [(tensor_take 5 train_images, tensor_take 5 noisy_train_images,
          tensor_take 5 train_images, 5);
         (tensor_take 5 val_images, tensor_take 5 noisy_val_images,
          tensor_take 5 val_images, 5);
         (tensor_take 5 test_images, tensor_take 5 noisy_test_images,
          tensor_take 5 test_images, 5)].
Proof.
  intros w1.
  destruct (run_events_split resume_train start_epoch robotics_task shape w)
    as (tr_pre & start & nets & tr_data & data & w2 & Hdata & Hrun & Hpre).
  fold w1 in Hdata.
  destruct (loaded_splits robotics_task w1)
    as [[[[a b] c] [[na nb] nc]] w'] eqn:Hsplits.
  rewrite (load_data_splits _ _ _ _ _ _ _ _ _ Hsplits) in Hdata.
  injection Hdata as <- <- <-. intros o. subst o.
  destruct (setup_events_projections _ Hpre) as (Hp & _ & Ht & _).
  pose proof (training_emits (make_model nets)
                (Datasets (batched_dataset a na BATCH_SIZE)
                   (batched_dataset b nb BATCH_SIZE)
                   (batched_dataset c nc BATCH_SIZE)
                   (tensor_shape a) (tensor_shape na)) start w') as Htrain.
  destruct (loop_events_projections _ Htrain) as (Hq & _).
  exists (tr_pre ++
          (if robotics_task
           then [LoadRoboticsData; RemovePixel a; RemovePixel b;
                 RemovePixel c]
           else [LoadMnist TRAIN_IMAGES VAL_IMAGES TEST_IMAGES;
                 AddSaltPepperNoise a; AddSaltPepperNoise b;
                 AddSaltPepperNoise c])),
    start, (make_model nets),
    (Datasets (batched_dataset a na BATCH_SIZE)
       (batched_dataset b nb BATCH_SIZE) (batched_dataset c nc BATCH_SIZE)
       (tensor_shape a) (tensor_shape na)).
  split_and!; [| | |exact Hq|reflexivity|reflexivity|reflexivity|].
  - rewrite Hrun. cbn [preview_events]. by rewrite <- !app_assoc.
  - unfold plotted in *. rewrite omap_app, Hp. by destruct robotics_task.
  - unfold trained_batches in *. rewrite omap_app, Ht.
    by destruct robotics_task.
  - rewrite Hrun. unfold plotted in *. rewrite !omap_app, Hp, Hq.
    by destruct robotics_task.
Qed.

(** X17. The data path follows [robotics_task] and nothing else: a
    robotics run loads with [load_robotics_data] and then calls
    [remove_pixel] once on each of the three splits that call returned,
    in the order train, validation, test; an MNIST run does the same
    with [load_mnist] on the three configured sizes and
    [add_salt_pepper_noise].  Both load in the world that the
    construction of the networks left.  Neither ever calls a function of
    the other path, and no image is loaded or degraded again later,
    whether the run returns or raises. *)
Theorem run_data_calls resume_train start_epoch robotics_task shape
    (w : World) :
  let w1 :=
    final (make_networks resume_train start_epoch robotics_task shape
             (final (select_device w))) in
  let '(train_images, val_images, test_images) :=
    if robotics_task
    then (load_robotics_data w1).1
    else (load_mnist TRAIN_IMAGES VAL_IMAGES TEST_IMAGES w1).1 in
  data_calls (emitted (run resume_train start_epoch robotics_task shape w))
    = if robotics_task
      then [LoadRoboticsData; RemovePixel train_images;
            RemovePixel val_images; RemovePixel test_images]
      else [LoadMnist TRAIN_IMAGES VAL_IMAGES TEST_IMAGES;
            AddSaltPepperNoise train_images; AddSaltPepperNoise val_images;
            AddSaltPepperNoise test_images].
Proof.
  intros w1.
  destruct (run_events_split resume_train start_epoch robotics_task shape w)
    as (tr_pre & start & nets & tr_data & data & w2 & Hdata & Hrun & Hpre).
  fold w1 in Hdata.
  destruct (loaded_splits robotics_task w1)
    as [[[[a b] c] [[na nb] nc]] w'] eqn:Hsplits.
  rewrite (load_data_splits _ _ _ _ _ _ _ _ _ Hsplits) in Hdata.
  injection Hdata as <- <- <-.
  destruct (setup_events_projections _ Hpre) as (_ & Hp & _).
  pose proof (training_emits (make_model nets)
                (Datasets (batched_dataset a na BATCH_SIZE)
                   (batched_dataset b nb BATCH_SIZE)
                   (batched_dataset c nc BATCH_SIZE)
                   (tensor_shape a) (tensor_shape na)) start w') as Htrain.
  destruct (loop_events_projections _ Htrain) as (_ & _ & Hq).
  rewrite Hrun. unfold data_calls in *. rewrite !omap_app, Hp, Hq.
  revert Hsplits. unfold loaded_splits.
  destruct robotics_task; cbn [Bool.eqb].
  - destruct (load_robotics_data w1) as [[[a0 b0] c0] w3].
    destruct (remove_pixel a0 w3) as [na0 w4].
    destruct (remove_pixel b0 w4) as [nb0 w5].
    destruct (remove_pixel c0 w5) as [nc0 w6].
    intros [= -> -> -> _ _ _ _]. reflexivity.
  - destruct (load_mnist TRAIN_IMAGES VAL_IMAGES TEST_IMAGES w1)
      as [[[a0 b0] c0] w3].
    destruct (add_salt_pepper_noise a0 w3) as [na0 w4].
    destruct (add_salt_pepper_noise b0 w4) as [nb0 w5].
    destruct (add_salt_pepper_noise c0 w5) as [nc0 w6].
    intros [= -> -> -> _ _ _ _]. reflexivity.
Qed.

(** X18. Without [resume_train], [run] never calls [load_models],
    whether it returns or raises, and still starts the epoch loop at the
    [start_epoch] it was given: with fresh networks the epochs before
    [start_epoch] are skipped all the same. *)
Theorem fresh_start_honours_start_epoch start_epoch robotics_task shape
    (w : World) :
  loaded_models (emitted (run false start_epoch robotics_task shape w)) = [] ∧
  ∃ tr model data w',
    setup false start_epoch robotics_task shape w
      = Outcome tr (inr (start_epoch, model, data)) w' ∧
    (cadences_nonzero → train_dataset data ≠ [] →
     epoch_marks (emitted (run false start_epoch robotics_task shape w))
       = range start_epoch EPOCHS ≫=
           (λ e, [EpochBanner (e + 1); Checkpoint e])).
Proof.
  destruct (select_device_returns w) as (devices & device & Hdev).
  pose proof (make_networks_fresh false start_epoch robotics_task shape
                (final (select_device w)) eq_refl) as Hnets.
  destruct (load_data_returns robotics_task
              (fresh_networks shape (final (select_device w))).2)
    as (tr3 & data & Hdata & _ & Dl & _ & Dk).
  pose proof (setup_unfold _ _ _ _ _ _ _ _ _ _ _ _ _ _ _ Hdev Hnets Hdata)
    as Hsetup.
  rewrite (run_unfold _ _ _ _ _ _ _ _ _ _ Hsetup). cbn [emitted].
  split.
  - unfold loaded_models in *.
    rewrite !omap_app, Dl. cbn [omap list_omap app].
    apply training_no_load.
  - do 4 eexists. split; [exact Hsetup|]. intros Hc Hne.
    destruct (training_returns
                (make_model
                   (fresh_networks shape (final (select_device w))).1)
                data start_epoch
                (final (load_data robotics_task
                   (fresh_networks shape (final (select_device w))).2))
                Hc Hne) as (L & _ & _ & _ & _ & Hk).
    unfold epoch_marks in *. rewrite !omap_app, Dk, Hk. done.
Qed.

(** ** [load_model_and_only_test] *)

(** X19. Unlike [run], [load_model_and_only_test] does not catch a
    failure of [load_models]: the exception escapes at once, before any
    image is loaded and before any test. *)
Theorem only_test_propagates_load_failure epoch (w : World) err w1 :
  load_models epoch w = (inl err, w1) →
  load_model_and_only_test epoch w = Outcome [LoadModels epoch] (inl err) w1.
Proof.
  intros Hload. unfold load_model_and_only_test.
  unfold mbind at 1. unfold M_bind at 1. unfold bind, call_raising.
  by rewrite Hload.
Qed.

Lemma only_test_outcome epoch (w : World) nets w1 a b c w2 :
  load_models epoch w = (inr nets, w1) → SAVE_EVERY_TEST ≠ 0 →
  load_mnist TRAIN_IMAGES VAL_IMAGES TEST_IMAGES w1 = ((a, b, c), w2) →
  ∃ model,
    (generator_G model, generator_F model,
     discriminator_X model, discriminator_Y model) = nets ∧
    load_model_and_only_test epoch w =
      Outcome
        (LoadModels epoch ::
         LoadMnist TRAIN_IMAGES VAL_IMAGES TEST_IMAGES ::
         AddSaltPepperNoise c :: Print MsgTest ::
         test_model_events model
           (batched_dataset c (add_salt_pepper_noise c w2).1 BATCH_SIZE)
           5 false (PyStr "final_test") ++
         [Print MsgTestingComplete])
        (inr tt) (add_salt_pepper_noise c w2).2.
Proof.
  intros Hload HS Hmnist. unfold load_model_and_only_test.
  unfold mbind, M_bind, bind, call_raising, call. rewrite Hload.
  destruct nets as [[[gen_G gen_F] disc_X] disc_Y]. rewrite Hmnist.
  destruct (add_salt_pepper_noise c w2) as [nc w3]. cbn [emit].
  rewrite test_model_returns by done. cbn.
  eexists. split; [|reflexivity]. reflexivity.
Qed.

(** X20. When the checkpoint loads (and [SAVE_EVERY_TEST] is not zero),
    [load_model_and_only_test] returns after a single pass of
    [test_model], the final test: it loads the checkpoint once, never
    trains, never writes a checkpoint and never plots.  Of the three
    MNIST splits that [load_mnist] returns it degrades one only, the
    third, which the code names [test_images]; the pass then runs the
    loaded networks over the dataset built from that split and its
    degraded version. *)
Theorem only_test_never_trains epoch (w : World) nets w1 :
  load_models epoch w = (inr nets, w1) → SAVE_EVERY_TEST ≠ 0 →
  let o := load_model_and_only_test epoch w in
  let '((_, _, test_images), w2) :=
    load_mnist TRAIN_IMAGES VAL_IMAGES TEST_IMAGES w1 in
  let noisy_test_images := (add_salt_pepper_noise test_images w2).1 in
  result o = inr tt ∧
  loaded_models (emitted o) = [epoch] ∧
  trained_batches (emitted o) = [] ∧
  saved_models (emitted o) = [] ∧
  plotted (emitted o) = [] ∧
  progress_bars (emitted o) = ["Epoch final_test"] ∧
  data_calls (emitted o)
    = [LoadMnist TRAIN_IMAGES VAL_IMAGES TEST_IMAGES;
       AddSaltPepperNoise test_images] ∧
  ∃ model,
    (generator_G model, generator_F model,
     discriminator_X model, discriminator_Y model) = nets ∧
    emitted o
      = LoadModels epoch ::
        LoadMnist TRAIN_IMAGES VAL_IMAGES TEST_IMAGES ::
        AddSaltPepperNoise test_images :: Print MsgTest ::
        test_model_events model
          (batched_dataset test_images noisy_test_images BATCH_SIZE)
          5 false (PyStr "final_test") ++
        [Print MsgTestingComplete].
Proof.
  intros Hload HS o. subst o.
  destruct (load_mnist TRAIN_IMAGES VAL_IMAGES TEST_IMAGES w1)
    as [[[a b] c] w2] eqn:Hmnist.
  destruct (only_test_outcome epoch w nets w1 a b c w2 Hload HS Hmnist)
    as (model & Hnets & ->).
  cbn [result emitted].
  set (nc := (add_salt_pepper_noise c w2).1).
  pose proof (test_model_events_bars model
                (batched_dataset c nc BATCH_SIZE) 5 false
                (PyStr "final_test")) as Hbars.
  destruct (test_model_events_no_checkpoint model
              (batched_dataset c nc BATCH_SIZE) 5 false
              (PyStr "final_test")) as (Hs & Hl & _).
  pose proof (test_model_emits model (batched_dataset c nc BATCH_SIZE) 5
                (PyStr "final_test") w) as Hev.
  rewrite test_model_returns in Hev by done. cbn [emitted] in Hev.
  assert (Forall (λ ev : @event Net Tensor, is_loop_event ev)
            (test_model_events model (batched_dataset c nc BATCH_SIZE) 5
               false (PyStr "final_test"))) as Hloop.
  { eapply Forall_impl; [exact Hev|]. apply test_event_is_loop_event. }
  destruct (loop_events_projections _ Hloop) as (Hp & _ & Hd).
  destruct (test_model_events_no_train_snapshot model
              (batched_dataset c nc BATCH_SIZE) 5 false
              (PyStr "final_test")) as (_ & Ht).
  unfold loaded_models, trained_batches, saved_models, plotted,
    progress_bars, data_calls in *.
  cbn [omap list_omap]. rewrite !omap_app, Hbars, Hs, Hl, Hp, Hd, Ht.
  split_and!; try done. by exists model.
Qed.

End Properties.

(** * Training under two configurations *)

(** X21. Validation and snapshots do not influence training: an epoch
    run under two configurations (both with non-zero cadences) and with
    two validation datasets leaves the same model, the same world, the
    same last loss and the same four training histories. *)
Theorem validation_does_not_influence_training {World Net Tensor : Type}
    {collaborators : @External World Net Tensor} (p1 p2 : Params)
    (train_dataset val1 val2 : list Batch) epoch (L : locals) (w : World) :
  cadences_nonzero (params := p1) → cadences_nonzero (params := p2) →
  train_dataset ≠ [] →
  let o1 := epoch_body (params := p1) train_dataset val1 epoch L w in
  let o2 := epoch_body (params := p2) train_dataset val2 epoch L w in
  ∃ L1 L2 : locals,
    result o1 = inr L1 ∧ result o2 = inr L2 ∧
    final o1 = final o2 ∧
    cycle_gan_model L1 = cycle_gan_model L2 ∧
    train_loss L1 = train_loss L2 ∧
    train_g_losses L1 = train_g_losses L2 ∧
    train_f_losses L1 = train_f_losses L2 ∧
    train_dx_losses L1 = train_dx_losses L2 ∧
    train_dy_losses L1 = train_dy_losses L2.
Proof.
  intros Hc1 Hc2 Hne o1 o2. subst o1 o2.
  destruct (epoch_body_returns (params := p1) train_dataset val1 epoch L w
              Hc1 Hne) as (tr1 & L1 & loss1 & P1 & Hl1 & ->).
  destruct (epoch_body_returns (params := p2) train_dataset val2 epoch L w
              Hc2 Hne) as (tr2 & L2 & loss2 & P2 & Hl2 & ->).
  rewrite Hl1 in Hl2. injection Hl2 as <-.
  destruct P1 as [M1 _ G1 F1 X1 Y1 _ _ _ _ _ _].
  destruct P2 as [M2 _ G2 F2 X2 Y2 _ _ _ _ _ _].
  exists (epoch_end L1 loss1), (epoch_end L2 loss1).
  cbn [result final epoch_end cycle_gan_model train_loss train_g_losses
       train_f_losses train_dx_losses train_dy_losses].
  rewrite M1, M2, G1, G2, F1, F2, X1, X2, Y1, Y2. split_and!; done.
Qed.

#[local] Existing Instance toy_external.
#[local] Existing Instance toy_params.

(** * The instance at work *)

Example toy_run_epochs :
  epoch_marks (emitted (run false 0 false [28; 28; 1] empty_disk))
    = [EpochBanner 1; Checkpoint 0; EpochBanner 2; Checkpoint 1;
       EpochBanner 3; Checkpoint 2].
Proof. vm_compute. reflexivity. Qed.

Example toy_run_bars :
  progress_bars (emitted (run false 0 false [28; 28; 1] empty_disk))
    = ["Epoch 1"; "Epoch 0_2"; "Epoch 0_4";
       "Epoch 2"; "Epoch 1_2"; "Epoch 1_4";
       "Epoch 3"; "Epoch 2_2"; "Epoch 2_4"; "Epoch final_test"].
Proof. vm_compute. reflexivity. Qed.

Example toy_run_train_history :
  match result (run false 0 false [28; 28; 1] (ToyWorld [] 2 0)) with
  | inl _ => []
  | inr L => train_g_losses L
  end = inject_Z <$> [4; 5; 5; 6; 7; 7; 8; 9; 9].
Proof. vm_compute. reflexivity. Qed.

(** With splits of 5, 2 and 3 images the three degrade calls and the
    three previews can be told apart. *)
Example toy_run_data_calls :
  data_calls
    (emitted (run (params := distinct_splits_params) false 0 false
                [28; 28; 1] empty_disk))
    = [LoadMnist 5 2 3; AddSaltPepperNoise 5%nat; AddSaltPepperNoise 2%nat;
       AddSaltPepperNoise 3%nat].
Proof. vm_compute. reflexivity. Qed.

Example toy_run_previews :
  plotted
    (emitted (run (params := distinct_splits_params) false 0 false
                [28; 28; 1] empty_disk))
    = [(5%nat, 5%nat, 5%nat, 5); (2%nat, 2%nat, 2%nat, 5);
       (3%nat, 3%nat, 3%nat, 5)].
Proof. vm_compute. reflexivity. Qed.

Lemma test_model_averages_witness :
  two_batches ≠ [] ∧ SAVE_EVERY_TEST ≠ 0 ∧
  ∃ d : gmap string npfloat,
    result (test_model toy_model two_batches 5 true (PyInt 0) empty_disk)
      = inr d ∧
    d !! "avg_G_loss" = Some (num (arithmetic_mean [1; 3]%Q)).
Proof.
  assert (two_batches ≠ []) as Hne by discriminate.
  assert (SAVE_EVERY_TEST ≠ 0) as HS by (cbn; lia).
  split; [exact Hne|]. split; [exact HS|].
  destruct (test_model_averages toy_model two_batches 5 true (PyInt 0)
              empty_disk Hne HS) as (d & Hd & _ & HG & _).
  exists d. split; [exact Hd|exact HG].
Defined.

Lemma test_model_without_plot_saves_images_witness :
  SAVE_EVERY_TEST ≠ 0 ∧
  plotted
    (emitted (test_model toy_model two_batches 5 false (PyStr "final_test")
                empty_disk)) = [] ∧
  head
    (saved_images
       (emitted (test_model toy_model two_batches 5 false
                   (PyStr "final_test") empty_disk)))
    = Some (1%nat, 1%nat, 1%nat, PyStr "final_test", PyStr "0",
            "test_images").
Proof.
  assert (SAVE_EVERY_TEST ≠ 0) as HS by (cbn; lia).
  split; [exact HS|].
  destruct (test_model_without_plot_saves_images toy_model two_batches 5
              (PyStr "final_test") empty_disk HS) as (_ & Hplot & _ & Hhead).
  split; [exact Hplot|].
  exact (Hhead 1%nat 1%nat [(3%nat, 3%nat)] eq_refl).
Defined.

Lemma validation_cadence_witness :
  0 < VALIDATION_EVERY ∧ SAVE_EVERY_TRAIN ≠ 0 ∧ SAVE_EVERY_TEST ≠ 0 ∧
  five_batches ≠ [] ∧
  progress_bars
    (emitted (epoch_body five_batches two_batches 0 toy_locals empty_disk))
    = ["Epoch 1"; "Epoch 0_2"; "Epoch 0_4"].
Proof.
  assert (0 < VALIDATION_EVERY) as HV by (cbn; lia).
  assert (SAVE_EVERY_TRAIN ≠ 0) as HT by (cbn; lia).
  assert (SAVE_EVERY_TEST ≠ 0) as HS by (cbn; lia).
  assert (five_batches ≠ []) as Hne by discriminate.
  split_and!; [exact HV|exact HT|exact HS|exact Hne|].
  destruct (validation_cadence five_batches two_batches 0 toy_locals
              empty_disk HV HT HS Hne) as (L' & models & _ & Hbars & _).
  exact Hbars.
Defined.

Lemma last_batch_losses_appended_twice_witness :
  cadences_nonzero ∧ two_batches ≠ [] ∧
  ∃ L' : locals,
    result (epoch_body two_batches two_batches 0 toy_locals empty_disk)
      = inr L' ∧
    train_g_losses L' = [0; 1; 1]%Q.
Proof.
  assert (cadences_nonzero) as Hc by (unfold cadences_nonzero; cbn; lia).
  assert (two_batches ≠ []) as Hne by discriminate.
  split_and!; [exact Hc|exact Hne|].
  destruct (last_batch_losses_appended_twice two_batches two_batches 0
              toy_locals empty_disk Hc Hne)
    as (L' & final_loss & Hres & _ & Hlast & Hg & _).
  exists L'. split; [exact Hres|].
  injection Hlast as <-. exact Hg.
Defined.

Lemma checkpoint_once_per_epoch_witness :
  cadences_nonzero ∧
  train_dataset (Datasets five_batches two_batches two_batches [] []) ≠ [] ∧
  epoch_marks
    (emitted (training toy_model
                (Datasets five_batches two_batches two_batches [] [])
                1 empty_disk))
    = [EpochBanner 2; Checkpoint 1; EpochBanner 3; Checkpoint 2].
Proof.
  assert (cadences_nonzero) as Hc by (unfold cadences_nonzero; cbn; lia).
  assert (train_dataset
            (Datasets five_batches two_batches two_batches [] []) ≠ [])
    as Hne by discriminate.
  split_and!; [exact Hc|exact Hne|].
  destruct (checkpoint_once_per_epoch _ Hc Hne) as [_ Hrun].
  destruct (Hrun toy_model 1 empty_disk) as (L' & _ & Hmarks & _).
  exact Hmarks.
Defined.


Lemma resume_retrains_loaded_epoch_witness :
  load_models 1 (final (select_device disk_with_epoch_1))
    = (inr (100%nat, 101%nat, 102%nat, 103%nat), disk_with_epoch_1) ∧
  1 < EPOCHS ∧ cadences_nonzero ∧
  ∃ L : locals,
    result (run true 1 false [28; 28; 1] disk_with_epoch_1) = inr L ∧
    epoch_marks (emitted (run true 1 false [28; 28; 1] disk_with_epoch_1))
      = [EpochBanner 2; Checkpoint 1; EpochBanner 3; Checkpoint 2] ∧
    trained_batches
      (emitted (run true 1 false [28; 28; 1] disk_with_epoch_1))
      = replicate 10 (1%nat, 1%nat) ∧
    head (saved_models
            (emitted (run true 1 false [28; 28; 1] disk_with_epoch_1)))
      = Some ((100%nat, 101%nat, 102%nat, 103%nat), 1).
Proof.
  assert (load_models 1 (final (select_device disk_with_epoch_1))
            = (inr (100%nat, 101%nat, 102%nat, 103%nat), disk_with_epoch_1))
    as Hload by reflexivity.
  assert (1 < EPOCHS) as Hlt by (cbn; lia).
  assert (cadences_nonzero) as Hc by (unfold cadences_nonzero; cbn; lia).
  split_and!; [exact Hload|exact Hlt|exact Hc|].
  destruct (resume_retrains_loaded_epoch 1 [28; 28; 1] disk_with_epoch_1
              _ _ _ _ _ Hload eq_refl Hlt Hc)
    as (devices & device & L & Hres & _ & Hmarks & _ & _ & _ & Htrained & _
        & Hfirst & _).
  - discriminate.
  - exists L. split_and!; [exact Hres|exact Hmarks|exact Htrained|].
    exact Hfirst.
Defined.

(** C8 on the instance: without training images the run stops at the
    append that follows the empty batch loop. *)
Lemma empty_train_dataset_unbound_local_witness :
  result (run false 0 false [28; 28; 1] no_images)
    = inl (UnboundLocalError "train_loss").
Proof.
  destruct (empty_train_dataset_unbound_local false 0 false [28; 28; 1]
              no_images)
    as (tr & start & model & data & w' & Hsetup & Hempty & _).
  injection Hsetup as _ <- _ <- _.
  apply Hempty; [reflexivity|cbn; lia].
Defined.

(** C3 as the specification states it fails: a resume of the robotics
    task does not call [load_models] at all, although a checkpoint for
    the requested epoch is on disk. *)
Lemma robotics_resume_does_not_load :
  ¬ (∀ robotics_task : bool,
       1 ∈ loaded_models
             (emitted (run true 1 robotics_task [28; 28; 1]
                         disk_with_epoch_1))).
Proof.
  intros Hall. specialize (Hall true). vm_compute in Hall.
  by apply not_elem_of_nil in Hall.
Qed.

(** C4 at a configuration whose optimizer settings differ from the
    literals in [run]: the optimizers of the model that [run] trains
    carry the literals, not [LEARNING_RATE_GEN], [LEARNING_RATE_DISC]
    and [BETA]. *)
Lemma run_ignores_optimizer_configuration :
  ∃ tr start model data w' c,
    setup (params := tuned_params) false 0 false [28; 28; 1] empty_disk
      = Outcome tr (inr (start, model, data)) w' ∧
    compiled model = Some c ∧
    learning_rate (g_optimizer c) = 2 # 10000 ∧
    learning_rate (d_optimizer c) = 1 # 10000 ∧
    beta_1 (g_optimizer c) = 5 # 10 ∧
    beta_1 (d_optimizer c) = 5 # 10 ∧
    ¬ (learning_rate (g_optimizer c) == @LEARNING_RATE_GEN tuned_params)%Q ∧
    ¬ (learning_rate (d_optimizer c) == @LEARNING_RATE_DISC tuned_params)%Q ∧
    ¬ (beta_1 (g_optimizer c) == @BETA tuned_params)%Q ∧
    ¬ (beta_1 (d_optimizer c) == @BETA tuned_params)%Q.
Proof.
  destruct (run_optimizers (params := tuned_params) false 0 false [28; 28; 1]
              empty_disk)
    as (tr & start & model & data & w' & c & Hsetup & Hc & Hg & Hd).
  exists tr, start, model, data, w', c.
  rewrite Hg, Hd. cbn. split_and!; done.
Qed.

(** * The further properties on the instance *)

Lemma toy_cadences_nonzero : cadences_nonzero.
Proof. unfold cadences_nonzero; cbn; lia. Defined.

Lemma test_model_zero_cadence_witness :
  @SAVE_EVERY_TEST zero_test_params = 0 ∧
  result (test_model (params := zero_test_params) toy_model two_batches 5
            true (PyInt 0) empty_disk)
    = inl ZeroDivisionError.
Proof.
  split; [reflexivity|].
  exact (proj1 (test_model_zero_cadence (params := zero_test_params)
                  toy_model (1%nat, 1%nat) [(3%nat, 3%nat)] 5 true (PyInt 0)
                  empty_disk eq_refl)).
Defined.

Lemma test_model_plots_every_batch_witness :
  SAVE_EVERY_TEST ≠ 0 ∧
  plotted (emitted (test_model toy_model two_batches 5 true (PyInt 0)
                      empty_disk))
    = [(1%nat, 1%nat, 1%nat, 5); (3%nat, 3%nat, 3%nat, 5)].
Proof.
  assert (SAVE_EVERY_TEST ≠ 0) as HS by (cbn; lia).
  split; [exact HS|].
  exact (test_model_plots_every_batch toy_model two_batches 5 (PyInt 0)
           empty_disk HS).
Defined.

Lemma test_model_result_independent_of_display_witness :
  SAVE_EVERY_TEST ≠ 0 ∧
  result (test_model toy_model two_batches 5 true (PyInt 0) empty_disk)
    = result (test_model toy_model two_batches 1 false (PyStr "final_test")
                empty_disk).
Proof.
  assert (SAVE_EVERY_TEST ≠ 0) as HS by (cbn; lia).
  split; [exact HS|].
  exact (test_model_result_independent_of_display toy_model two_batches
           5 true (PyInt 0) 1 false (PyStr "final_test") empty_disk HS).
Defined.

Lemma run_exceptions_witness :
  result (run false 0 false [28; 28; 1] no_images)
    = inl (UnboundLocalError "train_loss") ∧
  ∃ tr start model data w',
    setup false 0 false [28; 28; 1] no_images
      = Outcome tr (inr (start, model, data)) w' ∧
    train_dataset data = [] ∧ start < EPOCHS.
Proof.
  assert (result (run false 0 false [28; 28; 1] no_images)
            = inl (UnboundLocalError "train_loss")) as Hres
    by (vm_compute; reflexivity).
  split; [exact Hres|].
  destruct (run_exceptions false 0 false [28; 28; 1] no_images _ Hres)
    as (tr & start & model & data & w' & Hsetup & [(He & _)|(_ & Hnil & Hlt)]).
  - discriminate He.
  - exists tr, start, model, data, w'.
    split_and!; [exact Hsetup|exact Hnil|exact Hlt].
Defined.

Lemma zero_cadence_stops_first_batch_witness :
  (@SAVE_EVERY_TRAIN zero_validation_params = 0 ∨
   @VALIDATION_EVERY zero_validation_params = 0) ∧
  result (epoch_body (params := zero_validation_params) five_batches
            two_batches 0 toy_locals empty_disk)
    = inl ZeroDivisionError ∧
  trained_batches
    (emitted (epoch_body (params := zero_validation_params) five_batches
                two_batches 0 toy_locals empty_disk))
    = [(1%nat, 1%nat)].
Proof.
  assert (@SAVE_EVERY_TRAIN zero_validation_params = 0 ∨
          @VALIDATION_EVERY zero_validation_params = 0) as Hz
    by (right; reflexivity).
  split; [exact Hz|].
  destruct (zero_cadence_stops_first_batch (params := zero_validation_params)
              two_batches 0 (1%nat, 1%nat) (replicate 4 (1%nat, 1%nat))
              toy_locals empty_disk Hz) as (Hres & Htb & _).
  split; [exact Hres|exact Htb].
Defined.

Lemma train_snapshot_cadence_witness :
  cadences_nonzero ∧ five_batches ≠ [] ∧
  (λ s, s.2) <$>
    train_snapshots
      (emitted (epoch_body five_batches two_batches 1 toy_locals empty_disk))
    = [PyInt 0; PyInt 2; PyInt 4].
Proof.
  assert (five_batches ≠ []) as Hne by discriminate.
  split_and!; [exact toy_cadences_nonzero|exact Hne|].
  rewrite (train_snapshot_cadence five_batches two_batches 1 toy_locals
             empty_disk toy_cadences_nonzero Hne).
  vm_compute. reflexivity.
Defined.

Lemma validation_measures_updated_model_witness :
  cadences_nonzero ∧ five_batches ≠ [] ∧
  ∃ L' : locals,
    result (epoch_body five_batches two_batches 0 toy_locals empty_disk)
      = inr L' ∧
    length (val_g_losses L') = 2%nat.
Proof.
  assert (five_batches ≠ []) as Hne by discriminate.
  split_and!; [exact toy_cadences_nonzero|exact Hne|].
  destruct (validation_measures_updated_model five_batches two_batches 0
              toy_locals empty_disk toy_cadences_nonzero Hne)
    as (L' & Hres & Vg & _).
  exists L'. split; [exact Hres|]. rewrite Vg. vm_compute. reflexivity.
Defined.

Lemma checkpoint_holds_trained_networks_witness :
  cadences_nonzero ∧ five_batches ≠ [] ∧
  saved_models
    (emitted (epoch_body five_batches two_batches 1 toy_locals empty_disk))
    = [((0%nat, 1%nat, 2%nat, 3%nat), 1)].
Proof.
  assert (five_batches ≠ []) as Hne by discriminate.
  split_and!; [exact toy_cadences_nonzero|exact Hne|].
  exact (checkpoint_holds_trained_networks five_batches two_batches 1
           toy_locals empty_disk toy_cadences_nonzero Hne).
Defined.

Lemma empty_validation_set_appends_nan_witness :
  cadences_nonzero ∧ five_batches ≠ [] ∧
  ∃ L' : locals,
    result (epoch_body five_batches [] 0 toy_locals empty_disk) = inr L' ∧
    val_g_losses L' = [nan; nan].
Proof.
  assert (five_batches ≠ []) as Hne by discriminate.
  split_and!; [exact toy_cadences_nonzero|exact Hne|].
  destruct (empty_validation_set_appends_nan five_batches 0 toy_locals
              empty_disk toy_cadences_nonzero Hne) as (L' & Hres & Vg & _).
  exists L'. split; [exact Hres|exact Vg].
Defined.

Lemma no_epoch_left_only_tests_witness :
  EPOCHS ≤ 3 ∧ SAVE_EVERY_TEST ≠ 0 ∧
  result (training toy_model toy_data 3 empty_disk) = inr toy_locals ∧
  progress_bars (emitted (training toy_model toy_data 3 empty_disk))
    = ["Epoch final_test"].
Proof.
  assert (EPOCHS ≤ 3) as Hge by (cbn; lia).
  assert (SAVE_EVERY_TEST ≠ 0) as HS by (cbn; lia).
  split_and!; [exact Hge|exact HS|..];
    destruct (no_epoch_left_only_tests toy_model toy_data 3 empty_disk
                Hge HS) as (Hres & _ & _ & Hbars & _).
  - exact Hres.
  - exact Hbars.
Defined.

Lemma history_lengths_witness :
  0 < VALIDATION_EVERY ∧ SAVE_EVERY_TRAIN ≠ 0 ∧ SAVE_EVERY_TEST ≠ 0 ∧
  train_dataset toy_data ≠ [] ∧
  ∃ L : locals,
    result (training toy_model toy_data 1 empty_disk) = inr L ∧
    Z.of_nat (length (train_g_losses L)) = 12 ∧
    Z.of_nat (length (val_g_losses L)) = 4.
Proof.
  assert (0 < VALIDATION_EVERY) as HV by (cbn; lia).
  assert (SAVE_EVERY_TRAIN ≠ 0) as HT by (cbn; lia).
  assert (SAVE_EVERY_TEST ≠ 0) as HS by (cbn; lia).
  assert (train_dataset toy_data ≠ []) as Hne by discriminate.
  split_and!; [exact HV|exact HT|exact HS|exact Hne|].
  destruct (history_lengths toy_model toy_data 1 empty_disk HV HT HS Hne)
    as (L & Hres & Tg & _ & _ & _ & Vg & _).
  exists L. split_and!; [exact Hres|exact Tg|exact Vg].
Defined.

Lemma every_epoch_trains_every_batch_witness :
  cadences_nonzero ∧ train_dataset toy_data ≠ [] ∧
  length (trained_batches (emitted (training toy_model toy_data 1
                                      empty_disk)))
    = 10%nat.
Proof.
  assert (train_dataset toy_data ≠ []) as Hne by discriminate.
  split_and!; [exact toy_cadences_nonzero|exact Hne|].
  rewrite (every_epoch_trains_every_batch toy_model toy_data 1 empty_disk
             toy_cadences_nonzero Hne).
  reflexivity.
Defined.

Lemma training_progress_bars_witness :
  cadences_nonzero ∧ train_dataset toy_data ≠ [] ∧
  progress_bars (emitted (training toy_model toy_data 1 empty_disk))
    = ["Epoch 2"; "Epoch 1_2"; "Epoch 1_4";
       "Epoch 3"; "Epoch 2_2"; "Epoch 2_4"; "Epoch final_test"].
Proof.
  assert (train_dataset toy_data ≠ []) as Hne by discriminate.
  split_and!; [exact toy_cadences_nonzero|exact Hne|].
  exact (training_progress_bars toy_model toy_data 1 empty_disk
           toy_cadences_nonzero Hne).
Defined.

Lemma only_test_propagates_load_failure_witness :
  load_models 7 empty_disk
    = (inl (OtherError "checkpoint not found"), empty_disk) ∧
  result (load_model_and_only_test 7 empty_disk)
    = inl (OtherError "checkpoint not found").
Proof.
  assert (load_models 7 empty_disk
            = (inl (OtherError "checkpoint not found"), empty_disk))
    as Hload by reflexivity.
  split; [exact Hload|].
  rewrite (only_test_propagates_load_failure 7 empty_disk _ _ Hload).
  reflexivity.
Defined.

Lemma only_test_never_trains_witness :
  load_models 1 disk_with_epoch_1
    = (inr (100%nat, 101%nat, 102%nat, 103%nat), disk_with_epoch_1) ∧
  @SAVE_EVERY_TEST distinct_splits_params ≠ 0 ∧
  load_mnist 5 2 3 disk_with_epoch_1
    = ((5%nat, 2%nat, 3%nat), disk_with_epoch_1) ∧
  result (load_model_and_only_test (params := distinct_splits_params) 1
            disk_with_epoch_1) = inr tt ∧
  trained_batches
    (emitted (load_model_and_only_test (params := distinct_splits_params) 1
                disk_with_epoch_1)) = [] ∧
  data_calls
    (emitted (load_model_and_only_test (params := distinct_splits_params) 1
                disk_with_epoch_1))
    = [LoadMnist 5 2 3; AddSaltPepperNoise 3%nat].
Proof.
  assert (load_models 1 disk_with_epoch_1
            = (inr (100%nat, 101%nat, 102%nat, 103%nat), disk_with_epoch_1))
    as Hload by reflexivity.
  assert (@SAVE_EVERY_TEST distinct_splits_params ≠ 0) as HS by (cbn; lia).
  split_and!; [exact Hload|exact HS|reflexivity|..];
    destruct (only_test_never_trains (params := distinct_splits_params) 1
                disk_with_epoch_1 _ _ Hload HS)
      as (Hres & _ & Htb & _ & _ & _ & Hcalls & _).
  - exact Hres.
  - exact Htb.
  - exact Hcalls.
Defined.

Lemma validation_does_not_influence_training_witness :
  cadences_nonzero (params := toy_params) ∧
  cadences_nonzero (params := other_cadence_params) ∧
  five_batches ≠ [] ∧
  ∃ L1 L2 : locals,
    result (epoch_body (params := toy_params) five_batches two_batches 0
              toy_locals empty_disk) = inr L1 ∧
    result (epoch_body (params := other_cadence_params) five_batches [] 0
              toy_locals empty_disk) = inr L2 ∧
    train_g_losses L1 = train_g_losses L2.
Proof.
  assert (cadences_nonzero (params := other_cadence_params)) as Hc2
    by (unfold cadences_nonzero; cbn; lia).
  assert (five_batches ≠ []) as Hne by discriminate.
  split_and!; [exact toy_cadences_nonzero|exact Hc2|exact Hne|].
  destruct (validation_does_not_influence_training toy_params
              other_cadence_params five_batches two_batches [] 0 toy_locals
              empty_disk toy_cadences_nonzero Hc2 Hne)
    as (L1 & L2 & H1 & H2 & _ & _ & _ & Hg & _).
  exists L1, L2. split_and!; [exact H1|exact H2|exact Hg].
Defined.
